(** * Hazel monitor: the detect / decide / remediate loop

    A shallow embedding of [scripts/error_detector.py], [scripts/auto_fixer.py]
    and the error-handling path of [scripts/monitor.py].

    Conventions.
    - Python [str] is [string] (ASCII); [x in s] on strings is [contains].
    - [time.time()] readings, sleeps and durations are rationals ([Q]); the
      rounding of binary floating point is not modelled.
    - A Python [dict] used as a record of details is an association list in
      insertion order; the cooldown table is a [gmap].
    - Effects (clock, device link, logger, exceptions) live in the monad [M].
    - The three asyncio activities are modelled run-to-completion: one handler
      at a time. *)

From Stdlib Require Import Ascii String QArith Lqa.
From stdpp Require Import base option list strings gmap pretty.

Open Scope string_scope.
Open Scope Z_scope.

(** ** Python string primitives *)

Module PyStr.

Definition is_upper (c : ascii) : bool :=
  (65 <=? Z.of_nat (nat_of_ascii c)) && (Z.of_nat (nat_of_ascii c) <=? 90).

Definition is_lower (c : ascii) : bool :=
  (97 <=? Z.of_nat (nat_of_ascii c)) && (Z.of_nat (nat_of_ascii c) <=? 122).

Definition lower_ascii (c : ascii) : ascii :=
  if is_upper c then ascii_of_nat (nat_of_ascii c + 32) else c.

Definition upper_ascii (c : ascii) : ascii :=
  if is_lower c then ascii_of_nat (nat_of_ascii c - 32) else c.

(** [s.lower()] *)
Fixpoint lower (s : string) : string :=
  match s with
  | EmptyString => EmptyString
  | String c s' => String (lower_ascii c) (lower s')
  end.

(** [needle in hay] *)
Fixpoint contains (needle hay : string) : bool :=
  String.prefix needle hay ||
  match hay with
  | EmptyString => false
  | String _ hay' => contains needle hay'
  end.

(** [x in xs] for a list of strings *)
Definition mem (x : string) (xs : list string) : bool :=
  existsb (String.eqb x) xs.

(** Python's whitespace test on ASCII: space, \t, \n, \v, \f, \r and the
    separators 0x1c..0x1f. *)
Definition is_space (c : ascii) : bool :=
  let n := Z.of_nat (nat_of_ascii c) in
  (n =? 32) || ((9 <=? n) && (n <=? 13)) || ((28 <=? n) && (n <=? 31)).

Definition newline : ascii := ascii_of_nat 10.

(** [s.split(sep)] for a one-character separator: never empty. *)
Fixpoint split_on (sep : ascii) (s : string) : list string :=
  match s with
  | EmptyString => [EmptyString]
  | String c s' =>
      if Ascii.eqb c sep then EmptyString :: split_on sep s'
      else match split_on sep s' with
           | [] => [String c EmptyString]
           | w :: ws => String c w :: ws
           end
  end.

(** [s.split()]: maximal runs of non-whitespace. *)
Fixpoint words_aux (cur : option string) (s : string) : list string :=
  match s with
  | EmptyString => match cur with Some w => [w] | None => [] end
  | String c s' =>
      if is_space c
      then match cur with Some w => w :: words_aux None s' | None => words_aux None s' end
      else words_aux (Some (match cur with Some w => w ++ String c EmptyString
                                        | None => String c EmptyString end)) s'
  end.

Definition words (s : string) : list string := words_aux None s.

(** [bool(s.strip())]: some character is not whitespace. *)
Fixpoint has_non_space (s : string) : bool :=
  match s with
  | EmptyString => false
  | String c s' => negb (is_space c) || has_non_space s'
  end.

(** [s.replace(a, b)] for single characters. *)
Fixpoint replace_char (a b : ascii) (s : string) : string :=
  match s with
  | EmptyString => EmptyString
  | String c s' => String (if Ascii.eqb c a then b else c) (replace_char a b s')
  end.

(** [s.title()]: a cased character is upper-cased after an uncased one and
    lower-cased after a cased one. *)
Fixpoint title_aux (prev_cased : bool) (s : string) : string :=
  match s with
  | EmptyString => EmptyString
  | String c s' =>
      let cased := is_upper c || is_lower c in
      String (if prev_cased then lower_ascii c else upper_ascii c) (title_aux cased s')
  end.

Definition title (s : string) : string := title_aux false s.

(** [str(n)] for an int *)
Definition of_Z (n : Z) : string := pretty n.

(** Python truthiness of a string *)
Definition truthy (s : string) : bool :=
  match s with EmptyString => false | _ => true end.

End PyStr.

(** ** The fragment of [re] the classifier uses

    Every rule is a top-level alternation of sequences of literal characters,
    [.] and [.*], compiled with [re.IGNORECASE | re.MULTILINE].  [search]
    is Python's backtracking search: leftmost start, alternatives tried in
    order, [.*] greedy. No rule has an anchor, so MULTILINE changes nothing. *)

Module Re.

Inductive atom : Type :=
| Chr (c : ascii)     (* a literal, compared ignoring case *)
| Dot                 (* any character but newline *)
| DotStar.            (* greedy [.*] *)

Definition regex : Type := list (list atom).

Definition chr_matches (c d : ascii) : bool :=
  Ascii.eqb (PyStr.lower_ascii c) (PyStr.lower_ascii d).

Definition dot_matches (d : ascii) : bool :=
  negb (Ascii.eqb d PyStr.newline).

(** Length of the match of the sequence [p] anchored at the start of [s]. *)
Fixpoint match_here (p : list atom) : string -> option nat :=
  match p with
  | [] => fun _ => Some 0%nat
  | Chr c :: p' => fun s =>
      match s with
      | String d s' => if chr_matches c d then S <$> match_here p' s' else None
      | EmptyString => None
      end
  | Dot :: p' => fun s =>
      match s with
      | String d s' => if dot_matches d then S <$> match_here p' s' else None
      | EmptyString => None
      end
  | DotStar :: p' =>
      fix star (s : string) : option nat :=
        match s with
        | String d s' =>
            if dot_matches d
            then match star s' with
                 | Some n => Some (S n)
                 | None => match_here p' s
                 end
            else match_here p' s
        | EmptyString => match_here p' s
        end
  end.

(** First alternative that matches at the start of [s]. *)
Fixpoint match_alts (r : regex) (s : string) : option nat :=
  match r with
  | [] => None
  | p :: r' =>
      match match_here p s with
      | Some n => Some n
      | None => match_alts r' s
      end
  end.

Fixpoint take (n : nat) (s : string) : string :=
  match n, s with
  | S n', String c s' => String c (take n' s')
  | _, _ => EmptyString
  end.

(** [pattern.search(s)]: [match.group(0)] of the leftmost match. *)
Fixpoint search (r : regex) (s : string) : option string :=
  match match_alts r s with
  | Some n => Some (take n s)
  | None =>
      match s with
      | EmptyString => None
      | String _ s' => search r s'
      end
  end.

(** One alternative of a pattern text: [.*] and [.] are operators, a
    backslash quotes the next character, anything else is a literal. *)
Fixpoint parse_seq (s : string) : list atom :=
  match s with
  | EmptyString => []
  | String c s' =>
      if Ascii.eqb c "."%char then
        match s' with
        | String d s'' =>
            if Ascii.eqb d "*"%char then DotStar :: parse_seq s''
            else Dot :: parse_seq s'
        | EmptyString => [Dot]
        end
      else if Ascii.eqb c "\"%char then
        match s' with
        | String d s'' => Chr d :: parse_seq s''
        | EmptyString => []
        end
      else Chr c :: parse_seq s'
  end.

(** [re.compile(text, re.IGNORECASE | re.MULTILINE)] *)
Definition compile (text : string) : regex :=
  map parse_seq (PyStr.split_on "|"%char text).

End Re.

(** ** Effects: exceptions, the clock, the device link and the logger *)

(** What a Python call yields: a value, or an exception carrying [str(e)]. *)
Inductive outcome (A : Type) : Type :=
| Ok (a : A)
| Raise (e : string).
Arguments Ok {A} a.
Arguments Raise {A} e.

(** The host the daemon runs on: the wall clock, [time.sleep] and the
    [ADBManager] operations the core calls.  The core is written against the
    injected [self.adb]; an operation may raise, which the strategies partly
    guard against themselves. *)
Class Host (H : Type) : Type := {
  host_time : H -> Q * H;
  host_sleep : Q -> H -> H;
  adb_connect : H -> outcome bool * H;
  adb_disconnect : H -> outcome bool * H;
  adb_is_connected : H -> outcome bool * H;
  adb_ensure_connection : H -> outcome bool * H;
  adb_execute_command : string -> H -> outcome (option string) * H;
  adb_is_app_running : H -> outcome bool * H;
  adb_start_app : H -> outcome bool * H;
  adb_force_stop_app : H -> outcome bool * H;
  adb_clear_app_data : H -> outcome bool * H;
  adb_send_key_event : Z -> H -> outcome bool * H;
  adb_get_device_info : H -> outcome bool * H;      (* is a [DeviceInfo] returned *)
  host_write_report : H -> outcome unit * H;        (* [open] and [json.dump] *)
}.

Inductive LogLevel : Type := INFO | WARNING | ERROR.

Record World (H : Type) : Type := mkWorld {
  host : H;
  logs : list (LogLevel * string);
}.
Arguments mkWorld {H} _ _.
Arguments host {H} _.
Arguments logs {H} _.

(** State-and-exception monad over an object state [S] (the fields of
    [self]) and the world.  An exception keeps every effect done so far. *)
Definition M (H S A : Type) : Type := S -> World H -> outcome A * S * World H.

Definition ret {H S A} (a : A) : M H S A := fun s w => (Ok a, s, w).

Definition bind {H S A B} (m : M H S A) (k : A -> M H S B) : M H S B :=
  fun s w =>
    match m s w with
    | (Ok a, s', w') => k a s' w'
    | (Raise e, s', w') => (Raise e, s', w')
    end.

Definition raise {H S A} (e : string) : M H S A := fun s w => (Raise e, s, w).

(** [try: body except Exception as e: handler(str(e))] *)
Definition try_except {H S A} (body : M H S A) (handler : string -> M H S A) : M H S A :=
  fun s w =>
    match body s w with
    | (Ok a, s', w') => (Ok a, s', w')
    | (Raise e, s', w') => handler e s' w'
    end.

(** Reading [self] and assigning to its fields. *)
Definition get {H S} : M H S S := fun s w => (Ok s, s, w).
Definition modify {H S} (f : S -> S) : M H S unit := fun s w => (Ok tt, f s, w).

(** Running a method of a component object held in a field of [self]. *)
Definition zoom {H S T A} (proj : T -> S) (upd : S -> T -> T) (m : M H S A) : M H T A :=
  fun t w => let '(r, s', w') := m (proj t) w in (r, upd s' t, w').

(** The world after one more log record. *)
Definition logged {H} (lvl : LogLevel) (msg : string) (w : World H) : World H :=
  mkWorld (host w) (logs w ++ [(lvl, msg)])%list.

Declare Scope py_scope.
Delimit Scope py_scope with py.
Notation "x <- m ;; k" := (bind m (fun x => k))
  (at level 100, m at next level, right associativity) : py_scope.
Notation "m ;;; k" := (bind m (fun _ => k))
  (at level 100, right associativity) : py_scope.
Open Scope py_scope.

Section Effects.
Context {H : Type} `{Host H} {St : Type}.

Definition lift_host {A} (f : H -> outcome A * H) : M H St A :=
  fun s w => let '(r, h) := f (host w) in (r, s, mkWorld h (logs w)).

(** [time.time()] *)
Definition time_time : M H St Q :=
  fun s w => let '(t, h) := host_time (host w) in (Ok t, s, mkWorld h (logs w)).

(** [time.sleep(d)] *)
Definition time_sleep (d : Q) : M H St unit :=
  fun s w => (Ok tt, s, mkWorld (host_sleep d (host w)) (logs w)).

(** [self.logger.<level>(msg)] *)
Definition log_msg (lvl : LogLevel) (msg : string) : M H St unit :=
  fun s w => (Ok tt, s, logged lvl msg w).

Definition connect : M H St bool := lift_host adb_connect.
Definition disconnect : M H St bool := lift_host adb_disconnect.
Definition is_connected : M H St bool := lift_host adb_is_connected.
Definition ensure_connection : M H St bool := lift_host adb_ensure_connection.
Definition execute_command (cmd : string) : M H St (option string) :=
  lift_host (adb_execute_command cmd).
Definition is_app_running : M H St bool := lift_host adb_is_app_running.
Definition start_app : M H St bool := lift_host adb_start_app.
Definition force_stop_app : M H St bool := lift_host adb_force_stop_app.
Definition clear_app_data : M H St bool := lift_host adb_clear_app_data.
Definition send_key_event (code : Z) : M H St bool := lift_host (adb_send_key_event code).
Definition get_device_info : M H St bool := lift_host adb_get_device_info.
Definition write_report : M H St unit := lift_host host_write_report.

(** [for _ in range(n): body] *)
Fixpoint repeat_m (n : nat) (body : M H St unit) : M H St unit :=
  match n with
  | O => ret tt
  | S n' => body ;;; repeat_m n' body
  end.

End Effects.

(** [lst[-n:]] for an int [n]: the last [n] items when [n] is positive, the
    whole list when [n] is zero, the tail from index [-n] when [n] is
    negative. *)
Definition py_last {A} (n : Z) (l : list A) : list A :=
  if 0 <? n then drop (length l - Z.to_nat n)%nat l
  else drop (Z.to_nat (- n)) l.

(** [lst.append(x)] *)
Definition append {A} (lst : list A) (x : A) : list A := (lst ++ [x])%list.

(** ** Data model *)

Inductive ErrorSeverity : Type := LOW | MEDIUM | HIGH | CRITICAL.

Definition severity_value (s : ErrorSeverity) : string :=
  match s with
  | LOW => "low" | MEDIUM => "medium" | HIGH => "high" | CRITICAL => "critical"
  end.

Definition severity_eqb (a b : ErrorSeverity) : bool :=
  match a, b with
  | LOW, LOW | MEDIUM, MEDIUM | HIGH, HIGH | CRITICAL, CRITICAL => true
  | _, _ => false
  end.

(** The values the [details] dictionaries hold. *)
#[warnings="-register-all"]
Inductive value : Type :=
| VNone
| VInt (n : Z)
| VNum (q : Q)
| VStr (s : string)
| VStrs (l : list string)
| VDict (d : list (string * value)).

Definition dict : Type := list (string * value).

(** [d.get(k)] *)
Fixpoint dict_get (k : string) (d : dict) : option value :=
  match d with
  | [] => None
  | (k', v) :: d' => if String.eqb k k' then Some v else dict_get k d'
  end.

Record DetectedError : Type := mkError {
  error_type : string;
  severity : ErrorSeverity;
  message : string;
  details : dict;
  timestamp : Q;
  source : string;
}.

(** [DetectedError.to_dict] *)
Definition to_dict (e : DetectedError) : dict :=
  [ ("error_type", VStr (error_type e));
    ("severity", VStr (severity_value (severity e)));
    ("message", VStr (message e));
    ("details", VDict (details e));
    ("timestamp", VNum (timestamp e));
    ("source", VStr (source e)) ].

(** ** error_detector.py *)

(** A [re.Match]: [group(0)] and [.string]. *)
Record Match : Type := mkMatch {
  group0 : string;
  match_string : string;
}.

(** [x < y] on the rationals. *)
Definition Qltb (x y : Q) : bool := negb (Qle_bool y x).

(** [a / b] on ints: true division, raising on a zero divisor. *)
Definition truediv (a b : Z) : outcome Q :=
  if b =? 0 then Raise "division by zero" else Ok (inject_Z a / inject_Z b)%Q.

Module ErrorPattern.

Record t : Type := mk {
  name : string;
  pattern : Re.regex;
  severity : ErrorSeverity;
  extract_func : Match -> outcome dict;
}.

Definition _default_extract (m : Match) : outcome dict :=
  Ok [("matched_text", VStr (group0 m))].

(** [ErrorPattern.match] *)
Definition match_ (self : t) (text : string) : outcome (option dict) :=
  match Re.search (pattern self) text with
  | Some g =>
      match extract_func self (mkMatch g text) with
      | Ok d => Ok (Some d)
      | Raise e => Raise e
      end
  | None => Ok None
  end.

End ErrorPattern.

(** [self.config.get("ui_monitoring", {})] with the defaults of each
    [.get] call site. *)
Record UiConfig : Type := mkUiConfig {
  state_aware_checking : bool;
  expected_elements_by_state : gmap string (list string);
  ignore_missing_elements_in_states : list string;
  strict_element_checking : bool;
  focus_monitoring_enabled : bool;
  focus_monitoring_ignore_in_states : list string;
}.

Definition default_ui_config : UiConfig :=
  {| state_aware_checking := true;
     expected_elements_by_state := ∅;
     ignore_missing_elements_in_states := [];
     strict_element_checking := false;
     focus_monitoring_enabled := true;
     focus_monitoring_ignore_in_states := [] |}.

Record ErrorDetector : Type := mkDetector {
  app_package : string;
  ui_config : UiConfig;
  error_patterns : list ErrorPattern.t;
  error_history : list DetectedError;
  max_history_size : Z;
  _last_memory_usage : option Z;      (* [hasattr(self, '_last_memory_usage')] *)
}.

Definition set_error_history (h : list DetectedError) (d : ErrorDetector) : ErrorDetector :=
  {| app_package := app_package d; ui_config := ui_config d;
     error_patterns := error_patterns d; error_history := h;
     max_history_size := max_history_size d;
     _last_memory_usage := _last_memory_usage d |}.

Definition set_last_memory_usage (m : Z) (d : ErrorDetector) : ErrorDetector :=
  {| app_package := app_package d; ui_config := ui_config d;
     error_patterns := error_patterns d; error_history := error_history d;
     max_history_size := max_history_size d;
     _last_memory_usage := Some m |}.

(** The loop that looks for the start of the crash: the index of the first
    line that has the marker; [start_idx] stays 0 when no line has it. *)
Fixpoint crash_start_from (i : nat) (lines : list string) : nat :=
  match lines with
  | [] => 0%nat
  | l :: ls =>
      if PyStr.contains "FATAL EXCEPTION" l then i else crash_start_from (S i) ls
  end.

Fixpoint _extract_exception_type (crash_lines : list string) : outcome value :=
  match crash_lines with
  | [] => Ok VNone
  | line :: rest =>
      if PyStr.contains "Exception:" line || PyStr.contains "Error:" line then
        let parts := PyStr.split_on ":"%char line in
        if (2 <=? length parts)%nat then
          match parts with
          | p0 :: _ =>
              match last (PyStr.words p0) with
              | Some w => Ok (VStr w)
              | None => Raise "list index out of range"
              end
          | [] => Raise "list index out of range"
          end
        else _extract_exception_type rest
      else _extract_exception_type rest
  end.

Definition _extract_crash_info (m : Match) : outcome dict :=
  let lines := PyStr.split_on PyStr.newline (match_string m) in
  let start_idx := crash_start_from 0 lines in
  let crash_lines := List.filter PyStr.has_non_space (take 20 (drop start_idx lines)) in
  match _extract_exception_type crash_lines with
  | Ok ty => Ok [("crash_trace", VStrs crash_lines); ("exception_type", ty)]
  | Raise e => Raise e
  end.

Definition _extract_anr_info (m : Match) : outcome dict :=
  Ok [("anr_text", VStr (group0 m)); ("reason", VStr "Application not responding")].

Definition _extract_network_error (m : Match) : outcome dict :=
  Ok [("network_error", VStr (group0 m)); ("error_type", VStr "connectivity")].

Definition _extract_webview_error (m : Match) : outcome dict :=
  Ok [("webview_error", VStr (group0 m)); ("component", VStr "webview")].

Definition new_pattern (name pattern : string) (sev : ErrorSeverity)
    (extract : option (Match -> outcome dict)) : ErrorPattern.t :=
  ErrorPattern.mk name (Re.compile pattern) sev
    (default ErrorPattern._default_extract extract).

Definition _initialize_patterns (app_package : string) : list ErrorPattern.t :=
  [ new_pattern "app_crash" ("FATAL EXCEPTION.*" ++ app_package) CRITICAL
      (Some _extract_crash_info);
    new_pattern "anr" ("ANR in " ++ app_package) HIGH (Some _extract_anr_info);
    new_pattern "out_of_memory" "OutOfMemoryError|OOM|Low memory|GC_FOR_ALLOC" HIGH None;
    new_pattern "network_error"
      "NetworkOnMainThreadException|ConnectException|SocketException|UnknownHostException"
      MEDIUM (Some _extract_network_error);
    new_pattern "webview_error"
      "WebView.*error|onReceivedError|ERR_|Failed to load|net::ERR_"
      MEDIUM (Some _extract_webview_error);
    new_pattern "profile_error"
      "ProfileManager.*error|Failed to.*profile|Profile.*not found" MEDIUM None;
    new_pattern "preferences_error"
      "SharedPreferences.*error|Failed to save|Gson.*error" LOW None;
    new_pattern "focus_error"
      "Focus.*error|IllegalStateException.*focus|Unable to focus" LOW None;
    new_pattern "lifecycle_error"
      (app_package ++ ".*IllegalStateException|Activity.*destroyed|Fragment.*destroyed")
      MEDIUM None;
    new_pattern "permission_error"
      "SecurityException|Permission denied|ACCESS_DENIED" MEDIUM None;
    new_pattern "resource_error"
      "ResourceNotFoundException|Unable to find resource|Resources\$NotFoundException"
      LOW None ].

(** [ErrorDetector.__init__] *)
Definition new_detector (ui : UiConfig) : ErrorDetector :=
  {| app_package := "com.webviewer.firetv";
     ui_config := ui;
     error_patterns := _initialize_patterns "com.webviewer.firetv";
     error_history := [];
     max_history_size := 1000;
     _last_memory_usage := None |}.

(** The text [visibility="gone"]. *)
Definition dquote : string := String (ascii_of_nat 34) EmptyString.
Definition visibility_gone : string := "visibility=" ++ dquote ++ "gone" ++ dquote.
Definition focused_true : string := "focused=" ++ dquote ++ "true" ++ dquote.

Definition relevance_keywords : list string :=
  ["fatal"; "error"; "exception"; "crash"; "anr"].

(** [_detect_app_state] *)
Definition _detect_app_state (ui_dump : string) : string :=
  if PyStr.contains "SettingsActivity" ui_dump
     || PyStr.contains "ProfilesActivity" ui_dump
     || PyStr.contains "ProfileEditActivity" ui_dump
  then "settings"
  else if PyStr.contains "loading" (PyStr.lower ui_dump)
          || PyStr.contains "progress" (PyStr.lower ui_dump)
  then "loading"
  else if PyStr.contains "welcomeContainer" ui_dump
          && negb (PyStr.contains visibility_gone ui_dump)
  then "error_welcome"
  else if PyStr.contains "webViewCard" ui_dump
          && negb (PyStr.contains visibility_gone ui_dump)
  then "browsing"
  else "unknown".

Definition core_elements : list string := ["profilesButton"; "webView"; "browserToolbar"].

(** [_get_expected_elements_for_state] *)
Definition _get_expected_elements_for_state (cfg : UiConfig) (app_state ui_dump : string)
    : list string :=
  if negb (state_aware_checking cfg) then core_elements
  else
    let expected := default [] (expected_elements_by_state cfg !! app_state) in
    let expected :=
      if PyStr.mem app_state (ignore_missing_elements_in_states cfg) then [] else expected in
    if strict_element_checking cfg then
      if String.eqb app_state "browsing" then core_elements else expected
    else expected.

Section ErrorDetectorMethods.
Context {H : Type} `{Host H}.

Definition mk_logcat_error (p : ErrorPattern.t) (d : dict) (t : Q) : DetectedError :=
  {| error_type := ErrorPattern.name p;
     severity := ErrorPattern.severity p;
     message := PyStr.title (PyStr.replace_char "_"%char " "%char (ErrorPattern.name p))
                ++ " detected";
     details := d;
     timestamp := t;
     source := "logcat" |}.

(** The [for pattern in self.error_patterns] loop. *)
Fixpoint scan_patterns (ps : list ErrorPattern.t) (line : string)
    (detected_errors : list DetectedError) : M H ErrorDetector (list DetectedError) :=
  match ps with
  | [] => ret detected_errors
  | p :: ps' =>
      match ErrorPattern.match_ p line with
      | Raise e => raise e
      | Ok (Some ((_ :: _) as match_details)) =>
          t <- time_time ;;
          scan_patterns ps' line (append detected_errors (mk_logcat_error p match_details t))
      | Ok _ => scan_patterns ps' line detected_errors
      end
  end.

(** The relevance pre-filter of [analyze_logcat_line]. *)
Definition relevant (pkg line : string) : bool :=
  PyStr.contains pkg line
  || existsb (fun keyword => PyStr.contains keyword (PyStr.lower line)) relevance_keywords.

Definition analyze_logcat_line (line : string) : M H ErrorDetector (list DetectedError) :=
  self <- get ;;
  if relevant (app_package self) line
  then scan_patterns (error_patterns self) line []
  else ret [].

Definition mk_memory_leak (last_usage total_pss : Z) (increase_percentage t : Q)
    : DetectedError :=
  {| error_type := "potential_memory_leak";
     severity := HIGH;
     message := "Potential memory leak: " ++ PyStr.of_Z last_usage
                ++ "KB -> " ++ PyStr.of_Z total_pss ++ "KB";
     details := [("previous_usage_kb", VInt last_usage);
                 ("current_usage_kb", VInt total_pss);
                 ("increase_percentage", VNum increase_percentage)];
     timestamp := t;
     source := "memory" |}.

(** [analyze_memory_usage]; [memory_info] holds the parsed int counters.
    The details of the leak error are built, and the division is done,
    before the timestamp is read.  The leak test and the percentage are
    computed exactly.  The code computes them in floats: for samples of
    magnitude up to 2^51 the product [last_usage * 1.5] is exact and the
    test is the one here, while the percentage is rounded to a float; for
    larger samples the product is rounded, and from about 2^1024 on the
    conversion to a float raises [OverflowError].  Neither is modelled. *)
Definition analyze_memory_usage (memory_info : gmap string Z)
    : M H ErrorDetector (list DetectedError) :=
  if decide (memory_info = ∅) then ret []
  else
    let total_pss := default 0 (memory_info !! "total_pss_kb") in
    detected_errors <-
      (if 500000 <? total_pss then
         t <- time_time ;;
         ret [ {| error_type := "high_memory_usage";
                  severity := MEDIUM;
                  message := "High memory usage detected: " ++ PyStr.of_Z total_pss ++ "KB";
                  details := [("memory_usage_kb", VInt total_pss);
                              ("threshold_kb", VInt 500000)];
                  timestamp := t;
                  source := "memory" |} ]
       else ret []) ;;
    self <- get ;;
    detected_errors <-
      match _last_memory_usage self with
      | Some last_usage =>
          if Qltb (inject_Z last_usage * (3 # 2)) (inject_Z total_pss) then
            match truediv (total_pss - last_usage) last_usage with
            | Raise e => raise e
            | Ok ratio =>
                t <- time_time ;;
                ret (append detected_errors
                       (mk_memory_leak last_usage total_pss (ratio * 100) t))
            end
          else ret detected_errors
      | None => ret detected_errors
      end ;;
    modify (set_last_memory_usage total_pss) ;;;
    ret detected_errors.

Definition mk_missing_element (element app_state : string) (expected : list string) (t : Q)
    : DetectedError :=
  {| error_type := "missing_ui_element";
     severity := LOW;
     message := "Missing UI element: " ++ element ++ " (state: " ++ app_state ++ ")";
     details := [("missing_element", VStr element);
                 ("app_state", VStr app_state);
                 ("expected_elements", VStrs expected)];
     timestamp := t;
     source := "ui" |}.

(** The [for element in expected_elements] loop. *)
Fixpoint scan_elements (elements expected : list string) (app_state ui_dump : string)
    (detected_errors : list DetectedError) : M H ErrorDetector (list DetectedError) :=
  match elements with
  | [] => ret detected_errors
  | element :: rest =>
      if negb (PyStr.contains element ui_dump) then
        t <- time_time ;;
        scan_elements rest expected app_state ui_dump
          (append detected_errors (mk_missing_element element app_state expected t))
      else scan_elements rest expected app_state ui_dump detected_errors
  end.

Definition analyze_ui_dump (ui_dump : string) : M H ErrorDetector (list DetectedError) :=
  if negb (PyStr.truthy ui_dump) then ret []
  else
    self <- get ;;
    let app_state := _detect_app_state ui_dump in
    let expected_elements :=
      _get_expected_elements_for_state (ui_config self) app_state ui_dump in
    detected_errors <- scan_elements expected_elements expected_elements app_state ui_dump [] ;;
    if focus_monitoring_enabled (ui_config self) then
      if negb (PyStr.mem app_state (focus_monitoring_ignore_in_states (ui_config self)))
         && negb (PyStr.contains focused_true ui_dump)
      then
        t <- time_time ;;
        ret (append detected_errors
               {| error_type := "no_focused_element";
                  severity := LOW;
                  message := "No focused UI element detected (state: " ++ app_state ++ ")";
                  details := [("app_state", VStr app_state)];
                  timestamp := t;
                  source := "ui" |})
      else ret detected_errors
    else ret detected_errors.

Definition expected_activities : list string :=
  [ "com.webviewer.firetv.MainActivity";
    "com.webviewer.firetv.SettingsActivity";
    "com.webviewer.firetv.ProfilesActivity";
    "com.webviewer.firetv.ProfileEditActivity" ].

Definition analyze_app_state (is_running : bool) (current_activity : option string)
    : M H ErrorDetector (list DetectedError) :=
  detected_errors <-
    (if negb is_running then
       t <- time_time ;;
       ret [ {| error_type := "app_not_running";
                severity := HIGH;
                message := "App is not running when it should be";
                details := [("expected_state", VStr "running");
                            ("actual_state", VStr "stopped")];
                timestamp := t;
                source := "app_state" |} ]
     else ret []) ;;
  match current_activity with
  | Some activity =>
      if PyStr.truthy activity
         && negb (existsb (fun a => PyStr.contains a activity) expected_activities)
      then
        t <- time_time ;;
        ret (append detected_errors
               {| error_type := "unexpected_activity";
                  severity := LOW;
                  message := "App in unexpected activity: " ++ activity;
                  details := [("current_activity", VStr activity);
                              ("expected_activities", VStrs expected_activities)];
                  timestamp := t;
                  source := "app_state" |})
      else ret detected_errors
  | None => ret detected_errors
  end.

Definition add_detected_error (error : DetectedError) : M H ErrorDetector unit :=
  modify (fun self => set_error_history (append (error_history self) error) self) ;;;
  self <- get ;;
  (if max_history_size self <? Z.of_nat (length (error_history self))
   then modify (set_error_history (py_last (max_history_size self) (error_history self)))
   else ret tt) ;;;
  log_msg ERROR ("Detected " ++ severity_value (severity error) ++ " error: "
                 ++ error_type error ++ " - " ++ message error).

(** The errors of [history] not older than [cutoff_time]. *)
Definition recent_since (cutoff_time : Q) (history : list DetectedError)
    : list DetectedError :=
  List.filter (fun error => Qle_bool cutoff_time (timestamp error)) history.

Definition get_recent_errors (minutes : Z) : M H ErrorDetector (list DetectedError) :=
  now <- time_time ;;
  self <- get ;;
  ret (recent_since (now - inject_Z (minutes * 60)) (error_history self)).

Definition should_trigger_autofix (error : DetectedError) : M H ErrorDetector bool :=
  if severity_eqb (severity error) CRITICAL then ret true
  else if severity_eqb (severity error) HIGH then ret true
  else if severity_eqb (severity error) MEDIUM then
    recent <- get_recent_errors 10 ;;
    let recent_similar :=
      List.filter (fun e => String.eqb (error_type e) (error_type error)) recent in
    ret (3 <=? length recent_similar)%nat
  else ret false.

End ErrorDetectorMethods.

(** ** auto_fixer.py *)

Inductive FixResult : Type := SUCCESS | FAILED | PARTIAL | SKIPPED.

Definition result_value (r : FixResult) : string :=
  match r with
  | SUCCESS => "success" | FAILED => "failed" | PARTIAL => "partial" | SKIPPED => "skipped"
  end.

Definition result_eqb (a b : FixResult) : bool :=
  match a, b with
  | SUCCESS, SUCCESS | FAILED, FAILED | PARTIAL, PARTIAL | SKIPPED, SKIPPED => true
  | _, _ => false
  end.

Module FixAction.

Record t : Type := mk {
  action_name : string;
  result : FixResult;
  message : string;
  details : dict;
  timestamp : Q;
  duration : Q;
}.

End FixAction.

(** A fix strategy: a bound method [self._fix_*].  It talks to the device,
    sleeps and logs; it never touches the fixer's own fields. *)
Definition Strategy (H : Type) : Type := DetectedError -> M H unit FixResult.

Record AutoFixer (H : Type) : Type := mkFixer {
  fix_strategies : gmap string (Strategy H);
  fix_history : list FixAction.t;
  max_fix_attempts : Z;
  fix_cooldown : Q;
  last_fix_times : gmap string Q;
}.
Arguments mkFixer {H} _ _ _ _ _.
Arguments fix_strategies {H} _.
Arguments fix_history {H} _.
Arguments max_fix_attempts {H} _.
Arguments fix_cooldown {H} _.
Arguments last_fix_times {H} _.

Definition set_fix_history {H} (h : list FixAction.t) (f : AutoFixer H) : AutoFixer H :=
  mkFixer (fix_strategies f) h (max_fix_attempts f) (fix_cooldown f) (last_fix_times f).

Definition set_last_fix_times {H} (t : gmap string Q) (f : AutoFixer H) : AutoFixer H :=
  mkFixer (fix_strategies f) (fix_history f) (max_fix_attempts f) (fix_cooldown f) t.

(** [str(v)] inside the log texts.  Exact for the strings, ints and [None]
    the classifier stores under the keys the strategies read; other values
    are only tagged. *)
Definition py_str (v : value) : string :=
  match v with
  | VNone => "None"
  | VInt n => PyStr.of_Z n
  | VStr s => s
  | VNum _ => "<float>"
  | VStrs _ => "<list>"
  | VDict _ => "<dict>"
  end.

(** [v == s] and [v in strs] for a value read from [details]. *)
Definition value_is (v : value) (s : string) : bool :=
  match v with VStr s' => String.eqb s' s | _ => false end.

Definition value_in (v : value) (strs : list string) : bool :=
  match v with VStr s' => PyStr.mem s' strs | _ => false end.

Section Strategies.
Context {H : Type} `{Host H}.

Local Abbreviation Script := (M H unit FixResult).

Definition _fix_app_crash (error : DetectedError) : Script :=
  log_msg INFO "Fixing app crash by restarting app" ;;;
  stopped <- force_stop_app ;;
  if negb stopped then ret FAILED
  else
    time_sleep 2 ;;;
    started <- start_app ;;
    if started then
      time_sleep 5 ;;;
      running <- is_app_running ;;
      if running then ret SUCCESS else ret FAILED
    else ret FAILED.

Definition _fix_anr (error : DetectedError) : Script :=
  log_msg INFO "Fixing ANR by force restarting app" ;;;
  send_key_event 4 ;;;
  time_sleep 1 ;;;
  stopped <- force_stop_app ;;
  if negb stopped then ret FAILED
  else
    time_sleep 3 ;;;
    started <- start_app ;;
    if started then
      time_sleep 5 ;;;
      running <- is_app_running ;;
      if running then ret SUCCESS else ret FAILED
    else ret FAILED.

Definition _fix_memory_issue (error : DetectedError) : Script :=
  log_msg INFO "Fixing memory issue by clearing cache" ;;;
  force_stop_app ;;;
  time_sleep 2 ;;;
  restarted <-
    try_except
      (execute_command "pm trim-caches 1000M" ;;;
       time_sleep 2 ;;;
       started <- start_app ;;
       if started then time_sleep 5 ;;; ret true else ret false)
      (fun e => log_msg ERROR ("Failed to clear cache: " ++ e) ;;; ret false) ;;
  if restarted then ret SUCCESS else ret FAILED.

Definition _fix_network_error (error : DetectedError) : Script :=
  log_msg INFO "Fixing network error by refreshing WebView" ;;;
  running <- is_app_running ;;
  if running then
    send_key_event 19 ;;;
    time_sleep (1 # 2) ;;;
    send_key_event 22 ;;;
    time_sleep (1 # 2) ;;;
    send_key_event 22 ;;;
    time_sleep (1 # 2) ;;;
    send_key_event 23 ;;;
    ret SUCCESS
  else ret FAILED.

Definition _fix_webview_error (error : DetectedError) : Script :=
  log_msg INFO "Fixing WebView error" ;;;
  refresh_result <- _fix_network_error error ;;
  if result_eqb refresh_result SUCCESS then ret SUCCESS
  else _fix_app_crash error.

Definition _fix_profile_error (error : DetectedError) : Script :=
  log_msg INFO "Fixing profile error by navigating to profiles" ;;;
  running <- is_app_running ;;
  if running then
    send_key_event 19 ;;;
    time_sleep (1 # 2) ;;;
    repeat_m 5 (send_key_event 22 ;;; time_sleep (3 # 10)) ;;;
    send_key_event 23 ;;;
    ret PARTIAL
  else ret FAILED.

Definition _fix_preferences_error (error : DetectedError) : Script :=
  log_msg INFO "Fixing preferences error by clearing app data" ;;;
  force_stop_app ;;;
  time_sleep 2 ;;;
  cleared <- clear_app_data ;;
  if cleared then
    time_sleep 3 ;;;
    started <- start_app ;;
    if started then time_sleep 5 ;;; ret SUCCESS else ret FAILED
  else ret FAILED.

Definition _fix_focus_error (error : DetectedError) : Script :=
  log_msg INFO "Fixing focus error by resetting navigation" ;;;
  running <- is_app_running ;;
  if running then
    send_key_event 4 ;;;
    time_sleep 1 ;;;
    send_key_event 23 ;;;
    ret PARTIAL
  else ret FAILED.

Definition _fix_lifecycle_error (error : DetectedError) : Script :=
  log_msg INFO "Fixing lifecycle error by restarting app" ;;;
  _fix_app_crash error.

Definition _fix_app_not_running (error : DetectedError) : Script :=
  log_msg INFO "Fixing app not running by starting app" ;;;
  started <- start_app ;;
  if started then
    time_sleep 5 ;;;
    running <- is_app_running ;;
    if running then ret SUCCESS else ret FAILED
  else ret FAILED.

Definition _fix_high_memory_usage (error : DetectedError) : Script :=
  log_msg INFO "Fixing high memory usage" ;;;
  running <- is_app_running ;;
  trimmed <-
    (if running then
       try_except
         (execute_command "am broadcast -a android.intent.action.TRIM_MEMORY" ;;;
          time_sleep 2 ;;;
          ret true)
         (fun _ => ret false)
     else ret false) ;;
  if trimmed then ret PARTIAL else _fix_memory_issue error.

Definition _fix_memory_leak (error : DetectedError) : Script :=
  log_msg INFO "Fixing potential memory leak by restarting app" ;;;
  _fix_memory_issue error.

Definition _recover_to_main_activity : Script :=
  try_except
    (send_key_event 4 ;;;
     time_sleep (1 # 2) ;;;
     send_key_event 3 ;;;
     time_sleep 1 ;;;
     send_key_event 23 ;;;
     time_sleep (1 # 2) ;;;
     ret PARTIAL)
    (fun e => log_msg ERROR ("Failed to recover to main activity: " ++ e) ;;; ret FAILED).

Definition _gentle_recovery : Script :=
  try_except
    (send_key_event 20 ;;;
     time_sleep (3 # 10) ;;;
     send_key_event 19 ;;;
     time_sleep (3 # 10) ;;;
     ret PARTIAL)
    (fun e => log_msg ERROR ("Gentle recovery failed: " ++ e) ;;; ret FAILED).

Definition _fix_missing_ui_element (error : DetectedError) : Script :=
  let missing_element := default (VStr "unknown") (dict_get "missing_element" (details error)) in
  let app_state := default (VStr "unknown") (dict_get "app_state" (details error)) in
  log_msg INFO ("Fixing missing UI element: " ++ py_str missing_element
                ++ " in state: " ++ py_str app_state) ;;;
  running <- is_app_running ;;
  if negb running then
    log_msg WARNING "App not running, cannot fix missing UI element" ;;;
    ret FAILED
  else if value_is app_state "settings" && value_in missing_element core_elements then
    log_msg INFO "Missing browser elements in settings state is expected" ;;;
    ret SUCCESS
  else if value_in app_state ["loading"; "error_welcome"]
          && value_in missing_element core_elements then
    log_msg INFO ("Missing browser elements in " ++ py_str app_state
                  ++ " state is expected") ;;;
    ret SUCCESS
  else if value_is app_state "browsing" && value_in missing_element core_elements then
    log_msg WARNING "Browser elements missing in browsing state - attempting recovery" ;;;
    _recover_to_main_activity
  else if value_is app_state "unknown" then
    log_msg INFO "Unknown app state - attempting gentle recovery" ;;;
    _gentle_recovery
  else
    log_msg INFO "Using default recovery strategy" ;;;
    _gentle_recovery.

Definition _fix_no_focus (error : DetectedError) : Script :=
  log_msg INFO "Fixing no focused element" ;;;
  running <- is_app_running ;;
  if running then
    send_key_event 20 ;;;
    time_sleep (1 # 2) ;;;
    send_key_event 19 ;;;
    time_sleep (1 # 2) ;;;
    send_key_event 23 ;;;
    ret PARTIAL
  else ret FAILED.

Definition _fix_unexpected_activity (error : DetectedError) : Script :=
  log_msg INFO "Fixing unexpected activity by navigating to main" ;;;
  repeat_m 3 (send_key_event 4 ;;; time_sleep 1) ;;;
  ret PARTIAL.

Definition _initialize_fix_strategies : gmap string (Strategy H) :=
  list_to_map
    [ ("app_crash", _fix_app_crash);
      ("anr", _fix_anr);
      ("out_of_memory", _fix_memory_issue);
      ("network_error", _fix_network_error);
      ("webview_error", _fix_webview_error);
      ("profile_error", _fix_profile_error);
      ("preferences_error", _fix_preferences_error);
      ("focus_error", _fix_focus_error);
      ("lifecycle_error", _fix_lifecycle_error);
      ("app_not_running", _fix_app_not_running);
      ("high_memory_usage", _fix_high_memory_usage);
      ("potential_memory_leak", _fix_memory_leak);
      ("missing_ui_element", _fix_missing_ui_element);
      ("no_focused_element", _fix_no_focus);
      ("unexpected_activity", _fix_unexpected_activity) ].

End Strategies.

Section AutoFixerMethods.
Context {H : Type} `{Host H}.

(** [AutoFixer.__init__] *)
Definition new_fixer : AutoFixer H :=
  {| fix_strategies := _initialize_fix_strategies;
     fix_history := [];
     max_fix_attempts := 3;
     fix_cooldown := 60;
     last_fix_times := ∅ |}.

Definition can_attempt_fix (error_type : string) : M H (AutoFixer H) bool :=
  self <- get ;;
  let last_fix_time := default 0%Q (last_fix_times self !! error_type) in
  now <- time_time ;;
  ret (Qle_bool (fix_cooldown self) (now - last_fix_time)).

(** Calling the bound strategy from inside [apply_fix]. *)
Definition call_strategy (fix_strategy : Strategy H) (error : DetectedError)
    : M H (AutoFixer H) FixResult :=
  zoom (fun _ => tt) (fun _ self => self) (fix_strategy error).

Definition apply_fix (error : DetectedError) : M H (AutoFixer H) (option FixAction.t) :=
  ok <- can_attempt_fix (error_type error) ;;
  if negb ok then
    log_msg INFO ("Fix for " ++ error_type error ++ " is in cooldown") ;;;
    ret None
  else
    self <- get ;;
    match fix_strategies self !! error_type error with
    | None =>
        log_msg WARNING ("No fix strategy for error type: " ++ error_type error) ;;;
        ret None
    | Some fix_strategy =>
        log_msg INFO ("Attempting to fix " ++ error_type error) ;;;
        start_time <- time_time ;;
        try_except
          (result <- call_strategy fix_strategy error ;;
           end_time <- time_time ;;
           let fix_action :=
             FixAction.mk ("fix_" ++ error_type error) result
               ("Fix attempt for " ++ error_type error)
               [("original_error", VDict (to_dict error))]
               start_time (end_time - start_time) in
           modify (fun self => set_fix_history (append (fix_history self) fix_action) self) ;;;
           modify (fun self =>
             set_last_fix_times (<[error_type error := start_time]> (last_fix_times self)) self) ;;;
           log_msg INFO ("Fix result for " ++ error_type error ++ ": " ++ result_value result) ;;;
           ret (Some fix_action))
          (fun e =>
           end_time <- time_time ;;
           log_msg ERROR ("Fix failed for " ++ error_type error ++ ": " ++ e) ;;;
           let fix_action :=
             FixAction.mk ("fix_" ++ error_type error) FAILED
               ("Fix failed: " ++ e)
               [("error", VStr e); ("original_error", VDict (to_dict error))]
               start_time (end_time - start_time) in
           modify (fun self => set_fix_history (append (fix_history self) fix_action) self) ;;;
           ret (Some fix_action))
    end.

Definition emergency_recovery : M H (AutoFixer H) bool :=
  log_msg WARNING "Initiating emergency recovery procedure" ;;;
  try_except
    (force_stop_app ;;;
     time_sleep 3 ;;;
     execute_command "pm trim-caches 500M" ;;;
     time_sleep 2 ;;;
     connected <- ensure_connection ;;
     if negb connected then ret false
     else
       started <- start_app ;;
       if negb started then ret false
       else
         time_sleep 10 ;;;
         running <- is_app_running ;;
         if running then log_msg INFO "Emergency recovery successful" ;;; ret true
         else ret false)
    (fun e => log_msg ERROR ("Emergency recovery failed: " ++ e) ;;; ret false).

Definition schedule_maintenance : M H (AutoFixer H) bool :=
  log_msg INFO "Performing scheduled maintenance" ;;;
  try_except
    (execute_command "pm trim-caches 200M" ;;;
     execute_command "am broadcast -a android.intent.action.TRIM_MEMORY" ;;;
     ret true)
    (fun e => log_msg ERROR ("Maintenance failed: " ++ e) ;;; ret false).

End AutoFixerMethods.

(** ** monitor.py: the error-handling path and the lifecycle *)

Record MonitoringStats : Type := mkStats {
  start_time : Q;
  total_errors_detected : Z;
  total_fixes_attempted : Z;
  successful_fixes : Z;
  failed_fixes : Z;
  current_status : string;
  last_error_time : option Q;
  last_fix_time : option Q;
}.

(** The keys of the configuration the handling path reads. *)
Record Config : Type := mkConfig {
  max_fix_attempts_per_hour : Z;
  enable_auto_fix : bool;
  report_file : string;
  ui_monitoring : UiConfig;
}.

Definition default_config : Config :=
  {| max_fix_attempts_per_hour := 10;
     enable_auto_fix := true;
     report_file := "monitor_report.json";
     ui_monitoring := default_ui_config |}.

(** An [asyncio.Task] as the daemon sees it. *)
Inductive Task : Type := Running | CancelRequested | Finished.

(** [task.cancel()]: requests cancellation of a task that is not done;
    never raises. *)
Definition cancel (t : Task) : Task :=
  match t with
  | Running => CancelRequested
  | CancelRequested => CancelRequested
  | Finished => Finished
  end.

Record AppMonitor (H : Type) : Type := mkMonitor {
  config : Config;
  error_detector : ErrorDetector;
  auto_fixer : AutoFixer H;
  is_running : bool;
  stats : MonitoringStats;
  logcat_task : option Task;
  health_check_task : option Task;
  maintenance_task : option Task;
  logcat_buffer : list (Q * string);
  max_buffer_size : Z;
  executor_shutdown : bool;       (* [ThreadPoolExecutor._shutdown] *)
}.
Arguments mkMonitor {H} _ _ _ _ _ _ _ _ _ _ _.
Arguments config {H} _.
Arguments error_detector {H} _.
Arguments auto_fixer {H} _.
Arguments is_running {H} _.
Arguments stats {H} _.
Arguments logcat_task {H} _.
Arguments health_check_task {H} _.
Arguments maintenance_task {H} _.
Arguments logcat_buffer {H} _.
Arguments max_buffer_size {H} _.
Arguments executor_shutdown {H} _.

Section MonitorState.
Context {H : Type}.

Definition set_stats (st : MonitoringStats) (m : AppMonitor H) : AppMonitor H :=
  mkMonitor (config m) (error_detector m) (auto_fixer m) (is_running m) st
    (logcat_task m) (health_check_task m) (maintenance_task m)
    (logcat_buffer m) (max_buffer_size m) (executor_shutdown m).

Definition set_error_detector (d : ErrorDetector) (m : AppMonitor H) : AppMonitor H :=
  mkMonitor (config m) d (auto_fixer m) (is_running m) (stats m)
    (logcat_task m) (health_check_task m) (maintenance_task m)
    (logcat_buffer m) (max_buffer_size m) (executor_shutdown m).

Definition set_auto_fixer (f : AutoFixer H) (m : AppMonitor H) : AppMonitor H :=
  mkMonitor (config m) (error_detector m) f (is_running m) (stats m)
    (logcat_task m) (health_check_task m) (maintenance_task m)
    (logcat_buffer m) (max_buffer_size m) (executor_shutdown m).

Definition set_is_running (b : bool) (m : AppMonitor H) : AppMonitor H :=
  mkMonitor (config m) (error_detector m) (auto_fixer m) b (stats m)
    (logcat_task m) (health_check_task m) (maintenance_task m)
    (logcat_buffer m) (max_buffer_size m) (executor_shutdown m).

Definition set_tasks (l h mt : option Task) (m : AppMonitor H) : AppMonitor H :=
  mkMonitor (config m) (error_detector m) (auto_fixer m) (is_running m) (stats m)
    l h mt (logcat_buffer m) (max_buffer_size m) (executor_shutdown m).

Definition set_logcat_buffer (b : list (Q * string)) (m : AppMonitor H) : AppMonitor H :=
  mkMonitor (config m) (error_detector m) (auto_fixer m) (is_running m) (stats m)
    (logcat_task m) (health_check_task m) (maintenance_task m)
    b (max_buffer_size m) (executor_shutdown m).

Definition set_executor_shutdown (b : bool) (m : AppMonitor H) : AppMonitor H :=
  mkMonitor (config m) (error_detector m) (auto_fixer m) (is_running m) (stats m)
    (logcat_task m) (health_check_task m) (maintenance_task m)
    (logcat_buffer m) (max_buffer_size m) b.

Definition set_current_status (status : string) (st : MonitoringStats) : MonitoringStats :=
  mkStats (start_time st) (total_errors_detected st) (total_fixes_attempted st)
    (successful_fixes st) (failed_fixes st) status (last_error_time st) (last_fix_time st).

(** [self.stats.total_errors_detected += 1; self.stats.last_error_time = t] *)
Definition count_error (t : Q) (st : MonitoringStats) : MonitoringStats :=
  mkStats (start_time st) (total_errors_detected st + 1) (total_fixes_attempted st)
    (successful_fixes st) (failed_fixes st) (current_status st) (Some t) (last_fix_time st).

(** [self.stats.total_fixes_attempted += 1; self.stats.last_fix_time = t] *)
Definition count_attempt (t : Q) (st : MonitoringStats) : MonitoringStats :=
  mkStats (start_time st) (total_errors_detected st) (total_fixes_attempted st + 1)
    (successful_fixes st) (failed_fixes st) (current_status st) (last_error_time st) (Some t).

(** [self.stats.successful_fixes += 1] *)
Definition count_success (st : MonitoringStats) : MonitoringStats :=
  mkStats (start_time st) (total_errors_detected st) (total_fixes_attempted st)
    (successful_fixes st + 1) (failed_fixes st) (current_status st)
    (last_error_time st) (last_fix_time st).

(** [self.stats.failed_fixes += 1] *)
Definition count_failure (st : MonitoringStats) : MonitoringStats :=
  mkStats (start_time st) (total_errors_detected st) (total_fixes_attempted st)
    (successful_fixes st) (failed_fixes st + 1) (current_status st)
    (last_error_time st) (last_fix_time st).

End MonitorState.

Section MonitorMethods.
Context {H : Type} `{Host H}.

Local Abbreviation Mon := (M H (AppMonitor H)).

(** [AppMonitor.__init__], the fields of the handling path; [now] is the
    [time.time()] reading taken for [start_time]. *)
Definition new_monitor (cfg : Config) (now : Q) : AppMonitor H :=
  {| config := cfg;
     error_detector := new_detector (ui_monitoring cfg);
     auto_fixer := new_fixer;
     is_running := false;
     stats := mkStats now 0 0 0 0 "initializing" None None;
     logcat_task := None;
     health_check_task := None;
     maintenance_task := None;
     logcat_buffer := [];
     max_buffer_size := 1000;
     executor_shutdown := false |}.

Definition on_detector {A} (m : M H ErrorDetector A) : Mon A :=
  zoom error_detector set_error_detector m.

Definition on_fixer {A} (m : M H (AutoFixer H) A) : Mon A :=
  zoom auto_fixer set_auto_fixer m.

(** [await loop.run_in_executor(self.executor, f)]: submitting to an
    executor that was shut down raises [RuntimeError].  The call is run to
    its end where it is awaited: what the other tasks of the daemon do
    while this one waits for the worker is not modelled, so a statement
    about a method speaks of that call taken by itself. *)
Definition run_in_executor {A} (f : Mon A) : Mon A :=
  self <- get ;;
  if executor_shutdown self then raise "cannot schedule new futures after shutdown"
  else f.

(** The actions of [history] not older than [one_hour_ago]. *)
Definition fixes_since (one_hour_ago : Q) (history : list FixAction.t)
    : list FixAction.t :=
  List.filter (fun action => Qle_bool one_hour_ago (FixAction.timestamp action)) history.

Definition _can_attempt_fix : Mon bool :=
  self <- get ;;
  let max_fixes := max_fix_attempts_per_hour (config self) in
  current_time <- time_time ;;
  let one_hour_ago := (current_time - 3600)%Q in
  self <- get ;;
  let recent_fixes := fixes_since one_hour_ago (fix_history (auto_fixer self)) in
  ret (Z.of_nat (length recent_fixes) <? max_fixes).

Definition _attempt_auto_fix (error : DetectedError) : Mon unit :=
  allowed <- _can_attempt_fix ;;
  if negb allowed then log_msg INFO "Fix rate limit reached, skipping auto-fix"
  else
    now <- time_time ;;
    modify (fun self => set_stats (count_attempt now (stats self)) self) ;;;
    try_except
      (fix_action <- run_in_executor (on_fixer (apply_fix error)) ;;
       match fix_action with
       | Some fix_action =>
           if result_eqb (FixAction.result fix_action) SUCCESS then
             modify (fun self => set_stats (count_success (stats self)) self) ;;;
             log_msg INFO ("Successfully fixed " ++ error_type error)
           else
             modify (fun self => set_stats (count_failure (stats self)) self) ;;;
             log_msg WARNING ("Fix failed for " ++ error_type error ++ ": "
                              ++ FixAction.message fix_action)
       | None => ret tt
       end)
      (fun e =>
       modify (fun self => set_stats (count_failure (stats self)) self) ;;;
       log_msg ERROR ("Auto-fix exception: " ++ e)).

Definition _handle_detected_error (error : DetectedError) : Mon unit :=
  modify (fun self => set_stats (count_error (timestamp error) (stats self)) self) ;;;
  on_detector (add_detected_error error) ;;;
  log_msg WARNING ("Detected " ++ severity_value (severity error) ++ " error: "
                   ++ error_type error) ;;;
  self <- get ;;
  if enable_auto_fix (config self) then
    escalate <- on_detector (should_trigger_autofix error) ;;
    if escalate then _attempt_auto_fix error else ret tt
  else ret tt.

(** [for error in errors: await self._handle_detected_error(error)] *)
Fixpoint handle_all (errors : list DetectedError) : Mon unit :=
  match errors with
  | [] => ret tt
  | error :: rest => _handle_detected_error error ;;; handle_all rest
  end.

Definition _process_logcat_line (line : string) : Mon unit :=
  now <- time_time ;;
  modify (fun self => set_logcat_buffer (append (logcat_buffer self) (now, line)) self) ;;;
  self <- get ;;
  (if max_buffer_size self <? Z.of_nat (length (logcat_buffer self))
   then modify (set_logcat_buffer (py_last (max_buffer_size self) (logcat_buffer self)))
   else ret tt) ;;;
  try_except
    (errors <- on_detector (analyze_logcat_line line) ;;
     handle_all errors)
    (fun e => log_msg ERROR ("Error analysis failed: " ++ e)).

Definition _cleanup_logs : Mon unit :=
  self <- get ;;
  (if (500 <? length (error_history (error_detector self)))%nat
   then on_detector (modify (fun d => set_error_history (py_last 500 (error_history d)) d))
   else ret tt) ;;;
  self <- get ;;
  (if (200 <? length (fix_history (auto_fixer self)))%nat
   then on_fixer (modify (fun f => set_fix_history (py_last 200 (fix_history f)) f))
   else ret tt) ;;;
  self <- get ;;
  (if max_buffer_size self <? Z.of_nat (length (logcat_buffer self))
   then modify (set_logcat_buffer (py_last (max_buffer_size self) (logcat_buffer self)))
   else ret tt).

(** [_generate_report]: the clock readings and device call it makes; the
    contents of the report are not built here.  Every failure is logged
    and swallowed. *)
Definition _generate_report : Mon unit :=
  try_except
    (time_time ;;;                                 (* [datetime.now()] *)
     time_time ;;;                                 (* uptime *)
     time_time ;;;                                 (* [get_error_summary] *)
     self <- get ;;
     (match fix_history (auto_fixer self) with     (* [get_fix_statistics] *)
      | [] => ret tt
      | _ :: _ => time_time ;;; ret tt
      end) ;;;
     run_in_executor get_device_info ;;;
     write_report ;;;
     self <- get ;;
     log_msg INFO ("Generated monitoring report: " ++ report_file (config self)))
    (fun e => log_msg ERROR ("Report generation failed: " ++ e)).

(** [stop] *)
Definition stop : Mon unit :=
  log_msg INFO "Stopping monitor..." ;;;
  modify (set_is_running false) ;;;
  modify (fun self => set_stats (set_current_status "stopping" (stats self)) self) ;;;
  modify (fun self =>
    set_tasks (cancel <$> logcat_task self) (cancel <$> health_check_task self)
      (cancel <$> maintenance_task self) self).

(** [_cleanup] *)
Definition _cleanup : Mon unit :=
  log_msg INFO "Cleaning up monitor resources" ;;;
  try_except
    (modify (set_executor_shutdown true) ;;;
     _generate_report ;;;
     run_in_executor disconnect ;;;
     modify (fun self => set_stats (set_current_status "stopped" (stats self)) self) ;;;
     log_msg INFO "Monitor cleanup complete")
    (fun e => log_msg ERROR ("Cleanup error: " ++ e)).

End MonitorMethods.

(** ** A simulated host, to run the code on concrete inputs

    The clock moves only by [time.sleep] and by [advance]; the device link
    answers every command, keeps a running flag and a trace of key events,
    and can be set to raise on key events. *)

Module Sim.

Record t : Type := mk {
  clock : Q;
  app_running : bool;
  keys_raise : bool;
  keys : list Z;
}.

Definition send_key (code : Z) (h : t) : outcome bool * t :=
  if keys_raise h then (Raise "device link down", h)
  else (Ok true, mk (clock h) (app_running h) (keys_raise h) (append (keys h) code)).

#[global] Instance sim_host : Host t := {|
  host_time h := (clock h, h);
  host_sleep d h := mk (clock h + d) (app_running h) (keys_raise h) (keys h);
  adb_connect h := (Ok true, h);
  adb_disconnect h := (Ok true, h);
  adb_is_connected h := (Ok true, h);
  adb_ensure_connection h := (Ok true, h);
  adb_execute_command _ h := (Ok (Some ""), h);
  adb_is_app_running h := (Ok (app_running h), h);
  adb_start_app h := (Ok true, mk (clock h) true (keys_raise h) (keys h));
  adb_force_stop_app h := (Ok true, mk (clock h) false (keys_raise h) (keys h));
  adb_clear_app_data h := (Ok true, h);
  adb_send_key_event := send_key;
  adb_get_device_info h := (Ok true, h);
  host_write_report h := (Ok tt, h);
|}.

(** The same host with a clock that moves: every reading of the time
    takes one second. *)
Definition ticking_host : Host t := {|
  host_time h := (clock h, mk (clock h + 1) (app_running h) (keys_raise h) (keys h));
  host_sleep := @host_sleep t sim_host;
  adb_connect := @adb_connect t sim_host;
  adb_disconnect := @adb_disconnect t sim_host;
  adb_is_connected := @adb_is_connected t sim_host;
  adb_ensure_connection := @adb_ensure_connection t sim_host;
  adb_execute_command := @adb_execute_command t sim_host;
  adb_is_app_running := @adb_is_app_running t sim_host;
  adb_start_app := @adb_start_app t sim_host;
  adb_force_stop_app := @adb_force_stop_app t sim_host;
  adb_clear_app_data := @adb_clear_app_data t sim_host;
  adb_send_key_event := @adb_send_key_event t sim_host;
  adb_get_device_info := @adb_get_device_info t sim_host;
  host_write_report := @host_write_report t sim_host;
|}.

(** A world whose clock reads [now], app running, healthy link. *)
Definition world_at (now : Q) : World t := mkWorld (mk now true false []) [].

(** The same with a device link that raises on key events. *)
Definition broken_world_at (now : Q) : World t := mkWorld (mk now true true []) [].

(** Let the wall clock reach [now]. *)
Definition advance (now : Q) (w : World t) : World t :=
  mkWorld (mk now (app_running (host w)) (keys_raise (host w)) (keys (host w))) (logs w).

End Sim.

(** * The rest of the three files

    The reporting functions of the classifier and of the fixer, and the
    remaining activities of the orchestrator. *)

(** ** error_detector.py: [get_error_summary] *)

(** [if k not in d: d[k] = 0] followed by [d[k] += 1] on a dict of counters,
    in insertion order. *)
Fixpoint bump (k : string) (d : list (string * Z)) : list (string * Z) :=
  match d with
  | [] => [(k, 1)]
  | (k', n) :: d' =>
      if String.eqb k k' then (k', n + 1) :: d' else (k', n) :: bump k d'
  end.

Record ErrorSummary : Type := mkSummary {
  total_errors : Z;
  recent_errors : Z;
  error_types : list (string * Z);
  severity_counts : list (string * Z);
}.

(** [{severity.value: 0 for severity in ErrorSeverity}] *)
Definition zero_severity_counts : list (string * Z) :=
  map (fun s => (severity_value s, 0)) [LOW; MEDIUM; HIGH; CRITICAL].

(** The [for error in recent_errors] loop of [get_error_summary]; every
    severity is a key of [severities] from the start. *)
Fixpoint count_errors (recent : list DetectedError)
    (types severities : list (string * Z)) : list (string * Z) * list (string * Z) :=
  match recent with
  | [] => (types, severities)
  | error :: rest =>
      count_errors rest (bump (error_type error) types)
        (bump (severity_value (severity error)) severities)
  end.

Section ErrorSummaryMethod.
Context {H : Type} `{Host H}.

Definition get_error_summary : M H ErrorDetector ErrorSummary :=
  recent_errors <- get_recent_errors 60 ;;
  self <- get ;;
  let '(types, severities) := count_errors recent_errors [] zero_severity_counts in
  ret {| total_errors := Z.of_nat (length (error_history self));
         recent_errors := Z.of_nat (length recent_errors);
         error_types := types;
         severity_counts := severities |}.

End ErrorSummaryMethod.

(** ** auto_fixer.py: [get_fix_statistics] *)

(** The update of [stats["fix_types"]] for one action: a new name starts at
    [{"total": 0, "successful": 0}], then [total] and, for a success,
    [successful] are incremented. *)
Fixpoint count_fix (action_name : string) (success : bool)
    (d : list (string * (Z * Z))) : list (string * (Z * Z)) :=
  match d with
  | [] => [(action_name, (1, if success then 1 else 0))]
  | (k, (total, successful)) :: d' =>
      if String.eqb action_name k
      then (k, (total + 1, if success then successful + 1 else successful)) :: d'
      else (k, (total, successful)) :: count_fix action_name success d'
  end.

(** The [for fix in self.fix_history] loop. *)
Fixpoint count_fixes (history : list FixAction.t) (d : list (string * (Z * Z)))
    : list (string * (Z * Z)) :=
  match history with
  | [] => d
  | fix_ :: rest =>
      count_fixes rest
        (count_fix (FixAction.action_name fix_)
           (result_eqb (FixAction.result fix_) SUCCESS) d)
  end.

Record FixStats : Type := mkFixStats {
  total_fixes : Z;
  success_rate : Q;
  fix_types : list (string * (Z * Z));      (* name, total, successful *)
  recent_fixes : Z;
}.

(** What [get_fix_statistics] returns: [{"total_fixes": 0}] for an empty
    history, the four statistics otherwise. *)
Inductive FixStatistics : Type :=
| NoFixes
| Stats (s : FixStats).

Section FixStatisticsMethod.
Context {H : Type} `{Host H}.

Definition get_fix_statistics : M H (AutoFixer H) FixStatistics :=
  self <- get ;;
  match fix_history self with
  | [] => ret NoFixes
  | _ :: _ =>
      let successful_fixes :=
        List.filter (fun f => result_eqb (FixAction.result f) SUCCESS) (fix_history self) in
      match truediv (Z.of_nat (length successful_fixes))
              (Z.of_nat (length (fix_history self))) with
      | Raise e => raise e
      | Ok ratio =>
          let types := count_fixes (fix_history self) [] in
          now <- time_time ;;
          let recent_time := (now - 3600)%Q in
          ret (Stats
                 {| total_fixes := Z.of_nat (length (fix_history self));
                    success_rate := ratio * 100;
                    fix_types := types;
                    recent_fixes :=
                      Z.of_nat (length (List.filter
                                  (fun f => Qle_bool recent_time (FixAction.timestamp f))
                                  (fix_history self))) |})
      end
  end.

End FixStatisticsMethod.

(** ** monitor.py: the periodic checks *)

(** The probes of [ADBManager] that only the health check calls.  Each
    returns [None] when the device gave no answer. *)
Class Probes (H : Type) : Type := {
  adb_get_current_activity : H -> outcome (option string) * H;
  adb_get_app_memory_usage : H -> outcome (option (gmap string Z)) * H;
  adb_get_screen_dump : H -> outcome (option string) * H;
}.

Section Maintenance.
Context {H : Type} `{Host H}.

Definition _perform_maintenance : M H (AppMonitor H) unit :=
  log_msg INFO "Performing routine maintenance" ;;;
  try_except
    (run_in_executor (on_fixer schedule_maintenance) ;;;
     _generate_report ;;;
     _cleanup_logs)
    (fun e => log_msg ERROR ("Maintenance failed: " ++ e)).

End Maintenance.

Section HealthCheck.
Context {H : Type} `{Host H} `{Probes H}.

Definition get_current_activity : M H (AppMonitor H) (option string) :=
  lift_host adb_get_current_activity.
Definition get_app_memory_usage : M H (AppMonitor H) (option (gmap string Z)) :=
  lift_host adb_get_app_memory_usage.
Definition get_screen_dump : M H (AppMonitor H) (option string) :=
  lift_host adb_get_screen_dump.

(** [_perform_health_check].  [proceed] is false where the code returns
    after a failed reconnection; [if memory_info:] holds for a dict that is
    neither [None] nor empty, [if ui_dump:] for a string that is neither
    [None] nor empty. *)
Definition _perform_health_check : M H (AppMonitor H) unit :=
  try_except
    (connected <- run_in_executor is_connected ;;
     proceed <-
       (if negb connected then
          log_msg WARNING "ADB connection lost, attempting reconnection" ;;;
          reconnected <- run_in_executor connect ;;
          if negb reconnected then log_msg ERROR "Failed to reconnect ADB" ;;; ret false
          else ret true
        else ret true) ;;
     if negb proceed then ret tt
     else
       app_running <- run_in_executor is_app_running ;;
       current_activity <- run_in_executor get_current_activity ;;
       app_errors <- on_detector (analyze_app_state app_running current_activity) ;;
       handle_all app_errors ;;;
       memory_info <- run_in_executor get_app_memory_usage ;;
       (match memory_info with
        | Some memory_info =>
            if decide (memory_info = ∅) then ret tt
            else
              memory_errors <- on_detector (analyze_memory_usage memory_info) ;;
              handle_all memory_errors
        | None => ret tt
        end) ;;;
       ui_dump <- run_in_executor get_screen_dump ;;
       match ui_dump with
       | Some ui_dump =>
           if PyStr.truthy ui_dump then
             ui_errors <- on_detector (analyze_ui_dump ui_dump) ;;
             handle_all ui_errors
           else ret tt
       | None => ret tt
       end)
    (fun e => log_msg ERROR ("Health check failed: " ++ e)).

End HealthCheck.

(** ** A simulated host whose device is unreachable

    Every operation of the device link fails the way [ADBManager] reports
    a failure: [False], or [None] where a text is expected. *)

Module Offline.

Record t : Type := mk {
  clock : Q;
}.

Definition offline_host : Host t := {|
  host_time h := (clock h, h);
  host_sleep d h := mk (clock h + d);
  adb_connect h := (Ok false, h);
  adb_disconnect h := (Ok false, h);
  adb_is_connected h := (Ok false, h);
  adb_ensure_connection h := (Ok false, h);
  adb_execute_command _ h := (Ok None, h);
  adb_is_app_running h := (Ok false, h);
  adb_start_app h := (Ok false, h);
  adb_force_stop_app h := (Ok false, h);
  adb_clear_app_data h := (Ok false, h);
  adb_send_key_event _ h := (Ok false, h);
  adb_get_device_info h := (Ok false, h);
  host_write_report h := (Ok tt, h);
|}.

Definition offline_probes : Probes t := {|
  adb_get_current_activity h := (Ok None, h);
  adb_get_app_memory_usage h := (Ok None, h);
  adb_get_screen_dump h := (Ok None, h);
|}.

Definition world_at (now : Q) : World t := mkWorld (mk now) [].

End Offline.

(** The probes of the simulated host: the app is in its main activity;
    no memory figures and no UI dump are available. *)
Definition sim_probes : Probes Sim.t := {|
  adb_get_current_activity h := (Ok (Some "com.webviewer.firetv/.MainActivity"), h);
  adb_get_app_memory_usage h := (Ok None, h);
  adb_get_screen_dump h := (Ok None, h);
|}.

(** ** adb_manager.py

    [ADBManager] over [subprocess.run], the one primitive it calls.  A run
    completes with a return code and the two captured texts, or raises
    [TimeoutExpired], or raises another exception (the [adb] binary is
    missing, say); the [except] clauses of a method are the last cases of
    its match on the result of the run. *)

(** [s.strip()] *)
Fixpoint py_lstrip (s : string) : string :=
  match s with
  | EmptyString => EmptyString
  | String c s' => if PyStr.is_space c then py_lstrip s' else s
  end.

Fixpoint py_rstrip (s : string) : string :=
  match s with
  | EmptyString => EmptyString
  | String c s' =>
      match py_rstrip s' with
      | EmptyString => if PyStr.is_space c then EmptyString else String c EmptyString
      | rest => String c rest
      end
  end.

Definition py_strip (s : string) : string := py_rstrip (py_lstrip s).

(** The value of an ASCII decimal digit. *)
Definition digit_value (c : ascii) : option Z :=
  let n := Z.of_nat (nat_of_ascii c) in
  if (48 <=? n) && (n <=? 57) then Some (n - 48) else None.

(** [c.isdigit()] for a character below code point 256: the ten decimal
    digits and the superscripts two, three and one (U+00B2, U+00B3,
    U+00B9), which are digits to [isdigit] and which [int] does not read. *)
Definition is_superscript (c : ascii) : bool :=
  let n := Z.of_nat (nat_of_ascii c) in
  (n =? 178) || (n =? 179) || (n =? 185).

Definition is_digit_char (c : ascii) : bool :=
  bool_decide (is_Some (digit_value c)) || is_superscript c.

(** [s.isdigit()]: not empty, digit characters only. *)
Fixpoint all_digits (s : string) : bool :=
  match s with
  | EmptyString => true
  | String c s' => is_digit_char c && all_digits s'
  end.

Definition py_isdigit (s : string) : bool :=
  PyStr.truthy s && all_digits s.

(** The digits of an int literal after its sign: digits, with single
    underscores between digits only.  [acc] is the value read so far and
    [after_digit] tells whether the last character was a digit. *)
Fixpoint int_digits (acc : Z) (after_digit : bool) (s : string) : option Z :=
  match s with
  | EmptyString => if after_digit then Some acc else None
  | String c s' =>
      match digit_value c with
      | Some v => int_digits (10 * acc + v) true s'
      | None =>
          if Ascii.eqb c "_"%char && after_digit then
            match s' with
            | EmptyString => None
            | String c' _ =>
                if bool_decide (is_Some (digit_value c')) then int_digits acc false s'
                else None
            end
          else None
      end
  end.

(** The number of decimal digits in [s], and of those it starts with. *)
Fixpoint count_digits (s : string) : nat :=
  match s with
  | EmptyString => 0%nat
  | String c s' =>
      ((if bool_decide (is_Some (digit_value c)) then 1 else 0) + count_digits s')%nat
  end.

Fixpoint leading_digits (s : string) : nat :=
  match s with
  | EmptyString => 0%nat
  | String c s' =>
      if bool_decide (is_Some (digit_value c)) then S (leading_digits s') else 0%nat
  end.

(** [sys.int_info.default_max_str_digits] *)
Definition max_str_digits : nat := 4300.

(** An int literal: an optional sign and the digits. *)
Definition int_literal (s : string) : option Z :=
  match s with
  | String "+" rest => int_digits 0 false rest
  | String "-" rest => Z.opp <$> int_digits 0 false rest
  | rest => int_digits 0 false rest
  end.

(** [int(s)], [None] for [ValueError]: surrounding whitespace is dropped
    and the literal is read.  A literal of more than [max_str_digits]
    digits is refused, as the interpreters that have this limit (3.11, and
    the security releases of 3.7 to 3.10) do by default. *)
Definition py_int (s : string) : option Z :=
  if (max_str_digits <? count_digits (py_strip s))%nat then None
  else int_literal (py_strip s).

(** The message of the [ValueError] that [int(s)] raises on a text of digit
    characters: the digits it starts with are over the limit, or the text
    is not a literal and its [repr], cut to 200 characters, is quoted. *)
Definition int_error (s : string) : string :=
  if (max_str_digits <? leading_digits s)%nat then
    "Exceeds the limit (4300 digits) for integer string conversion: value has "
    ++ PyStr.of_Z (Z.of_nat (leading_digits s))
    ++ " digits; use sys.set_int_max_str_digits() to increase the limit"
  else
    "invalid literal for int() with base 10: " ++ substring 0 200 ("'" ++ s ++ "'").

(** The one-character texts of a line feed and of a tab. *)
Definition LF : string := String PyStr.newline EmptyString.
Definition TAB : string := String (ascii_of_nat 9) EmptyString.

Module DeviceInfo.

Record t : Type := mk {
  device_id : string;
  state : string;
  model : option string;
  android_version : option string;
  api_level : option Z;
}.

End DeviceInfo.

Module ADB.

(** What [subprocess.run(cmd, capture_output=True, text=True, timeout=t)]
    does. *)
Inductive run_result : Type :=
| Completed (returncode : Z) (stdout stderr : string)
| TimeoutExpired (e : string)
| OtherError (e : string).

Class Subprocess (S : Type) : Type := {
  subprocess_run : list string -> Z -> S -> run_result * S;
}.

Record ADBManager : Type := mkADB {
  device_ip : string;
  device_port : Z;
  device_id : string;
  app_package : string;
  app_activity : string;
}.

(** [ADBManager.__init__] *)
Definition new_manager (device_ip : string) (device_port : Z) : ADBManager :=
  {| device_ip := device_ip;
     device_port := device_port;
     device_id := device_ip ++ ":" ++ PyStr.of_Z device_port;
     app_package := "com.webviewer.firetv";
     app_activity := "com.webviewer.firetv.MainActivity" |}.

Definition tab : ascii := ascii_of_nat 9.

(** The [for line in lines] loop of [get_connected_devices]. *)
Fixpoint collect_devices (lines : list string) (devices : list DeviceInfo.t)
    : list DeviceInfo.t :=
  match lines with
  | [] => devices
  | line :: rest =>
      if PyStr.truthy (py_strip line) then
        let parts := PyStr.split_on tab line in
        match parts with
        | p0 :: p1 :: _ =>
            collect_devices rest (append devices (DeviceInfo.mk p0 p1 None None None))
        | _ => collect_devices rest devices
        end
      else collect_devices rest devices
  end.

(** The [for device in devices] loop of [is_connected]. *)
Fixpoint find_device (device_id : string) (devices : list DeviceInfo.t) : bool :=
  match devices with
  | [] => false
  | device :: rest =>
      if String.eqb (DeviceInfo.device_id device) device_id
         && String.eqb (DeviceInfo.state device) "device"
      then true
      else find_device device_id rest
  end.

(** The [for line in lines] loop of [get_app_memory_usage]. *)
Fixpoint collect_memory (lines : list string) (memory_info : gmap string Z)
    : gmap string Z :=
  match lines with
  | [] => memory_info
  | line :: rest =>
      let parts := PyStr.words line in
      if PyStr.contains "TOTAL" line && PyStr.contains "PSS" line then
        match parts with
        | _ :: p1 :: _ =>
            match py_int p1 with
            | Some n => collect_memory rest (<["total_pss_kb" := n]> memory_info)
            | None => collect_memory rest memory_info
            end
        | _ => collect_memory rest memory_info
        end
      else if PyStr.contains "Native Heap" line then
        match parts with
        | _ :: _ :: _ :: p3 :: _ =>
            match py_int p3 with
            | Some n => collect_memory rest (<["native_heap_kb" := n]> memory_info)
            | None => collect_memory rest memory_info
            end
        | _ => collect_memory rest memory_info
        end
      else if PyStr.contains "Dalvik Heap" line then
        match parts with
        | _ :: _ :: _ :: p3 :: _ =>
            match py_int p3 with
            | Some n => collect_memory rest (<["dalvik_heap_kb" := n]> memory_info)
            | None => collect_memory rest memory_info
            end
        | _ => collect_memory rest memory_info
        end
      else collect_memory rest memory_info
  end.

Section Methods.
Context {S : Type} `{Subprocess S}.

Local Abbreviation Adb := (M S ADBManager).

(** [subprocess.run(cmd, capture_output=True, text=True, timeout=timeout)] *)
Definition run (cmd : list string) (timeout : Z) : Adb run_result :=
  fun s w =>
    let '(r, h) := subprocess_run cmd timeout (host w) in (Ok r, s, mkWorld h (logs w)).

Definition connect : Adb bool :=
  self <- get ;;
  result <- run ["adb"; "connect"; device_id self] 10 ;;
  match result with
  | Completed returncode stdout stderr =>
      connected <-
        (if returncode =? 0 then
           if PyStr.contains "connected" (PyStr.lower stdout) then
             log_msg INFO ("Successfully connected to " ++ device_id self) ;;;
             ret true
           else if PyStr.contains "already connected" (PyStr.lower stdout) then
             log_msg INFO ("Already connected to " ++ device_id self) ;;;
             ret true
           else ret false
         else ret false) ;;
      if connected then ret true
      else
        log_msg ERROR ("Failed to connect to " ++ device_id self ++ ": " ++ stderr) ;;;
        ret false
  | TimeoutExpired _ =>
      log_msg ERROR ("Connection timeout to " ++ device_id self) ;;;
      ret false
  | OtherError e =>
      log_msg ERROR ("Connection error: " ++ e) ;;;
      ret false
  end.

Definition disconnect : Adb bool :=
  self <- get ;;
  result <- run ["adb"; "disconnect"; device_id self] 5 ;;
  match result with
  | Completed returncode stdout stderr =>
      log_msg INFO ("Disconnected from " ++ device_id self) ;;;
      ret (returncode =? 0)
  | TimeoutExpired e | OtherError e =>
      log_msg ERROR ("Disconnect error: " ++ e) ;;;
      ret false
  end.

Definition get_connected_devices : Adb (list DeviceInfo.t) :=
  result <- run ["adb"; "devices"] 5 ;;
  match result with
  | Completed returncode stdout stderr =>
      let lines := tail (PyStr.split_on PyStr.newline (py_strip stdout)) in
      ret (collect_devices lines [])
  | TimeoutExpired e | OtherError e =>
      log_msg ERROR ("Error getting devices: " ++ e) ;;;
      ret []
  end.

Definition is_connected : Adb bool :=
  try_except
    (devices <- get_connected_devices ;;
     self <- get ;;
     ret (find_device (device_id self) devices))
    (fun _ => ret false).

Definition execute_command (command : string) (timeout : Z) : Adb (option string) :=
  connected <- is_connected ;;
  reachable <- (if negb connected then connect else ret true) ;;
  if negb reachable then ret None
  else
    self <- get ;;
    result <- run ["adb"; "-s"; device_id self; "shell"; command] timeout ;;
    match result with
    | Completed returncode stdout stderr =>
        if returncode =? 0 then ret (Some stdout)
        else
          log_msg ERROR ("Command failed: " ++ command ++ ", Error: " ++ stderr) ;;;
          ret None
    | TimeoutExpired _ =>
        log_msg ERROR ("Command timeout: " ++ command) ;;;
        ret None
    | OtherError e =>
        log_msg ERROR ("Command execution error: " ++ e) ;;;
        ret None
    end.

(** [text.strip() if text else None] *)
Definition stripped (text : option string) : option string :=
  match text with
  | Some text => if PyStr.truthy text then Some (py_strip text) else None
  | None => None
  end.

Definition get_device_info : Adb (option DeviceInfo.t) :=
  try_except
    (model <- execute_command "getprop ro.product.model" 30 ;;
     android_version <- execute_command "getprop ro.build.version.release" 30 ;;
     api_level <- execute_command "getprop ro.build.version.sdk" 30 ;;
     self <- get ;;
     api_level <-
       (match api_level with
        | Some api_level =>
            if PyStr.truthy api_level && py_isdigit (py_strip api_level) then
              match py_int (py_strip api_level) with
              | Some n => ret (Some n)
              | None => raise (int_error (py_strip api_level))
              end
            else ret None
        | None => ret None
        end) ;;
     ret (Some (DeviceInfo.mk (device_id self) "device"
                  (stripped model) (stripped android_version) api_level)))
    (fun e => log_msg ERROR ("Error getting device info: " ++ e) ;;; ret None).

(** [result is not None and text in result] *)
Definition answered_with (text : string) (result : option string) : bool :=
  match result with
  | Some result => PyStr.contains text result
  | None => false
  end.

Definition is_app_installed : Adb bool :=
  try_except
    (self <- get ;;
     result <- execute_command ("pm list packages | grep " ++ app_package self) 30 ;;
     ret (answered_with (app_package self) result))
    (fun _ => ret false).

Definition is_app_running : Adb bool :=
  try_except
    (self <- get ;;
     result <- execute_command ("ps | grep " ++ app_package self) 30 ;;
     ret (answered_with (app_package self) result))
    (fun _ => ret false).

Definition start_app : Adb bool :=
  try_except
    (self <- get ;;
     let cmd := "am start -n " ++ app_package self ++ "/" ++ app_activity self in
     result <- execute_command cmd 30 ;;
     ret (answered_with "Starting" result))
    (fun e => log_msg ERROR ("Error starting app: " ++ e) ;;; ret false).

Definition force_stop_app : Adb bool :=
  try_except
    (self <- get ;;
     result <- execute_command ("am force-stop " ++ app_package self) 30 ;;
     ret (bool_decide (is_Some result)))
    (fun e => log_msg ERROR ("Error force stopping app: " ++ e) ;;; ret false).

Definition clear_app_data : Adb bool :=
  try_except
    (self <- get ;;
     result <- execute_command ("pm clear " ++ app_package self) 30 ;;
     ret (answered_with "Success" result))
    (fun e => log_msg ERROR ("Error clearing app data: " ++ e) ;;; ret false).

Definition get_app_memory_usage : Adb (option (gmap string Z)) :=
  try_except
    (self <- get ;;
     result <- execute_command ("dumpsys meminfo " ++ app_package self) 30 ;;
     match result with
     | Some result =>
         if negb (PyStr.truthy result) then ret None
         else
           let lines := PyStr.split_on PyStr.newline result in
           let memory_info := collect_memory lines ∅ in
           ret (if decide (memory_info = ∅) then None else Some memory_info)
     | None => ret None
     end)
    (fun e => log_msg ERROR ("Error getting memory usage: " ++ e) ;;; ret None).

Definition send_key_event (key_code : Z) : Adb bool :=
  try_except
    (result <- execute_command ("input keyevent " ++ PyStr.of_Z key_code) 30 ;;
     ret (bool_decide (is_Some result)))
    (fun e =>
     log_msg ERROR ("Error sending key event " ++ PyStr.of_Z key_code ++ ": " ++ e) ;;;
     ret false).

Definition send_tap (x y : Z) : Adb bool :=
  try_except
    (result <- execute_command ("input tap " ++ PyStr.of_Z x ++ " " ++ PyStr.of_Z y) 30 ;;
     ret (bool_decide (is_Some result)))
    (fun e =>
     log_msg ERROR ("Error sending tap " ++ PyStr.of_Z x ++ "," ++ PyStr.of_Z y ++ ": " ++ e) ;;;
     ret false).

Definition get_screen_dump : Adb (option string) :=
  try_except
    (execute_command "uiautomator dump /dev/stdout" 30)
    (fun e => log_msg ERROR ("Error getting screen dump: " ++ e) ;;; ret None).

Definition install_apk (apk_path : string) : Adb bool :=
  self <- get ;;
  result <- run ["adb"; "-s"; device_id self; "install"; "-r"; apk_path] 60 ;;
  match result with
  | Completed returncode stdout stderr =>
      ret ((returncode =? 0) && PyStr.contains "Success" stdout)
  | TimeoutExpired e | OtherError e =>
      log_msg ERROR ("Error installing APK: " ++ e) ;;;
      ret false
  end.

Definition ensure_connection : Adb bool :=
  connected <- is_connected ;;
  if connected then ret true
  else
    log_msg WARNING "Device not connected, attempting reconnection..." ;;;
    connect.

End Methods.

End ADB.

(** ** The device link of the daemon: [ADBManager] on the machine

    The machine has the wall clock, [time.sleep], the subprocesses and the
    report file; the state of the link is the machine together with the
    records of the logger of [adb_manager]. *)

Class Machine (S : Type) : Type := {
  machine_time : S -> Q * S;
  machine_sleep : Q -> S -> S;
  machine_subprocess :: ADB.Subprocess S;
  machine_write_report : S -> outcome unit * S;
}.

Section Link.
Context {S : Type} `{Machine S} (adb : ADB.ADBManager).

(** A method call on the [ADBManager] object [adb]. *)
Definition call {A} (method : M S ADB.ADBManager A) (h : World S) : outcome A * World S :=
  let '(r, _, h') := method adb h in (r, h').

Definition is_returned {A} (r : outcome (option A)) : outcome bool :=
  match r with
  | Ok a => Ok (bool_decide (is_Some a))
  | Raise e => Raise e
  end.

Definition adb_link : Host (World S) := {|
  host_time h := let '(t, s) := machine_time (host h) in (t, mkWorld s (logs h));
  host_sleep d h := mkWorld (machine_sleep d (host h)) (logs h);
  adb_connect := call ADB.connect;
  adb_disconnect := call ADB.disconnect;
  adb_is_connected := call ADB.is_connected;
  adb_ensure_connection := call ADB.ensure_connection;
  adb_execute_command cmd := call (ADB.execute_command cmd 30);
  adb_is_app_running := call ADB.is_app_running;
  adb_start_app := call ADB.start_app;
  adb_force_stop_app := call ADB.force_stop_app;
  adb_clear_app_data := call ADB.clear_app_data;
  adb_send_key_event code := call (ADB.send_key_event code);
  adb_get_device_info h :=
    let '(r, h') := call ADB.get_device_info h in (is_returned r, h');
  host_write_report h :=
    let '(r, s) := machine_write_report (host h) in (r, mkWorld s (logs h));
|}.

End Link.

(** ** A simulated machine with a scripted [adb]

    The device is listed by [adb devices] while [online]; shell commands
    succeed with the text [shell_answer]; nothing times out. *)

Module Bench.

Record t : Type := mk {
  clock : Q;
  online : bool;
  shell_answer : string;
  runs : list (list string);          (* the command lines run so far *)
}.

Definition answer (cmd : list string) (h : t) : ADB.run_result :=
  match cmd with
  | ["adb"; "devices"] =>
      ADB.Completed 0
        ("List of devices attached" ++ LF
         ++ (if online h then "192.168.4.94:5555" ++ TAB ++ "device" ++ LF else "") ++ LF)
        ""
  | ["adb"; "connect"; device] =>
      if online h then ADB.Completed 0 ("connected to " ++ device ++ LF) ""
      else ADB.Completed 0 ("failed to connect to " ++ device ++ LF) ""
  | ["adb"; "-s"; _; "shell"; _] =>
      if online h then ADB.Completed 0 (shell_answer h) ""
      else ADB.Completed 1 "" ("error: device offline" ++ LF)
  | _ => ADB.Completed 0 "" ""
  end.

Definition bench_subprocess : ADB.Subprocess t := {|
  ADB.subprocess_run cmd timeout h :=
    (answer cmd h, mk (clock h) (online h) (shell_answer h) (append (runs h) cmd));
|}.

Definition bench_machine : Machine t := {|
  machine_time h := (clock h, h);
  machine_sleep d h := mk (clock h + d) (online h) (shell_answer h) (runs h);
  machine_subprocess := bench_subprocess;
  machine_write_report h := (Ok tt, h);
|}.

Definition manager : ADB.ADBManager := ADB.new_manager "192.168.4.94" 5555.

(** The machine at time [now] with an empty log of the link. *)
Definition at_ (now : Q) (online : bool) (shell_answer : string) : World t :=
  mkWorld (mk now online shell_answer []) [].

End Bench.

(** ** monitor.py: the start-up of the device link *)

(** The two results of [ADBManager] that only the start-up reads:
    [get_device_info] with the record it returns, and [is_app_installed]. *)
Class Setup (H : Type) : Type := {
  adb_device_info : H -> outcome (option DeviceInfo.t) * H;
  adb_is_app_installed : H -> outcome bool * H;
}.

(** [f"{x}"] for an [Optional[str]] *)
Definition py_format_opt (x : option string) : string := default "None" x.

Section Startup.
Context {H : Type} `{Host H} `{Setup H}.

Definition get_device_info' : M H (AppMonitor H) (option DeviceInfo.t) :=
  lift_host adb_device_info.
Definition is_app_installed : M H (AppMonitor H) bool :=
  lift_host adb_is_app_installed.

(** [_initialize_connection] *)
Definition _initialize_connection : M H (AppMonitor H) bool :=
  try_except
    (connected <- run_in_executor connect ;;
     if negb connected then ret false
     else
       device_info <- run_in_executor get_device_info' ;;
       (match device_info with
        | Some device_info =>
            log_msg INFO ("Connected to " ++ py_format_opt (DeviceInfo.model device_info)
                          ++ " (Android "
                          ++ py_format_opt (DeviceInfo.android_version device_info) ++ ")")
        | None => ret tt
        end) ;;;
       app_installed <- run_in_executor is_app_installed ;;
       if negb app_installed then
         log_msg WARNING "Fire TV app not installed" ;;; ret false
       else ret true)
    (fun e => log_msg ERROR ("Connection initialization error: " ++ e) ;;; ret false).

End Startup.

(** The start-up results over the [ADBManager] object [adb]. *)
Definition adb_setup {S : Type} `{Machine S} (adb : ADB.ADBManager) : Setup (World S) := {|
  adb_device_info := call adb ADB.get_device_info;
  adb_is_app_installed := call adb ADB.is_app_installed;
|}.

(** * Vocabulary of the statements *)

(** [needle] occurs in [hay]. *)
Definition Substring (needle hay : string) : Prop :=
  exists pre post, hay = pre ++ needle ++ post.

(** The markers of each state, as the dump shows them. *)
Definition settings_marker (ui_dump : string) : Prop :=
  Substring "SettingsActivity" ui_dump
  \/ Substring "ProfilesActivity" ui_dump
  \/ Substring "ProfileEditActivity" ui_dump.

Definition loading_marker (ui_dump : string) : Prop :=
  Substring "loading" (PyStr.lower ui_dump) \/ Substring "progress" (PyStr.lower ui_dump).

Definition welcome_marker (ui_dump : string) : Prop :=
  Substring "welcomeContainer" ui_dump /\ ~ Substring visibility_gone ui_dump.

Definition browsing_marker (ui_dump : string) : Prop :=
  Substring "webViewCard" ui_dump /\ ~ Substring visibility_gone ui_dump.

Definition app_states : list string :=
  ["settings"; "loading"; "error_welcome"; "browsing"; "unknown"].

(** The history [add_detected_error] leaves behind. *)
Definition history_after_add (d : ErrorDetector) (error : DetectedError)
    : list DetectedError :=
  let h := append (error_history d) error in
  if max_history_size d <? Z.of_nat (length h) then py_last (max_history_size d) h else h.

(** Errors on record of the kind [kind] and not older than ten minutes
    before [now]. *)
Definition similar_recent (now : Q) (kind : string) (history : list DetectedError)
    : list DetectedError :=
  List.filter (fun e => String.eqb (error_type e) kind) (recent_since (now - 600) history).

(** The count of the specification, written from its words and not from
    the filter of the code: the errors on record of the kind [kind] that
    occurred within the last ten minutes, that is, whose age at time [now]
    is at most 600 seconds. *)
Fixpoint occurred_within_10_minutes (now : Q) (kind : string)
    (history : list DetectedError) : nat :=
  match history with
  | [] => 0%nat
  | e :: rest =>
      ((if decide (error_type e = kind)
        then if Qlt_le_dec 600 (now - timestamp e) then 0 else 1
        else 0)
       + occurred_within_10_minutes now kind rest)%nat
  end.

(** The detector after [add_detected_error]. *)
Definition recorded (d : ErrorDetector) (error : DetectedError) : ErrorDetector :=
  set_error_history (history_after_add d error) d.

(** The error the leak check reports for the samples [last_usage] and
    [total_pss] at time [t]: both values and the increase in percent. *)
Definition leak_error (last_usage total_pss : Z) (t : Q) : DetectedError :=
  mk_memory_leak last_usage total_pss
    ((inject_Z (total_pss - last_usage) / inject_Z last_usage) * 100) t.

(** The monitor and the world after [_handle_detected_error] has counted,
    recorded and logged an error, before it decides on escalation. *)
Definition handled {H} (m : AppMonitor H) (error : DetectedError) : AppMonitor H :=
  set_error_detector (recorded (error_detector m) error)
    (set_stats (count_error (timestamp error) (stats m)) m).

Definition handled_world {H} (error : DetectedError) (w : World H) : World H :=
  logged WARNING ("Detected " ++ severity_value (severity error) ++ " error: "
                  ++ error_type error)
    (logged ERROR ("Detected " ++ severity_value (severity error) ++ " error: "
                   ++ error_type error ++ " - " ++ message error) w).

Section Readings.
Context {H : Type} `{Host H}.

(** The clock reading a call starting in world [w] takes first, and the
    host after that reading. *)
Definition reading (w : World H) : Q := fst (host_time (host w)).
Definition after_reading (w : World H) : World H :=
  mkWorld (snd (host_time (host w))) (logs w).

(** The world in which the strategy of a dispatched attempt starts, and the
    reading taken as [start_time]. *)
Definition dispatch_world (error : DetectedError) (w : World H) : World H :=
  logged INFO ("Attempting to fix " ++ error_type error) (after_reading w).

Definition start_reading (error : DetectedError) (w : World H) : Q :=
  reading (dispatch_world error w).

(** The decision [should_trigger_autofix] takes. *)
Definition decision (error : DetectedError) (d : ErrorDetector) (w : World H)
    : outcome bool :=
  fst (fst (should_trigger_autofix error d w)).

(** The host after one clock reading, and the reading taken after [n]
    earlier ones. *)
Definition tick (h : H) : H := snd (host_time h).
Definition reading_after (n : nat) (w : World H) : Q :=
  fst (host_time (Nat.iter n tick (host w))).

End Readings.

(** ** Sample inputs *)

Definition anr_line : string :=
  "E/ActivityManager: ANR in com.webviewer.firetv (com.webviewer.firetv/.MainActivity)".

(** The error the classifier makes of [anr_line] at time 99. *)
Definition anr_error : DetectedError :=
  {| error_type := "anr";
     severity := HIGH;
     message := "Anr detected";
     details := [("anr_text", VStr "ANR in com.webviewer.firetv");
                 ("reason", VStr "Application not responding")];
     timestamp := 99;
     source := "logcat" |}.

Definition app_not_running_error : DetectedError :=
  {| error_type := "app_not_running";
     severity := HIGH;
     message := "App is not running when it should be";
     details := [("expected_state", VStr "running"); ("actual_state", VStr "stopped")];
     timestamp := 999;
     source := "app_state" |}.


Definition launcher_line : string :=
  "I/ActivityManager: Displayed com.amazon.tv.launcher/.ui.HomeActivity".

Definition settings_over_browser : string :=
  "<node class=SettingsActivity><node resource-id=webViewCard /></node>".

Definition network_error_at (t : Q) : DetectedError :=
  {| error_type := "network_error";
     severity := MEDIUM;
     message := "Network Error detected";
     details := [("network_error", VStr "UnknownHostException");
                 ("error_type", VStr "connectivity")];
     timestamp := t;
     source := "logcat" |}.

(** State-aware checking switched off: the three core elements are expected
    whatever the state. *)
Definition legacy_ui_config : UiConfig :=
  {| state_aware_checking := false;
     expected_elements_by_state := ∅;
     ignore_missing_elements_in_states := [];
     strict_element_checking := false;
     focus_monitoring_enabled := true;
     focus_monitoring_ignore_in_states := [] |}.

Definition strict_config : Config :=
  {| max_fix_attempts_per_hour := 2;
     enable_auto_fix := true;
     report_file := "monitor_report.json";
     ui_monitoring := default_ui_config |}.

(** A monitor with the ceiling set to 2 after two attempts, at 1000 and at
    1100, and the world they leave. *)
Definition after_two_attempts : AppMonitor Sim.t * World Sim.t :=
  let '(_, m1, w1) :=
    _attempt_auto_fix app_not_running_error (new_monitor strict_config 900)
      (Sim.world_at 1000) in
  let '(_, m2, w2) := _attempt_auto_fix anr_error m1 (Sim.advance 1100 w1) in
  (m2, w2).

(** The monitor and the world left by a first attempt at 1000. *)
Definition after_first_attempt : AppMonitor Sim.t * World Sim.t :=
  let '(_, m1, w1) :=
    _attempt_auto_fix app_not_running_error (new_monitor default_config 900)
      (Sim.world_at 1000) in
  (m1, w1).

(** The same first attempt on the host whose clock moves with every
    reading: the request starts at 1000 and its strategy at 1003. *)
Definition after_first_attempt_ticking : AppMonitor Sim.t * World Sim.t :=
  let '(_, m1, w1) :=
    _attempt_auto_fix (H0 := Sim.ticking_host) app_not_running_error
      (new_monitor (H0 := Sim.ticking_host) default_config 900) (Sim.world_at 1000) in
  (m1, w1).

(** ** Vocabulary of the further properties *)

(** The sum of the counters of a dict. *)
Definition counts_sum (d : list (string * Z)) : Z :=
  fold_right Z.add 0 (map snd d).

(** The sums of the [total] and of the [successful] counters of
    [fix_types]. *)
Definition totals_sum (d : list (string * (Z * Z))) : Z :=
  fold_right Z.add 0 (map (fun kv => fst (snd kv)) d).

Definition successes_sum (d : list (string * (Z * Z))) : Z :=
  fold_right Z.add 0 (map (fun kv => snd (snd kv)) d).

(** The number of successful outcomes in a remediation history. *)
Definition successes (history : list FixAction.t) : Z :=
  Z.of_nat (length (List.filter (fun f => result_eqb (FixAction.result f) SUCCESS) history)).

(** An entry of [fix_types] is sound: at least one attempt, and no more
    successes than attempts. *)
Definition sound_entry (kv : string * (Z * Z)) : Prop :=
  1 <= fst (snd kv) /\ 0 <= snd (snd kv) <= fst (snd kv).

(** The fix counters are consistent: none is negative and the decided
    attempts (successes and failures) are at most the attempts made. *)
Definition counters_ok (st : MonitoringStats) : Prop :=
  0 <= successful_fixes st /\ 0 <= failed_fixes st
  /\ successful_fixes st + failed_fixes st <= total_fixes_attempted st.

(** What the handling of errors leaves alone in the monitor: the
    configuration, the lifecycle fields, the tasks, the log buffer and the
    executor. *)
Definition same_frame {H} (m m' : AppMonitor H) : Prop :=
  config m' = config m
  /\ is_running m' = is_running m
  /\ current_status (stats m') = current_status (stats m)
  /\ start_time (stats m') = start_time (stats m)
  /\ logcat_task m' = logcat_task m
  /\ health_check_task m' = health_check_task m
  /\ maintenance_task m' = maintenance_task m
  /\ logcat_buffer m' = logcat_buffer m
  /\ max_buffer_size m' = max_buffer_size m
  /\ executor_shutdown m' = executor_shutdown m.

(** The errors a classifier call reported; none when it raised. *)
Definition findings (r : outcome (list DetectedError)) : list DetectedError :=
  match r with
  | Ok errors => errors
  | Raise _ => []
  end.

(** The log buffer [_process_logcat_line] leaves behind. *)
Definition buffer_after {H} (m : AppMonitor H) (now : Q) (line : string)
    : list (Q * string) :=
  let b := append (logcat_buffer m) (now, line) in
  if max_buffer_size m <? Z.of_nat (length b) then py_last (max_buffer_size m) b else b.

(** An error the rule [p] of the classifier produced. *)
Definition from_rule (p : ErrorPattern.t) (e : DetectedError) : Prop :=
  error_type e = ErrorPattern.name p
  /\ severity e = ErrorPattern.severity p
  /\ source e = "logcat".

(** A step of the monitor that, whether it returns or raises, leaves the
    frame alone, never lowers the error count and keeps the fix counters
    consistent. *)
Definition steady {H A} (c : M H (AppMonitor H) A) : Prop :=
  forall m w,
    same_frame m (snd (fst (c m w)))
    /\ total_errors_detected (stats m) <= total_errors_detected (stats (snd (fst (c m w))))
    /\ (counters_ok (stats m) -> counters_ok (stats (snd (fst (c m w))))).

(** A step that, whether it returns or raises, leaves the object it runs
    on as it was. *)
Definition inert {H St A} (c : M H St A) : Prop :=
  forall s w, snd (fst (c s w)) = s.

(** [l] cut back to its newest [n] entries when it holds more. *)
Definition trimmed {A} (n : nat) (l : list A) : list A :=
  if (n <? length l)%nat then py_last (Z.of_nat n) l else l.

(** What the maintenance leaves alone in the monitor: the statistics, the
    configuration, the lifecycle fields, the tasks, the executor, the size
    of the buffer, and of the two components everything but their
    histories. *)
Definition same_shell {H} (m m' : AppMonitor H) : Prop :=
  stats m' = stats m
  /\ config m' = config m
  /\ is_running m' = is_running m
  /\ logcat_task m' = logcat_task m
  /\ health_check_task m' = health_check_task m
  /\ maintenance_task m' = maintenance_task m
  /\ max_buffer_size m' = max_buffer_size m
  /\ executor_shutdown m' = executor_shutdown m
  /\ last_fix_times (auto_fixer m') = last_fix_times (auto_fixer m)
  /\ fix_cooldown (auto_fixer m') = fix_cooldown (auto_fixer m)
  /\ fix_strategies (auto_fixer m') = fix_strategies (auto_fixer m)
  /\ max_history_size (error_detector m') = max_history_size (error_detector m)
  /\ _last_memory_usage (error_detector m') = _last_memory_usage (error_detector m)
  /\ error_patterns (error_detector m') = error_patterns (error_detector m)
  /\ ui_config (error_detector m') = ui_config (error_detector m).

(** The fixer and every fix statistic are the same in [m] and [m']. *)
Definition no_remediation {H} (m m' : AppMonitor H) : Prop :=
  auto_fixer m' = auto_fixer m
  /\ total_fixes_attempted (stats m') = total_fixes_attempted (stats m)
  /\ successful_fixes (stats m') = successful_fixes (stats m)
  /\ failed_fixes (stats m') = failed_fixes (stats m)
  /\ last_fix_time (stats m') = last_fix_time (stats m).

(** A finding of the UI analysis: low severity, from the source [ui], of
    one of its two kinds. *)
Definition ui_finding (e : DetectedError) : Prop :=
  severity e = LOW /\ source e = "ui"
  /\ (error_type e = "missing_ui_element" \/ error_type e = "no_focused_element").

Section QuietLink.
Context {H : Type} `{Host H}.

(** An answer of the device link that is a value, not an exception, and
    leaves the host in [P]. *)
Definition answers {A} (P : H -> Prop) (r : outcome A * H) : Prop :=
  (exists a, fst r = Ok a) /\ P (snd r).

(** [P] is a set of host states that the clock and the sleeps do not leave
    and on which every operation of the device link that the strategies
    use answers: the link of [ADBManager], whose methods catch their own
    exceptions, is of this kind. *)
Record quiet_link (P : H -> Prop) : Prop := mkQuiet {
  quiet_time : forall h, P h -> P (snd (host_time h));
  quiet_sleep : forall d h, P h -> P (host_sleep d h);
  quiet_execute_command : forall cmd h, P h -> answers P (adb_execute_command cmd h);
  quiet_is_app_running : forall h, P h -> answers P (adb_is_app_running h);
  quiet_start_app : forall h, P h -> answers P (adb_start_app h);
  quiet_force_stop_app : forall h, P h -> answers P (adb_force_stop_app h);
  quiet_clear_app_data : forall h, P h -> answers P (adb_clear_app_data h);
  quiet_send_key_event : forall code h, P h -> answers P (adb_send_key_event code h);
}.

(** A computation that, started on a host in [P], returns a value, leaves
    its object alone and ends on a host in [P]. *)
Definition safe {St A} (P : H -> Prop) (c : M H St A) : Prop :=
  forall s w, P (host w) -> exists a w', c s w = (Ok a, s, w') /\ P (host w').

End QuietLink.

(** ** Further sample inputs *)

Definition unexpected_activity_error : DetectedError :=
  {| error_type := "unexpected_activity";
     severity := LOW;
     message := "App in unexpected activity: com.amazon.tv.launcher/.ui.HomeActivity";
     details := [("current_activity", VStr "com.amazon.tv.launcher/.ui.HomeActivity");
                 ("expected_activities", VStrs expected_activities)];
     timestamp := 1000;
     source := "app_state" |}.

(** The samples on which the leak check divides by zero: a sample with a
    positive total that follows a stored sample of 0. *)
Definition zero_baseline (memory_info : gmap string Z) (d : ErrorDetector) : Prop :=
  memory_info <> ∅
  /\ _last_memory_usage d = Some 0
  /\ 0 < default 0 (memory_info !! "total_pss_kb").

(** The detector after a sample was analysed without an exception: an
    empty sample is ignored, any other is stored as the previous one, with
    0 for a sample that has no total. *)
Definition sampled (memory_info : gmap string Z) (d : ErrorDetector) : ErrorDetector :=
  if decide (memory_info = ∅) then d
  else set_last_memory_usage (default 0 (memory_info !! "total_pss_kb")) d.

(** Ints on which the float arithmetic of the leak test is exact: up to
    2^51 in magnitude [float(z)] and [float(z) * 1.5] are computed without
    rounding (and Python compares an int with a float exactly), so nothing
    overflows and the test is the one of the model. *)
Definition float_exact (z : Z) : Prop := - 2 ^ 51 <= z <= 2 ^ 51.

(** The total of the sample and the stored sample, if any, are in that
    range. *)
Definition samples_in_range (memory_info : gmap string Z) (d : ErrorDetector) : Prop :=
  float_exact (default 0 (memory_info !! "total_pss_kb"))
  /\ match _last_memory_usage d with
     | Some last_usage => float_exact last_usage
     | None => True
     end.

(** The number of recorded attempts that count against the rate limit at
    time [now]: those not older than one hour. *)
Definition attempts_since {H} (now : Q) (m : AppMonitor H) : Z :=
  Z.of_nat (length (fixes_since (now - 3600) (fix_history (auto_fixer m)))).

(** The two kinds of error the classifier reports for which the fixer has
    no strategy. *)
Definition unfixable (kind : string) : Prop :=
  kind = "permission_error" \/ kind = "resource_error".

(** The strategy table agrees with [unfixable] on the kind of [e]. *)
Definition covered {H} `{Host H} (e : DetectedError) : Prop :=
  _initialize_fix_strategies (H := H) !! error_type e = None <-> unfixable (error_type e).

(** The kinds the four analyses of the classifier report. *)
Definition classifier_kinds : list string :=
  (map ErrorPattern.name (_initialize_patterns "")
   ++ ["high_memory_usage"; "potential_memory_leak"; "missing_ui_element";
       "no_focused_element"; "app_not_running"; "unexpected_activity"])%list.

Definition permission_error_at (t : Q) : DetectedError :=
  {| error_type := "permission_error";
     severity := MEDIUM;
     message := "Permission Error detected";
     details := [("matched_text", VStr "Permission denied")];
     timestamp := t;
     source := "logcat" |}.

Section DeadLink.
Context {H : Type} `{Host H}.

(** An answer of the device link that is the value [a] and leaves the
    host in [P]. *)
Definition answers_with {A} (P : H -> Prop) (a : A) (r : outcome A * H) : Prop :=
  fst r = Ok a /\ P (snd r).

(** [P] is a set of host states on which the device is out of reach: the
    clock and the sleeps do not leave [P], and every operation of the
    device link that the strategies use fails the way [ADBManager] reports
    a failure, with [False], or with [None] for a command. *)
Record dead_link (P : H -> Prop) : Prop := mkDead {
  dead_time : forall h, P h -> P (snd (host_time h));
  dead_sleep : forall d h, P h -> P (host_sleep d h);
  dead_execute_command : forall cmd h, P h -> answers_with P None (adb_execute_command cmd h);
  dead_is_app_running : forall h, P h -> answers_with P false (adb_is_app_running h);
  dead_start_app : forall h, P h -> answers_with P false (adb_start_app h);
  dead_force_stop_app : forall h, P h -> answers_with P false (adb_force_stop_app h);
  dead_clear_app_data : forall h, P h -> answers_with P false (adb_clear_app_data h);
  dead_send_key_event : forall code h, P h -> answers_with P false (adb_send_key_event code h);
}.

(** A computation that, started on a host in [P], returns the value [a],
    leaves its object alone and ends on a host in [P]. *)
Definition yields {St A} (P : H -> Prop) (a : A) (c : M H St A) : Prop :=
  forall s w, P (host w) -> exists w', c s w = (Ok a, s, w') /\ P (host w').

End DeadLink.

(** What a strategy reports when the device is out of reach. *)
Definition out_of_reach_result (kind : string) : FixResult :=
  if String.eqb kind "unexpected_activity" then PARTIAL else FAILED.

(** The finding of the focus check for a dump in the state [app_state]. *)
Definition no_focus_finding (app_state : string) (t : Q) : DetectedError :=
  {| error_type := "no_focused_element";
     severity := LOW;
     message := "No focused UI element detected (state: " ++ app_state ++ ")";
     details := [("app_state", VStr app_state)];
     timestamp := t;
     source := "ui" |}.

(** A step of the monitor that, when auto-fix is disabled, keeps the
    configuration and remediates nothing, whether it returns or raises. *)
Definition passive {H A} (c : M H (AppMonitor H) A) : Prop :=
  forall m w,
    enable_auto_fix (config m) = false ->
    config (snd (fst (c m w))) = config m /\ no_remediation m (snd (fst (c m w))).

(** The default configuration with auto-fix switched off. *)
Definition observer_config : Config :=
  {| max_fix_attempts_per_hour := 10;
     enable_auto_fix := false;
     report_file := "monitor_report.json";
     ui_monitoring := default_ui_config |}.

(** ** Vocabulary of the properties of the device link *)

Section Runs.
Context {S : Type} `{ADB.Subprocess S}.

(** What a subprocess started in the world [w] does, and the world it
    leaves. *)
Definition ran (cmd : list string) (timeout : Z) (w : World S) : ADB.run_result :=
  fst (ADB.subprocess_run cmd timeout (host w)).
Definition after_run (cmd : list string) (timeout : Z) (w : World S) : World S :=
  mkWorld (snd (ADB.subprocess_run cmd timeout (host w))) (logs w).

End Runs.









(** A method call that returns a value and leaves its object alone. *)
Definition returns {H St A} (c : M H St A) : Prop :=
  forall s w, exists a w', c s w = (Ok a, s, w').

Section Reach.
Context {S : Type} `{ADB.Subprocess S}.

(** The result of an [adb devices] run in which [get_connected_devices]
    and [is_connected] do not find the device [device_id] in the state
    [device]. *)
Definition not_listed (device_id : string) (r : ADB.run_result) : Prop :=
  match r with
  | ADB.Completed _ stdout _ =>
      ADB.find_device device_id
        (ADB.collect_devices (tail (PyStr.split_on PyStr.newline (py_strip stdout))) [])
      = false
  | _ => True
  end.

(** The result of an [adb connect] run that [connect] does not take for a
    connection. *)
Definition not_connected (r : ADB.run_result) : Prop :=
  match r with
  | ADB.Completed returncode stdout _ =>
      returncode <> 0 \/ PyStr.contains "connected" (PyStr.lower stdout) = false
  | _ => True
  end.

(** The device of [adb] is out of reach on the machine states in [P]:
    no run leaves [P], [adb devices] does not list the device and
    [adb connect] does not connect to it. *)
Record out_of_reach (adb : ADB.ADBManager) (P : S -> Prop) : Prop := mkOutOfReach {
  reach_closed : forall cmd timeout s, P s -> P (snd (ADB.subprocess_run cmd timeout s));
  reach_devices : forall s, P s ->
    not_listed (ADB.device_id adb) (fst (ADB.subprocess_run ["adb"; "devices"] 5 s));
  reach_connect : forall s, P s ->
    not_connected (fst (ADB.subprocess_run ["adb"; "connect"; ADB.device_id adb] 10 s));
}.

(** The machine after one failed attempt to reach the device: an
    [adb devices] run and an [adb connect] run, and nothing else. *)
Definition probed (adb : ADB.ADBManager) (s : S) : S :=
  snd (ADB.subprocess_run ["adb"; "connect"; ADB.device_id adb] 10
         (snd (ADB.subprocess_run ["adb"; "devices"] 5 s))).

(** The call [c] on [adb] in the world [w] answers [a] after one failed
    attempt to reach the device, having run nothing else and added log
    records only. *)
Definition unanswered {A} (adb : ADB.ADBManager) (w : World S) (a : A)
    (c : M S ADB.ADBManager A) : Prop :=
  exists records,
    c adb w = (Ok a, adb, mkWorld (probed adb (host w)) (logs w ++ records)%list).

End Reach.



(** The one-character text of a superscript two. *)
Definition superscript_two : string := String (ascii_of_nat 178) EmptyString.



(** The summary line of [dumpsys meminfo] as current devices print it. *)
Definition summary_line : string :=
  "           TOTAL PSS:   123456            TOTAL RSS:   234567       TOTAL SWAP PSS:        0".


(** A crash line that starts with its colon, as a log line cut off at the
    tag does. *)
Definition untagged_crash_line : string :=
  ": FATAL EXCEPTION in com.webviewer.firetv, Error: null".

(** * Properties *)

(** ** Substrings *)

Lemma append_cons (c : ascii) (s t : string) : String c s ++ t = String c (s ++ t).
Proof. reflexivity. Qed.

Lemma append_nil (t : string) : "" ++ t = t.
Proof. reflexivity. Qed.

Lemma prefix_spec (n h : string) :
  String.prefix n h = true <-> exists post, h = n ++ post.
Proof.
  revert h. induction n as [|a n IH]; intros h; simpl.
  - destruct h; split; eauto.
  - destruct h as [|b h]; simpl.
    + split; [discriminate | intros [post Hp]; discriminate].
    + destruct (ascii_dec a b) as [->|Hne].
      * rewrite IH. split; intros [post Hp]; exists post;
          rewrite append_cons in *; congruence.
      * split; [discriminate | intros [post Hp]; rewrite append_cons in Hp; congruence].
Qed.

Lemma contains_nil (n : string) :
  PyStr.contains n "" = String.prefix n "" || false.
Proof. reflexivity. Qed.

Lemma contains_cons (n : string) (c : ascii) (h : string) :
  PyStr.contains n (String c h) = String.prefix n (String c h) || PyStr.contains n h.
Proof. reflexivity. Qed.

Lemma contains_spec (n h : string) :
  PyStr.contains n h = true <-> Substring n h.
Proof.
  unfold Substring. induction h as [|c h IH].
  - rewrite contains_nil, orb_false_r, prefix_spec. split.
    + intros [post Hp]. exists "", post. exact Hp.
    + intros [pre [post Hp]]. destruct pre.
      * rewrite append_nil in Hp. eauto.
      * rewrite append_cons in Hp. discriminate.
  - rewrite contains_cons, orb_true_iff, prefix_spec, IH. split.
    + intros [[post Hp] | [pre [post Hp]]].
      * exists "", post. exact Hp.
      * exists (String c pre), post. rewrite append_cons. congruence.
    + intros [pre [post Hp]]. destruct pre as [|c' pre].
      * left. rewrite append_nil in Hp. eauto.
      * right. rewrite append_cons in Hp. exists pre, post. congruence.
Qed.

Lemma contains_false (n h : string) :
  ~ Substring n h -> PyStr.contains n h = false.
Proof.
  intros Hn. destruct (PyStr.contains n h) eqn:E; [|reflexivity].
  apply contains_spec in E. contradiction.
Qed.

(** ** Unfolding the monad *)

Ltac unfold_m :=
  unfold bind, ret, raise, get, modify, try_except, zoom, log_msg, time_time,
    time_sleep, lift_host, logged in *.

(** ** The relevance pre-filter *)

Section PrefilterFacts.
Context {H : Type} `{Host H}.

Lemma relevant_false (pkg line : string) :
  ~ Substring pkg line ->
  (forall keyword, In keyword relevance_keywords ->
                   ~ Substring keyword (PyStr.lower line)) ->
  relevant pkg line = false.
Proof.
  intros Hpkg Hkw. unfold relevant.
  rewrite (contains_false _ _ Hpkg). rewrite orb_false_l.
  apply not_true_is_false. intros E.
  apply existsb_exists in E as [kw [Hin Hc]].
  apply contains_spec in Hc. exact (Hkw kw Hin Hc).
Qed.

(** C7.  A log line that contains neither the package identifier nor, once
    lower-cased, any of the keywords fatal, error, exception, crash, anr
    yields no errors: [analyze_logcat_line] returns the empty list, reads
    no clock and leaves the detector as it was. *)
Theorem analyze_logcat_line_prefilter (d : ErrorDetector) (w : World H) (line : string) :
  ~ Substring (app_package d) line ->
  (forall keyword, In keyword ["fatal"; "error"; "exception"; "crash"; "anr"] ->
                   ~ Substring keyword (PyStr.lower line)) ->
  analyze_logcat_line line d w = (Ok [], d, w).
Proof.
  intros Hpkg Hkw. unfold analyze_logcat_line. unfold_m.
  rewrite (relevant_false _ _ Hpkg Hkw). reflexivity.
Qed.

End PrefilterFacts.

(** ** App-state inference *)

Lemma contains_reflect (n h : string) : reflect (Substring n h) (PyStr.contains n h).
Proof.
  destruct (PyStr.contains n h) eqn:E; constructor.
  - apply contains_spec, E.
  - intros Hs. apply contains_spec in Hs. congruence.
Qed.

Lemma not_substring (n h : string) : PyStr.contains n h = false -> ~ Substring n h.
Proof. intros E Hs. apply contains_spec in Hs. congruence. Qed.

(** C8.  App-state inference returns one of the five states and checks them
    in the order settings, loading, error_welcome, browsing, unknown: a state
    is returned exactly when its marker is present and no marker of an
    earlier state is.  In particular a dump with both a settings marker and a
    browsing marker is inferred as settings. *)
Theorem detect_app_state_priority (ui_dump : string) :
  In (_detect_app_state ui_dump) app_states
  /\ (settings_marker ui_dump -> _detect_app_state ui_dump = "settings")
  /\ (~ settings_marker ui_dump -> loading_marker ui_dump ->
      _detect_app_state ui_dump = "loading")
  /\ (~ settings_marker ui_dump -> ~ loading_marker ui_dump -> welcome_marker ui_dump ->
      _detect_app_state ui_dump = "error_welcome")
  /\ (~ settings_marker ui_dump -> ~ loading_marker ui_dump -> ~ welcome_marker ui_dump ->
      browsing_marker ui_dump -> _detect_app_state ui_dump = "browsing")
  /\ (~ settings_marker ui_dump -> ~ loading_marker ui_dump -> ~ welcome_marker ui_dump ->
      ~ browsing_marker ui_dump -> _detect_app_state ui_dump = "unknown")
  /\ (settings_marker ui_dump -> browsing_marker ui_dump ->
      _detect_app_state ui_dump = "settings").
Proof.
  unfold _detect_app_state, settings_marker, loading_marker, welcome_marker,
    browsing_marker, app_states.
  destruct (contains_reflect "SettingsActivity" ui_dump);
  destruct (contains_reflect "ProfilesActivity" ui_dump);
  destruct (contains_reflect "ProfileEditActivity" ui_dump);
  destruct (contains_reflect "loading" (PyStr.lower ui_dump));
  destruct (contains_reflect "progress" (PyStr.lower ui_dump));
  destruct (contains_reflect "welcomeContainer" ui_dump);
  destruct (contains_reflect visibility_gone ui_dump);
  destruct (contains_reflect "webViewCard" ui_dump);
  cbn [orb andb negb In]; intuition congruence.
Qed.

(** ** UI analysis of an empty dump *)

Section UiFacts.
Context {H : Type} `{Host H}.

(** C10.  For the empty UI dump [analyze_ui_dump] returns no errors at
    all, under every UI configuration; it reads no clock and changes
    nothing.  Neither [no_focused_element] nor any [missing_ui_element] is
    reported, although the empty dump has no focus marker and holds none of
    the elements that could be expected. *)
Theorem analyze_ui_dump_empty (d : ErrorDetector) (w : World H) :
  analyze_ui_dump "" d w = (Ok [], d, w)
  /\ ~ Substring focused_true ""
  /\ (forall element, element <> "" -> ~ Substring element "").
Proof.
  split; [reflexivity|]. split.
  - apply not_substring. vm_compute. reflexivity.
  - intros element Hne [pre [post Heq]].
    destruct pre; [|rewrite append_cons in Heq; discriminate].
    rewrite append_nil in Heq.
    destruct element; [contradiction|]. rewrite append_cons in Heq. discriminate.
Qed.

End UiFacts.

(** As soon as the dump is not empty the focus check runs: with the default
    configuration a one-blank dump is reported as having no focused element. *)
Example analyze_ui_dump_blank :
  match fst (fst (analyze_ui_dump " " (new_detector default_ui_config) (Sim.world_at 0))) with
  | Ok [e] => error_type e = "no_focused_element"
  | _ => False
  end.
Proof. vm_compute. reflexivity. Qed.


(** ** Bounded histories *)

Lemma py_last_length {A} (n : Z) (l : list A) :
  0 < n -> Z.of_nat (length (py_last n l)) <= n.
Proof.
  intros Hn. unfold py_last.
  destruct (0 <? n) eqn:E; [|apply Z.ltb_ge in E; lia].
  rewrite length_drop. lia.
Qed.

Lemma py_last_suffix {A} (n : Z) (l : list A) : exists old, l = (old ++ py_last n l)%list.
Proof.
  unfold py_last. destruct (0 <? n).
  - exists (take (length l - Z.to_nat n) l). symmetry. apply take_drop.
  - exists (take (Z.to_nat (- n)) l). symmetry. apply take_drop.
Qed.

Lemma py_last_all {A} (n : Z) (l : list A) :
  Z.of_nat (length l) <= n -> py_last n l = l.
Proof.
  intros Hl. unfold py_last. destruct (0 <? n) eqn:E.
  - replace (length l - Z.to_nat n)%nat with 0%nat by lia. reflexivity.
  - apply Z.ltb_ge in E. replace (Z.to_nat (- n)) with 0%nat by lia. reflexivity.
Qed.



Section DetectorHistory.
Context {H : Type} `{Host H}.

Lemma add_detected_error_run (error : DetectedError) (d : ErrorDetector) (w : World H) :
  add_detected_error error d w =
    (Ok tt, set_error_history (history_after_add d error) d,
     logged ERROR ("Detected " ++ severity_value (severity error) ++ " error: "
                   ++ error_type error ++ " - " ++ message error) w).
Proof.
  unfold add_detected_error, history_after_add. unfold_m. cbn.
  destruct (_ <? _); reflexivity.
Qed.

End DetectorHistory.

(** ** The remediation dispatcher *)

Section FixerFacts.
Context {H : Type} `{Host H}.

Lemma time_time_run {St : Type} (s : St) (w : World H) :
  time_time s w = (Ok (reading w), s, after_reading w).
Proof.
  unfold time_time, reading, after_reading. destruct (host_time (host w)); reflexivity.
Qed.

Lemma can_attempt_fix_run (kind : string) (f : AutoFixer H) (w : World H) :
  can_attempt_fix kind f w =
    (Ok (Qle_bool (fix_cooldown f) (reading w - default 0%Q (last_fix_times f !! kind))),
     f, after_reading w).
Proof.
  unfold can_attempt_fix, bind, get, ret. rewrite time_time_run. reflexivity.
Qed.

(** A request is skipped: no outcome, the fixer untouched. *)
Lemma apply_fix_cooldown (error : DetectedError) (f : AutoFixer H) (w : World H) :
  Qle_bool (fix_cooldown f)
    (reading w - default 0%Q (last_fix_times f !! error_type error)) = false ->
  apply_fix error f w =
    (Ok None, f,
     logged INFO ("Fix for " ++ error_type error ++ " is in cooldown") (after_reading w)).
Proof.
  intros Hcd. unfold apply_fix, bind. rewrite can_attempt_fix_run, Hcd. reflexivity.
Qed.

Lemma apply_fix_no_strategy (error : DetectedError) (f : AutoFixer H) (w : World H) :
  Qle_bool (fix_cooldown f)
    (reading w - default 0%Q (last_fix_times f !! error_type error)) = true ->
  fix_strategies f !! error_type error = None ->
  apply_fix error f w =
    (Ok None, f,
     logged WARNING ("No fix strategy for error type: " ++ error_type error)
       (after_reading w)).
Proof.
  intros Hcd Hno. unfold apply_fix, bind. rewrite can_attempt_fix_run, Hcd.
  cbn. rewrite Hno. reflexivity.
Qed.

(** A dispatched attempt whose strategy returns [result]: one history
    entry, and the cooldown table records the start time. *)
Lemma apply_fix_returns (error : DetectedError) (f : AutoFixer H) (w w1 : World H)
    (fix_strategy : Strategy H) (result : FixResult) :
  Qle_bool (fix_cooldown f)
    (reading w - default 0%Q (last_fix_times f !! error_type error)) = true ->
  fix_strategies f !! error_type error = Some fix_strategy ->
  fix_strategy error tt (after_reading (dispatch_world error w)) = (Ok result, tt, w1) ->
  let start_time := start_reading error w in
  let fix_action :=
    FixAction.mk ("fix_" ++ error_type error) result
      ("Fix attempt for " ++ error_type error)
      [("original_error", VDict (to_dict error))]
      start_time (reading w1 - start_time) in
  apply_fix error f w =
    (Ok (Some fix_action),
     set_last_fix_times (<[error_type error := start_time]> (last_fix_times f))
       (set_fix_history (append (fix_history f) fix_action) f),
     logged INFO ("Fix result for " ++ error_type error ++ ": " ++ result_value result)
       (after_reading w1)).
Proof.
  intros Hcd Hst Hrun. unfold apply_fix, bind. rewrite can_attempt_fix_run, Hcd.
  cbn. rewrite Hst. unfold log_msg, try_except, call_strategy, zoom, bind.
  rewrite time_time_run. cbn.
  fold (dispatch_world error w).
  rewrite Hrun. rewrite time_time_run. reflexivity.
Qed.

(** A dispatched attempt whose strategy raises [e]: one [failed] history
    entry embedding [e]; the cooldown table is left as it was. *)
Lemma apply_fix_raises (error : DetectedError) (f : AutoFixer H) (w w1 : World H)
    (fix_strategy : Strategy H) (e : string) :
  Qle_bool (fix_cooldown f)
    (reading w - default 0%Q (last_fix_times f !! error_type error)) = true ->
  fix_strategies f !! error_type error = Some fix_strategy ->
  fix_strategy error tt (after_reading (dispatch_world error w)) = (Raise e, tt, w1) ->
  let start_time := start_reading error w in
  let fix_action :=
    FixAction.mk ("fix_" ++ error_type error) FAILED
      ("Fix failed: " ++ e)
      [("error", VStr e); ("original_error", VDict (to_dict error))]
      start_time (reading w1 - start_time) in
  apply_fix error f w =
    (Ok (Some fix_action),
     set_fix_history (append (fix_history f) fix_action) f,
     logged ERROR ("Fix failed for " ++ error_type error ++ ": " ++ e) (after_reading w1)).
Proof.
  intros Hcd Hst Hrun. unfold apply_fix, bind. rewrite can_attempt_fix_run, Hcd.
  cbn. rewrite Hst. unfold log_msg, try_except, call_strategy, zoom, bind.
  rewrite time_time_run. cbn.
  fold (dispatch_world error w).
  rewrite Hrun. rewrite time_time_run. reflexivity.
Qed.

End FixerFacts.

(** ** The escalation policy *)

Lemma trim_keeps_tail {A} (cap : Z) (l t : list A) :
  Z.of_nat (length t) <= cap ->
  exists old kept,
    l = (old ++ kept)%list /\
    (if cap <? Z.of_nat (length (l ++ t)) then py_last cap (l ++ t) else (l ++ t)%list)
    = (kept ++ t)%list.
Proof.
  intros Ht. destruct (_ <? _) eqn:E.
  - apply Z.ltb_lt in E. rewrite length_app in E.
    unfold py_last. destruct (0 <? cap) eqn:Ecap.
    + exists (take (length (l ++ t) - Z.to_nat cap) l),
        (drop (length (l ++ t) - Z.to_nat cap) l).
      split; [symmetry; apply take_drop|].
      apply drop_app_le. rewrite length_app. lia.
    + apply Z.ltb_ge in Ecap. exists [], l. split; [reflexivity|].
      replace (Z.to_nat (- cap)) with 0%nat by lia. reflexivity.
  - exists [], l. split; reflexivity.
Qed.

Lemma similar_recent_app (now : Q) (kind : string) (l1 l2 : list DetectedError) :
  similar_recent now kind (l1 ++ l2) =
  (similar_recent now kind l1 ++ similar_recent now kind l2)%list.
Proof. unfold similar_recent, recent_since. rewrite !List.filter_app. reflexivity. Qed.

Lemma similar_recent_none (now : Q) (kind : string) (l : list DetectedError) :
  (forall e, In e l -> error_type e <> kind) -> similar_recent now kind l = [].
Proof.
  intros Hno. unfold similar_recent, recent_since.
  induction l as [|e l IH]; [reflexivity|]. cbn.
  assert (Hk : String.eqb (error_type e) kind = false)
    by (apply String.eqb_neq, Hno; left; reflexivity).
  destruct (Qle_bool _ _); cbn; rewrite ?Hk; apply IH; intros e' Hin; apply Hno; right; exact Hin.
Qed.

Lemma similar_recent_length_le (now : Q) (kind : string) (l : list DetectedError) :
  (length (similar_recent now kind l) <= length l)%nat.
Proof.
  unfold similar_recent, recent_since.
  etransitivity; [apply List.filter_length_le|apply List.filter_length_le].
Qed.

Lemma similar_recent_one (now : Q) (e : DetectedError) :
  (now - 600 <= timestamp e)%Q ->
  similar_recent now (error_type e) [e] = [e].
Proof.
  intros Hin. unfold similar_recent, recent_since. cbn.
  apply Qle_bool_iff in Hin. rewrite Hin. cbn. rewrite String.eqb_refl. reflexivity.
Qed.

(** The filter of the code keeps what the specification counts. *)
Lemma similar_recent_count (now : Q) (kind : string) (history : list DetectedError) :
  length (similar_recent now kind history) = occurred_within_10_minutes now kind history.
Proof.
  unfold similar_recent, recent_since.
  induction history as [|e history IH]; [reflexivity|].
  cbn [List.filter occurred_within_10_minutes]. rewrite <- IH.
  destruct (Qle_bool (now - 600) (timestamp e)) eqn:Hin.
  - apply Qle_bool_iff in Hin. cbn [List.filter].
    destruct (decide (error_type e = kind)) as [Hk|Hk].
    + apply String.eqb_eq in Hk. rewrite Hk.
      destruct (Qlt_le_dec 600 (now - timestamp e)) as [Hold|_]; [exfalso; lra|].
      reflexivity.
    + apply String.eqb_neq in Hk. rewrite Hk. reflexivity.
  - assert (Hold : (600 < now - timestamp e)%Q).
    { destruct (Qlt_le_dec 600 (now - timestamp e)) as [Hold|Hyoung]; [exact Hold|].
      exfalso. assert (Hle : (now - 600 <= timestamp e)%Q) by lra.
      apply Qle_bool_iff in Hle. congruence. }
    destruct (decide (error_type e = kind)); [|reflexivity].
    destruct (Qlt_le_dec 600 (now - timestamp e)) as [_|Hyoung]; [reflexivity|].
    exfalso. lra.
Qed.

Lemma occurred_app (now : Q) (kind : string) (l1 l2 : list DetectedError) :
  occurred_within_10_minutes now kind (l1 ++ l2)
  = (occurred_within_10_minutes now kind l1 + occurred_within_10_minutes now kind l2)%nat.
Proof.
  induction l1 as [|e l1 IH]; [reflexivity|].
  cbn [app occurred_within_10_minutes]. rewrite IH. lia.
Qed.

Lemma occurred_none (now : Q) (kind : string) (l : list DetectedError) :
  (forall e, In e l -> error_type e <> kind) -> occurred_within_10_minutes now kind l = 0%nat.
Proof.
  intros Hno. rewrite <- similar_recent_count, similar_recent_none by exact Hno. reflexivity.
Qed.

Lemma occurred_one (now : Q) (e : DetectedError) :
  (occurred_within_10_minutes now (error_type e) [e] <= 1)%nat
  /\ ((now - timestamp e <= 600)%Q ->
      occurred_within_10_minutes now (error_type e) [e] = 1%nat)
  /\ ((600 < now - timestamp e)%Q ->
      occurred_within_10_minutes now (error_type e) [e] = 0%nat).
Proof.
  cbn [occurred_within_10_minutes].
  destruct (decide (error_type e = error_type e)) as [_|Hne]; [|contradiction].
  destruct (Qlt_le_dec 600 (now - timestamp e)) as [Hold|Hyoung]; cbn.
  - split; [lia|]. split; [intros Hle; exfalso; lra | reflexivity].
  - split; [lia|]. split; [reflexivity | intros Hlt; exfalso; lra].
Qed.

Section EscalationFacts.
Context {H : Type} `{Host H}.

Lemma should_trigger_autofix_run (error : DetectedError) (d : ErrorDetector) (w : World H) :
  should_trigger_autofix error d w =
    match severity error with
    | CRITICAL | HIGH => (Ok true, d, w)
    | MEDIUM =>
        (Ok (3 <=? length (similar_recent (reading w) (error_type error)
                             (error_history d)))%nat,
         d, after_reading w)
    | LOW => (Ok false, d, w)
    end.
Proof.
  unfold should_trigger_autofix, get_recent_errors, bind, get, ret.
  destruct (severity error); cbn; try reflexivity.
  rewrite time_time_run. reflexivity.
Qed.

Lemma recorded_tail (d : ErrorDetector) (error : DetectedError)
    (older tail : list DetectedError) :
  error_history d = (older ++ tail)%list ->
  Z.of_nat (length tail) + 1 <= max_history_size d ->
  exists dropped kept,
    older = (dropped ++ kept)%list
    /\ error_history (recorded d error) = (kept ++ tail ++ [error])%list.
Proof.
  intros Hh Hcap.
  destruct (trim_keeps_tail (max_history_size d) older (tail ++ [error])%list)
    as (dropped & kept & Hold & Htrim).
  { rewrite length_app. cbn. lia. }
  exists dropped, kept. split; [exact Hold|].
  cbn. unfold history_after_add, append. rewrite Hh, <- app_assoc. exact Htrim.
Qed.

Lemma recorded_cap (d : ErrorDetector) (error : DetectedError) :
  max_history_size (recorded d error) = max_history_size d.
Proof. reflexivity. Qed.

(** The handling path: the error is counted, recorded and logged; with
    auto-fix enabled the decision is then taken on the history that already
    holds the error, and [_attempt_auto_fix] runs exactly when it is [True]. *)
Lemma handle_detected_error_run (m : AppMonitor H) (w : World H) (error : DetectedError) :
  _handle_detected_error error m w =
    if enable_auto_fix (config m) then
      match should_trigger_autofix error (recorded (error_detector m) error)
              (handled_world error w) with
      | (Ok true, _, w') => _attempt_auto_fix error (handled m error) w'
      | (Ok false, _, w') => (Ok tt, handled m error, w')
      | (Raise x, _, w') => (Raise x, handled m error, w')
      end
    else (Ok tt, handled m error, handled_world error w).
Proof.
  unfold _handle_detected_error, on_detector, bind, modify, zoom, get.
  rewrite add_detected_error_run. cbn -[_attempt_auto_fix should_trigger_autofix].
  destruct (enable_auto_fix (config m)); [|reflexivity].
  rewrite !should_trigger_autofix_run. unfold handled, handled_world, recorded.
  destruct (severity error); try reflexivity.
  cbn -[_attempt_auto_fix Nat.leb].
  match goal with |- context [(3 <=? ?n)%nat] => destruct (3 <=? n)%nat end; reflexivity.
Qed.

(** C3.  The escalation decision: critical and high severities always
    escalate and low severities never do; a medium-severity error escalates
    exactly when at least three errors of its kind on record occurred
    within the last ten minutes (their age is at most 600 seconds), and an
    older error is not counted.  On the handling path the error is recorded
    before the decision, so it counts itself: of three medium errors of one
    kind (none of that kind on record before) the second does not escalate;
    the third does when all three are within the ten minutes, and does not
    when one of them is older.  With auto-fix enabled the handler passes
    the error on to [_attempt_auto_fix] exactly when the decision is to
    escalate. *)
Theorem escalation_policy :
  (forall d (w : World H) e,
     severity e = CRITICAL \/ severity e = HIGH -> decision e d w = Ok true)
  /\ (forall d (w : World H) e, severity e = LOW -> decision e d w = Ok false)
  /\ (forall d (w : World H) e, severity e = MEDIUM ->
        (decision e d w = Ok true <->
         (3 <= occurred_within_10_minutes (reading w) (error_type e) (error_history d))%nat)
        /\ (decision e d w = Ok false <->
            (occurred_within_10_minutes (reading w) (error_type e) (error_history d) < 3)%nat))
  /\ (forall d e1 e2 e3 (w2 w3 : World H),
        severity e1 = MEDIUM -> severity e2 = MEDIUM -> severity e3 = MEDIUM ->
        error_type e1 = error_type e3 -> error_type e2 = error_type e3 ->
        3 <= max_history_size d ->
        (forall e, In e (error_history d) -> error_type e <> error_type e3) ->
        let d2 := recorded (recorded d e1) e2 in
        let d3 := recorded d2 e3 in
        decision e2 d2 w2 = Ok false
        /\ ((reading w3 - timestamp e1 <= 600)%Q ->
            (reading w3 - timestamp e2 <= 600)%Q ->
            (reading w3 - timestamp e3 <= 600)%Q ->
            decision e3 d3 w3 = Ok true)
        /\ ((600 < reading w3 - timestamp e1)%Q
            \/ (600 < reading w3 - timestamp e2)%Q
            \/ (600 < reading w3 - timestamp e3)%Q ->
            decision e3 d3 w3 = Ok false))
  /\ (forall (m : AppMonitor H) (w : World H) e,
        enable_auto_fix (config m) = true ->
        let verdict := decision e (recorded (error_detector m) e) (handled_world e w) in
        (verdict = Ok true ->
         exists w', _handle_detected_error e m w = _attempt_auto_fix e (handled m e) w')
        /\ (verdict = Ok false ->
            exists w', _handle_detected_error e m w = (Ok tt, handled m e, w'))).
Proof.
  split; [|split; [|split; [|split]]].
  - intros d w e [Hs|Hs]; unfold decision; rewrite should_trigger_autofix_run, Hs;
      reflexivity.
  - intros d w e Hs. unfold decision. rewrite should_trigger_autofix_run, Hs. reflexivity.
  - intros d w e Hs. unfold decision. rewrite should_trigger_autofix_run, Hs. cbn [fst].
    rewrite similar_recent_count.
    set (n := occurred_within_10_minutes _ _ _).
    destruct (Nat.leb_spec 3 n); split; split; intros; try reflexivity; try lia;
      congruence.
  - intros d e1 e2 e3 w2 w3 Hs1 Hs2 Hs3 Hk1 Hk2 Hcap Hnone d2 d3.
    destruct (recorded_tail d e1 (error_history d) []) as (x1 & k1 & Hx1 & Hh1).
    { rewrite app_nil_r. reflexivity. } { cbn. lia. }
    destruct (recorded_tail (recorded d e1) e2 k1 [e1]) as (x2 & k2 & Hx2 & Hh2).
    { exact Hh1. } { rewrite recorded_cap. cbn. lia. }
    destruct (recorded_tail (recorded (recorded d e1) e2) e3 k2 [e1; e2])
      as (x3 & k3 & Hx3 & Hh3).
    { exact Hh2. } { rewrite !recorded_cap. cbn. lia. }
    fold d2 in Hh2, Hh3. fold d3 in Hh3.
    assert (Hk2none : forall e, In e k2 -> error_type e <> error_type e3).
    { intros e Hin. apply Hnone. rewrite Hx1, Hx2. rewrite !in_app_iff. auto. }
    assert (Hk3none : forall e, In e k3 -> error_type e <> error_type e3).
    { intros e Hin. apply Hk2none. rewrite Hx3. rewrite in_app_iff. auto. }
    assert (Hthird : forall now,
              occurred_within_10_minutes now (error_type e3) (error_history d3)
              = (occurred_within_10_minutes now (error_type e1) [e1]
                 + occurred_within_10_minutes now (error_type e2) [e2]
                 + occurred_within_10_minutes now (error_type e3) [e3])%nat).
    { intros now. rewrite Hh3, occurred_app, (occurred_none _ _ k3 Hk3none).
      change ([e1; e2] ++ [e3])%list with ([e1] ++ [e2] ++ [e3])%list.
      rewrite !occurred_app, Hk1, Hk2. lia. }
    split; [|split].
    + unfold decision. rewrite should_trigger_autofix_run, Hs2. cbn [fst].
      rewrite similar_recent_count, Hh2, Hk2, occurred_app, (occurred_none _ _ k2 Hk2none).
      f_equal. apply Nat.leb_gt.
      change [e1; e2] with ([e1] ++ [e2])%list. rewrite occurred_app.
      pose proof (proj1 (occurred_one (reading w2) e1)) as Hc1. rewrite Hk1 in Hc1.
      pose proof (proj1 (occurred_one (reading w2) e2)) as Hc2. rewrite Hk2 in Hc2.
      lia.
    + intros Hin1 Hin2 Hin3. unfold decision.
      rewrite should_trigger_autofix_run, Hs3. cbn [fst].
      rewrite similar_recent_count, Hthird.
      rewrite (proj1 (proj2 (occurred_one _ e1)) Hin1),
        (proj1 (proj2 (occurred_one _ e2)) Hin2),
        (proj1 (proj2 (occurred_one _ e3)) Hin3).
      reflexivity.
    + intros Hold. unfold decision.
      rewrite should_trigger_autofix_run, Hs3. cbn [fst].
      rewrite similar_recent_count, Hthird.
      f_equal. apply Nat.leb_gt.
      pose proof (proj1 (occurred_one (reading w3) e1)).
      pose proof (proj1 (occurred_one (reading w3) e2)).
      pose proof (proj1 (occurred_one (reading w3) e3)).
      destruct Hold as [Hold|[Hold|Hold]];
        [rewrite (proj2 (proj2 (occurred_one _ e1)) Hold)
        |rewrite (proj2 (proj2 (occurred_one _ e2)) Hold)
        |rewrite (proj2 (proj2 (occurred_one _ e3)) Hold)]; lia.
  - intros m w e Hauto verdict. subst verdict. unfold decision.
    rewrite handle_detected_error_run, Hauto.
    destruct (should_trigger_autofix e (recorded (error_detector m) e) (handled_world e w))
      as [[[[|]|x] d'] w']; cbn [fst]; split; intros Hv; try discriminate; eauto.
Qed.

End EscalationFacts.

(** ** What [apply_fix] does to the fixer *)

Section ApplyFixOutcome.
Context {H : Type} `{Host H}.

(** [apply_fix] never raises.  A skip leaves the fixer untouched; an
    attempt appends exactly its outcome to the history and either records
    the start time in the cooldown table or leaves the table alone. *)
Lemma apply_fix_outcome (error : DetectedError) (f : AutoFixer H) (w : World H) :
  exists r f' w',
    apply_fix error f w = (Ok r, f', w') /\
    match r with
    | None => f' = f
    | Some a =>
        fix_history f' = append (fix_history f) a
        /\ FixAction.timestamp a = start_reading error w
        /\ ((dict_get "error" (FixAction.details a) = None
             /\ last_fix_times f' =
                <[error_type error := start_reading error w]> (last_fix_times f))
            \/ (dict_get "error" (FixAction.details a) <> None
                /\ FixAction.result a = FAILED
                /\ last_fix_times f' = last_fix_times f))
    end.
Proof.
  destruct (Qle_bool (fix_cooldown f)
              (reading w - default 0%Q (last_fix_times f !! error_type error))) eqn:Hcd.
  - destruct (fix_strategies f !! error_type error) as [fix_strategy|] eqn:Hst.
    + destruct (fix_strategy error tt (after_reading (dispatch_world error w)))
        as [[[result|e] []] w1] eqn:Hrun.
      * do 3 eexists. split; [apply (apply_fix_returns _ _ _ _ _ _ Hcd Hst Hrun)|].
        cbn. repeat split. left. split; reflexivity.
      * do 3 eexists. split; [apply (apply_fix_raises _ _ _ _ _ _ Hcd Hst Hrun)|].
        cbn. repeat split. right. repeat split. discriminate.
    + do 3 eexists. split; [apply (apply_fix_no_strategy _ _ _ Hcd Hst)|]. reflexivity.
  - do 3 eexists. split; [apply (apply_fix_cooldown _ _ _ Hcd)|]. reflexivity.
Qed.

End ApplyFixOutcome.

(** ** C1: the cooldown timestamp of an attempt that raised *)

Example anr_line_classified :
  fst (fst (analyze_logcat_line anr_line (new_detector default_ui_config) (Sim.world_at 99)))
  = Ok [anr_error].
Proof. vm_compute. reflexivity. Qed.

(** C1 (the code departs from the specification).  A fresh fixer handles an [anr]
    error at time 100 over a device link whose key events raise, so the
    strategy raises at its first step.  The attempt is dispatched and ends as
    a [failed] outcome in the history, but the cooldown table still has no
    entry for the kind: the same request one second later is dispatched
    again instead of being held back for the cooldown. *)
Theorem apply_fix_exception_leaves_cooldown :
  let '(r1, f1, w1) := apply_fix anr_error new_fixer (Sim.broken_world_at 100) in
  let '(r2, f2, w2) := apply_fix anr_error f1 (Sim.advance 101 w1) in
  (match r1 with
   | Ok (Some a) =>
       FixAction.result a = FAILED
       /\ FixAction.timestamp a = 100%Q
       /\ dict_get "error" (FixAction.details a) = Some (VStr "device link down")
   | _ => False
   end)
  /\ length (fix_history f1) = 1%nat
  /\ last_fix_times f1 !! "anr" = None
  /\ (match r2 with
      | Ok (Some a) => FixAction.result a = FAILED /\ FixAction.timestamp a = 101%Q
      | _ => False
      end)
  /\ length (fix_history f2) = 2%nat.
Proof. vm_compute. repeat split. Qed.

(** The sibling path: when the strategy returns [failed] instead of raising
    (here: the app cannot be seen running after the restart), the start time
    is recorded and the request one second later is skipped. *)
Example apply_fix_failure_sets_cooldown :
  let stopped := mkWorld (Sim.mk 100 false false []) [] in
  let e := mkError "network_error" MEDIUM "" [] 99 "logcat" in
  let '(r1, f1, w1) := apply_fix e new_fixer stopped in
  let '(r2, f2, w2) := apply_fix e f1 (Sim.advance 101 w1) in
  (match r1 with Ok (Some a) => FixAction.result a = FAILED | _ => False end)
  /\ last_fix_times f1 !! "network_error" = Some 100%Q
  /\ r2 = Ok None
  /\ length (fix_history f2) = 1%nat.
Proof. vm_compute. repeat split. Qed.

(** ** C9: memory-leak detection *)

(** C9 (the code departs from the specification).  A first sample without a total
    (only a heap counter was parsed) stores 0 as the previous value; the
    next sample, 100 KB, exceeds 1.5 times 0, so the leak branch is taken and
    the percentage divides by zero: the analysis raises instead of emitting
    [potential_memory_leak], and the stored previous value stays 0. *)
Theorem memory_leak_check_divides_by_zero :
  let '(r1, d1, w1) :=
    analyze_memory_usage {[ "native_heap_kb" := 5000 ]}
      (new_detector default_ui_config) (Sim.world_at 0) in
  let '(r2, d2, w2) := analyze_memory_usage {[ "total_pss_kb" := 100 ]} d1 w1 in
  r1 = Ok []
  /\ _last_memory_usage d1 = Some 0
  /\ r2 = Raise "division by zero"
  /\ _last_memory_usage d2 = Some 0.
Proof. vm_compute. repeat split. Qed.

(** What the check does when the previous sample is positive: the leak is
    reported exactly when the new total exceeds 1.5 times the old one. *)
Lemma leak_test_spec (last_usage total_pss : Z) :
  Qltb (inject_Z last_usage * (3 # 2)) (inject_Z total_pss)
  = (3 * last_usage <? 2 * total_pss).
Proof.
  unfold Qltb, Qle_bool. cbn. change (Z.pos (1 * 2)) with 2.
  destruct (Z.leb_spec (total_pss * 2) (last_usage * 3 * 1));
    destruct (Z.ltb_spec (3 * last_usage) (2 * total_pss)); cbn; try reflexivity; lia.
Qed.

Section MemoryFacts.
Context {H : Type} `{Host H}.

Lemma memory_leak_when_previous_positive (d : ErrorDetector) (w : World H)
    (memory_info : gmap string Z) (last_usage : Z) :
  memory_info <> ∅ ->
  _last_memory_usage d = Some last_usage ->
  0 < last_usage ->
  let total_pss := default 0 (memory_info !! "total_pss_kb") in
  total_pss <= 500000 ->
  analyze_memory_usage memory_info d w =
    if 3 * last_usage <? 2 * total_pss
    then (Ok [leak_error last_usage total_pss (reading w)],
          set_last_memory_usage total_pss d, after_reading w)
    else (Ok [], set_last_memory_usage total_pss d, w).
Proof.
  intros Hne Hlast Hpos total_pss Hlow. unfold analyze_memory_usage.
  destruct (decide (memory_info = ∅)) as [->|_]; [contradiction|].
  fold total_pss. replace (500000 <? total_pss) with false
    by (symmetry; apply Z.ltb_ge; exact Hlow).
  unfold bind, ret, get, modify. rewrite Hlast, leak_test_spec.
  destruct (3 * last_usage <? 2 * total_pss); [|reflexivity].
  unfold truediv. replace (last_usage =? 0) with false by (symmetry; apply Z.eqb_neq; lia).
  rewrite time_time_run. reflexivity.
Qed.

End MemoryFacts.

(** The two samples of the specification: 100,000 KB then 160,000 KB reports
    a leak of 60 percent; 100,000 KB then 140,000 KB reports nothing. *)
Example leak_160000 :
  match fst (fst (analyze_memory_usage {[ "total_pss_kb" := 160000 ]}
                    (set_last_memory_usage 100000 (new_detector default_ui_config))
                    (Sim.world_at 0))) with
  | Ok [e] =>
      error_type e = "potential_memory_leak" /\ severity e = HIGH
      /\ dict_get "previous_usage_kb" (details e) = Some (VInt 100000)
      /\ dict_get "current_usage_kb" (details e) = Some (VInt 160000)
      /\ match dict_get "increase_percentage" (details e) with
         | Some (VNum q) => (q == 60)%Q
         | _ => False
         end
  | _ => False
  end.
Proof. vm_compute. repeat split. Qed.

Example leak_140000 :
  fst (fst (analyze_memory_usage {[ "total_pss_kb" := 140000 ]}
              (set_last_memory_usage 100000 (new_detector default_ui_config))
              (Sim.world_at 0))) = Ok [].
Proof. vm_compute. reflexivity. Qed.

(** ** C5: the history caps *)

Section CleanupFacts.
Context {H : Type} `{Host H}.


Lemma trimmed_length {A} (n : nat) (l : list A) :
  (0 < n)%nat ->
  (length (if (n <? length l)%nat then py_last (Z.of_nat n) l else l) <= n)%nat.
Proof.
  intros Hn. destruct (Nat.ltb_spec n (length l)); [|lia].
  pose proof (py_last_length (Z.of_nat n) l ltac:(lia)). lia.
Qed.


End CleanupFacts.


(** ** The orchestrator: rate limit, cooldown and statistics *)

Section MonitorFacts.
Context {H : Type} `{Host H}.

Lemma can_attempt_fix_monitor_run (m : AppMonitor H) (w : World H) :
  _can_attempt_fix m w =
    (Ok (Z.of_nat (length (fixes_since (reading w - 3600) (fix_history (auto_fixer m))))
         <? max_fix_attempts_per_hour (config m)),
     m, after_reading w).
Proof.
  unfold _can_attempt_fix, bind, get, ret. rewrite time_time_run. reflexivity.
Qed.

Lemma reading_after_0 (w : World H) : reading_after 0 w = reading w.
Proof. reflexivity. Qed.

Lemma reading_after_S (n : nat) (w : World H) :
  reading_after n (after_reading w) = reading_after (S n) w.
Proof.
  unfold reading_after, after_reading. cbn [host].
  f_equal. f_equal. change (snd (host_time (host w))) with (tick (host w)).
  symmetry. apply Nat.iter_succ_r.
Qed.

(** C4.  When the remediation history already holds as many attempts
    within the trailing hour as the configured ceiling allows,
    [_attempt_auto_fix] returns at once: the monitor (statistics, fixer
    history, cooldown table) is unchanged, the host has only been asked the
    time, and the only log record is the rate-limit notice, so [apply_fix]
    has not run.  An error that qualifies for escalation and is handled in
    that situation is counted and recorded, and nothing more: the fixer and
    the fix counters are as before. *)
Theorem rate_limit_blocks_remediation :
  (forall (m : AppMonitor H) (w : World H) error,
     max_fix_attempts_per_hour (config m)
     <= Z.of_nat (length (fixes_since (reading w - 3600) (fix_history (auto_fixer m)))) ->
     _attempt_auto_fix error m w =
       (Ok tt, m, logged INFO "Fix rate limit reached, skipping auto-fix" (after_reading w)))
  /\ (forall (m : AppMonitor H) (w : World H) error,
        enable_auto_fix (config m) = true ->
        decision error (recorded (error_detector m) error) (handled_world error w)
        = Ok true ->
        (forall n,
           max_fix_attempts_per_hour (config m)
           <= Z.of_nat (length (fixes_since (reading_after n w - 3600)
                                  (fix_history (auto_fixer m))))) ->
        exists w',
          _handle_detected_error error m w = (Ok tt, handled m error, w')
          /\ auto_fixer (handled m error) = auto_fixer m
          /\ total_fixes_attempted (stats (handled m error))
             = total_fixes_attempted (stats m)).
Proof.
  assert (Hfirst : forall (m : AppMonitor H) (w : World H) error,
     max_fix_attempts_per_hour (config m)
     <= Z.of_nat (length (fixes_since (reading w - 3600) (fix_history (auto_fixer m)))) ->
     _attempt_auto_fix error m w =
       (Ok tt, m, logged INFO "Fix rate limit reached, skipping auto-fix" (after_reading w))).
  { intros m w error Hfull. unfold _attempt_auto_fix, bind.
    rewrite can_attempt_fix_monitor_run.
    replace (_ <? _) with false by (symmetry; apply Z.ltb_ge; exact Hfull).
    reflexivity. }
  split; [exact Hfirst|].
  intros m w error Hauto Hesc Hfull.
  rewrite handle_detected_error_run, Hauto.
  unfold decision in Hesc. rewrite should_trigger_autofix_run in *.
  destruct (severity error).
  - discriminate Hesc.
  - match goal with |- context [(3 <=? ?n)%nat] => set (b := (3 <=? n)%nat) in * end.
    cbn [fst] in Hesc. injection Hesc as ->.
    rewrite Hfirst; [eexists; repeat split|].
    change (reading (after_reading (handled_world error w)))
      with (reading (after_reading w)).
    rewrite <- (reading_after_0 (after_reading w)), reading_after_S. apply Hfull.
  - rewrite Hfirst; [eexists; repeat split|]. apply (Hfull 0%nat).
  - rewrite Hfirst; [eexists; repeat split|]. apply (Hfull 0%nat).
Qed.

Lemma in_cooldown (cooldown last now : Q) :
  (now - last < cooldown)%Q -> Qle_bool cooldown (now - last) = false.
Proof.
  intros Hlt. destruct (Qle_bool cooldown (now - last)) eqn:E; [|reflexivity].
  apply Qle_bool_iff in E. exfalso. exact (Qlt_not_le _ _ Hlt E).
Qed.

(** C2 as the code has it.  A dispatched attempt whose strategy returned
    (its outcome embeds no raised failure) records its start time in the
    cooldown table.  While the table holds [last] for the kind of an error,
    a request whose cooldown check reads the clock less than the cooldown
    after [last] gets no outcome: [apply_fix] returns [None] with the fixer
    (history and table) untouched.  On the orchestrator's path the
    cooldown check takes the third reading of the clock; a request that the
    rate limit admits and the cooldown skips is still counted: the monitor
    it leaves is the one before with [total_fixes_attempted] one higher and
    [last_fix_time] set to the second reading, so the fixer, its history,
    the success counter and the failure counter are as before. *)
Theorem cooldown_skips_request :
  (forall (f : AutoFixer H) (w : World H) error a f1 w1,
     apply_fix error f w = (Ok (Some a), f1, w1) ->
     dict_get "error" (FixAction.details a) = None ->
     last_fix_times f1 !! error_type error = Some (FixAction.timestamp a)
     /\ FixAction.timestamp a = start_reading error w)
  /\ (forall (f : AutoFixer H) (w : World H) error last,
        last_fix_times f !! error_type error = Some last ->
        (reading w - last < fix_cooldown f)%Q ->
        exists w', apply_fix error f w = (Ok None, f, w'))
  /\ (forall (m : AppMonitor H) (w : World H) error last,
        executor_shutdown m = false ->
        last_fix_times (auto_fixer m) !! error_type error = Some last ->
        (reading_after 2 w - last < fix_cooldown (auto_fixer m))%Q ->
        Z.of_nat (length (fixes_since (reading w - 3600) (fix_history (auto_fixer m))))
        < max_fix_attempts_per_hour (config m) ->
        exists m' w',
          _attempt_auto_fix error m w = (Ok tt, m', w')
          /\ m' = set_stats (count_attempt (reading_after 1 w) (stats m)) m
          /\ auto_fixer m' = auto_fixer m
          /\ error_detector m' = error_detector m
          /\ successful_fixes (stats m') = successful_fixes (stats m)
          /\ failed_fixes (stats m') = failed_fixes (stats m)
          /\ total_fixes_attempted (stats m') = total_fixes_attempted (stats m) + 1
          /\ last_fix_time (stats m') = Some (reading_after 1 w)).
Proof.
  split; [|split].
  - intros f w error a f1 w1 Hrun Hok.
    destruct (apply_fix_outcome error f w) as (r & f' & w' & Hrun' & Hr).
    rewrite Hrun in Hrun'. injection Hrun' as <- <- <-.
    destruct Hr as (_ & Hts & [[_ Htab] | [Hbad _]]); [|contradiction].
    split; [|exact Hts]. rewrite Htab, Hts. apply lookup_insert_eq.
  - intros f w error last Hlast Hnear. eexists.
    apply apply_fix_cooldown. rewrite Hlast. cbn. apply in_cooldown, Hnear.
  - intros m w error last Hexec Hlast Hnear Hadmit.
    unfold _attempt_auto_fix, bind. rewrite can_attempt_fix_monitor_run.
    apply Z.ltb_lt in Hadmit. rewrite Hadmit.
    cbn [negb]. rewrite time_time_run.
    unfold modify, try_except, run_in_executor, bind, get, on_fixer, zoom.
    cbn [executor_shutdown set_stats auto_fixer]. rewrite Hexec.
    rewrite apply_fix_cooldown.
    + do 2 eexists. split; [reflexivity|].
      split; [destruct m; reflexivity|]. cbn. repeat split.
    + cbn [auto_fixer set_stats]. rewrite Hlast. cbn [default]. apply in_cooldown.
      rewrite <- (reading_after_0 (after_reading (after_reading w))).
      rewrite !reading_after_S. apply Hnear.
Qed.

End MonitorFacts.

(** C2, the statement of the specification fails.  The cooldown runs from the last
    dispatched attempt, not from the previous request: after an attempt at
    1000 and a skipped request at 1050, the request at 1100 (50 seconds
    after the one before it) is dispatched and gets an outcome.  And a
    request skipped for cooldown still moves the orchestrator's statistics:
    thirty seconds after a first attempt the second request leaves the
    history at one entry but is counted as attempted and sets
    [last_fix_time]. *)
Lemma request_within_a_minute_of_a_request :
  (let e := app_not_running_error in
   let '(r0, f0, w0) := apply_fix e new_fixer (Sim.world_at 1000) in
   let '(r1, f1, w1) := apply_fix e f0 (Sim.advance 1050 w0) in
   let '(r2, f2, w2) := apply_fix e f1 (Sim.advance 1100 w1) in
   r1 = Ok None
   /\ match r2 with Ok (Some a) => FixAction.timestamp a = 1100%Q | _ => False end
   /\ length (fix_history f2) = 2%nat)
  /\ (let e := app_not_running_error in
      let '(r1, m1, w1) := _attempt_auto_fix e (new_monitor default_config 900)
                             (Sim.world_at 1000) in
      let '(r2, m2, w2) := _attempt_auto_fix e m1 (Sim.advance 1030 w1) in
      length (fix_history (auto_fixer m2)) = 1%nat
      /\ total_fixes_attempted (stats m1) = 1
      /\ total_fixes_attempted (stats m2) = 2
      /\ last_fix_time (stats m1) = Some 1000%Q
      /\ last_fix_time (stats m2) = Some 1030%Q).
Proof. vm_compute. repeat split. Qed.

(** ** C6: the lifecycle status *)

Section LifecycleFacts.
Context {H : Type} `{Host H}.

Lemma stop_run (m : AppMonitor H) (w : World H) :
  stop m w =
    (Ok tt,
     set_tasks (cancel <$> logcat_task m) (cancel <$> health_check_task m)
       (cancel <$> maintenance_task m)
       (set_stats (set_current_status "stopping" (stats m)) (set_is_running false m)),
     logged INFO "Stopping monitor..." w).
Proof. reflexivity. Qed.

(** C6 as the code has it.  [stop] never raises and assigns the status
    [stopping] whatever the status was, [stopped] included; invoked twice
    in succession it leaves the status [stopping] and the daemon marked as
    not running. *)
Theorem stop_leaves_stopping :
  (forall (m : AppMonitor H) (w : World H),
     exists m' w',
       stop m w = (Ok tt, m', w')
       /\ current_status (stats m') = "stopping" /\ is_running m' = false)
  /\ (forall (m : AppMonitor H) (w : World H),
        exists m' w',
          (stop ;;; stop) m w = (Ok tt, m', w')
          /\ current_status (stats m') = "stopping" /\ is_running m' = false).
Proof.
  split; intros m w; do 2 eexists.
  - rewrite stop_run. repeat split.
  - unfold bind. rewrite !stop_run. repeat split.
Qed.

(** [_cleanup] shuts the executor down before it submits the disconnect to
    it, so the submission raises and the assignment of [stopped] is never
    reached: the status is left as it was. *)
Lemma cleanup_keeps_status (m : AppMonitor H) (w : World H) :
  exists m' w',
    _cleanup m w = (Ok tt, m', w')
    /\ current_status (stats m') = current_status (stats m)
    /\ executor_shutdown m' = true.
Proof.
  unfold _cleanup, _generate_report, run_in_executor, bind, try_except, modify,
    get, log_msg.
  rewrite !time_time_run.
  destruct (fix_history (auto_fixer (set_executor_shutdown true m))) eqn:E;
    cbn -[logged]; rewrite ?time_time_run; cbn -[logged];
    do 2 eexists; repeat split.
Qed.

End LifecycleFacts.

(** C6, the statement of the specification fails: two stops in succession leave the status
    [stopping], not [stopped]; and a stop issued on a monitor whose status is
    [stopped] moves it back to [stopping]. *)
Lemma stop_twice_not_stopped :
  (let '(r, m', w') := (stop ;;; stop) (new_monitor default_config 0) (Sim.world_at 1) in
   r = Ok tt /\ current_status (stats m') <> "stopped")
  /\ (let m := new_monitor (H := Sim.t) default_config 0 in
      let halted := set_stats (set_current_status "stopped" (stats m)) m in
      let '(r, m', w') := stop halted (Sim.world_at 1) in
      current_status (stats halted) = "stopped"
      /\ r = Ok tt /\ current_status (stats m') = "stopping").
Proof. vm_compute. repeat split. discriminate. Qed.

(** * The theorems at concrete inputs *)

Lemma analyze_logcat_line_prefilter_witness :
  analyze_logcat_line launcher_line (new_detector default_ui_config) (Sim.world_at 99)
  = (Ok [], new_detector default_ui_config, Sim.world_at 99).
Proof.
  apply analyze_logcat_line_prefilter.
  - apply not_substring. vm_compute. reflexivity.
  - intros keyword Hin. apply not_substring.
    cbn in Hin. destruct Hin as [<-|[<-|[<-|[<-|[<-|[]]]]]]; vm_compute; reflexivity.
Defined.

Lemma detect_app_state_priority_witness :
  _detect_app_state settings_over_browser = "settings".
Proof.
  apply (proj2 (proj2 (proj2 (proj2 (proj2 (proj2
           (detect_app_state_priority settings_over_browser))))))).
  - left. apply contains_spec. vm_compute. reflexivity.
  - split.
    + apply contains_spec. vm_compute. reflexivity.
    + apply not_substring. vm_compute. reflexivity.
Defined.

Lemma analyze_ui_dump_empty_witness :
  analyze_ui_dump "" (new_detector legacy_ui_config) (Sim.world_at 0)
  = (Ok [], new_detector legacy_ui_config, Sim.world_at 0)
  /\ ~ Substring "webView" "".
Proof.
  destruct (@analyze_ui_dump_empty Sim.t _ (new_detector legacy_ui_config) (Sim.world_at 0))
    as (Hrun & _ & Hmissing).
  split; [exact Hrun|]. apply Hmissing. discriminate.
Defined.

Lemma escalation_policy_witness :
  let d := new_detector default_ui_config in
  (let e1 := network_error_at 1000 in
   let e2 := network_error_at 1100 in
   let e3 := network_error_at 1200 in
   decision e2 (recorded (recorded d e1) e2) (Sim.world_at 1100) = Ok false
   /\ decision e3 (recorded (recorded (recorded d e1) e2) e3) (Sim.world_at 1200) = Ok true)
  /\ (let e1 := network_error_at 500 in
      let e2 := network_error_at 1100 in
      let e3 := network_error_at 1200 in
      decision e3 (recorded (recorded (recorded d e1) e2) e3) (Sim.world_at 1200)
      = Ok false).
Proof.
  intros d. split.
  - intros e1 e2 e3.
    destruct (proj1 (proj2 (proj2 (proj2 (@escalation_policy Sim.t _))))
                d e1 e2 e3 (Sim.world_at 1100) (Sim.world_at 1200)
                eq_refl eq_refl eq_refl eq_refl eq_refl)
      as (Hsecond & Hthird & _).
    + vm_compute. discriminate.
    + intros e [].
    + split; [exact Hsecond|]. apply Hthird; vm_compute; discriminate.
  - intros e1 e2 e3.
    destruct (proj1 (proj2 (proj2 (proj2 (@escalation_policy Sim.t _))))
                d e1 e2 e3 (Sim.world_at 1100) (Sim.world_at 1200)
                eq_refl eq_refl eq_refl eq_refl eq_refl)
      as (_ & _ & Holder).
    + vm_compute. discriminate.
    + intros e [].
    + apply Holder. left. vm_compute. reflexivity.
Defined.

Example two_attempts_recorded :
  map FixAction.timestamp (fix_history (auto_fixer (fst after_two_attempts)))
  = [1000%Q; 1100%Q].
Proof. vm_compute. reflexivity. Qed.

Lemma rate_limit_blocks_remediation_witness :
  let m := fst after_two_attempts in
  let w := Sim.advance 1200 (snd after_two_attempts) in
  _attempt_auto_fix app_not_running_error m w
  = (Ok tt, m, logged INFO "Fix rate limit reached, skipping auto-fix" (after_reading w)).
Proof.
  intros m w. apply (proj1 (@rate_limit_blocks_remediation Sim.t _)).
  vm_compute. discriminate.
Defined.


(** A full history of 1000 entries stays at 1000 when one more error is
    appended, and the new error is its last entry. *)
Example error_history_stays_full :
  let full := set_error_history (replicate 1000 anr_error) (new_detector default_ui_config) in
  let d' := snd (fst (add_detected_error (network_error_at 1000) full (Sim.world_at 1000))) in
  length (error_history d') = 1000%nat
  /\ last (error_history d') = Some (network_error_at 1000).
Proof. vm_compute. split; reflexivity. Qed.

Lemma cooldown_skips_request_witness :
  let m := fst after_first_attempt_ticking in
  let w := Sim.advance 1030 (snd after_first_attempt_ticking) in
  last_fix_times (auto_fixer m) !! "app_not_running" = Some 1003%Q
  /\ exists m' w',
       _attempt_auto_fix (H0 := Sim.ticking_host) app_not_running_error m w = (Ok tt, m', w')
       /\ auto_fixer m' = auto_fixer m
       /\ successful_fixes (stats m') = successful_fixes (stats m)
       /\ failed_fixes (stats m') = failed_fixes (stats m)
       /\ total_fixes_attempted (stats m') = total_fixes_attempted (stats m) + 1
       /\ last_fix_time (stats m') = Some 1031%Q.
Proof.
  intros m w. split; [vm_compute; reflexivity|].
  destruct (proj2 (proj2 (@cooldown_skips_request Sim.t Sim.ticking_host))
              m w app_not_running_error 1003%Q)
    as (m' & w' & Hrun & _ & Hfixer & _ & Hok & Hfailed & Htotal & Hlast).
  - vm_compute. reflexivity.
  - vm_compute. reflexivity.
  - vm_compute. reflexivity.
  - vm_compute. reflexivity.
  - exists m', w'. repeat split; assumption.
Defined.

(** * Further properties *)

(** ** The reports *)

Lemma bump_sum (k : string) (d : list (string * Z)) :
  counts_sum (bump k d) = counts_sum d + 1.
Proof.
  unfold counts_sum. induction d as [|[k' n] d IH]; cbn; [lia|].
  destruct (String.eqb k k'); cbn; lia.
Qed.

Lemma bump_keys_present (k : string) (d : list (string * Z)) :
  In k (map fst d) -> map fst (bump k d) = map fst d.
Proof.
  induction d as [|[k' n] d IH]; cbn; [contradiction|].
  intros [->|Hin].
  - rewrite String.eqb_refl. reflexivity.
  - destruct (String.eqb k k'); cbn; [reflexivity|]. rewrite IH by exact Hin. reflexivity.
Qed.

Lemma bump_keys (k : string) (d : list (string * Z)) :
  map fst (bump k d) = if existsb (String.eqb k) (map fst d)
                       then map fst d else (map fst d ++ [k])%list.
Proof.
  induction d as [|[k' n] d IH]; cbn; [reflexivity|].
  destruct (String.eqb k k'); cbn; [reflexivity|].
  rewrite IH. destruct (existsb _ _); reflexivity.
Qed.

Lemma bump_positive (k : string) (d : list (string * Z)) :
  Forall (fun kv => 1 <= snd kv) d -> Forall (fun kv => 1 <= snd kv) (bump k d).
Proof.
  induction d as [|[k' n] d IH]; cbn; intros Hd.
  - constructor; [cbn; lia | constructor].
  - inversion Hd as [|? ? Hn Hd']; subst. cbn in Hn.
    destruct (String.eqb k k'); constructor; cbn; try lia; auto.
Qed.

Lemma bump_NoDup (k : string) (d : list (string * Z)) :
  NoDup (map fst d) -> NoDup (map fst (bump k d)).
Proof.
  intros Hd. rewrite bump_keys.
  destruct (existsb (String.eqb k) (map fst d)) eqn:E; [exact Hd|].
  apply NoDup_app. split; [exact Hd|]. split.
  - intros x Hx Hk. apply list_elem_of_In in Hx.
    apply list_elem_of_In in Hk. cbn in Hk. destruct Hk as [<-|[]].
    assert (existsb (String.eqb k) (map fst d) = true)
      by (apply existsb_exists; exists k; split; [exact Hx | apply String.eqb_refl]).
    congruence.
  - apply NoDup_singleton.
Qed.

Lemma count_errors_spec (recent : list DetectedError) (types sevs : list (string * Z)) :
  (forall s, In (severity_value s) (map fst sevs)) ->
  Forall (fun kv => 1 <= snd kv) types ->
  NoDup (map fst types) ->
  let '(types', sevs') := count_errors recent types sevs in
  counts_sum types' = counts_sum types + Z.of_nat (length recent)
  /\ counts_sum sevs' = counts_sum sevs + Z.of_nat (length recent)
  /\ map fst sevs' = map fst sevs
  /\ Forall (fun kv => 1 <= snd kv) types'
  /\ NoDup (map fst types').
Proof.
  revert types sevs. induction recent as [|e recent IH]; intros types sevs Hall Hpos Hnd.
  - cbn. repeat split; try lia; assumption.
  - cbn [count_errors].
    specialize (IH (bump (error_type e) types) (bump (severity_value (severity e)) sevs)).
    destruct (count_errors recent _ _) as [types' sevs'].
    destruct IH as (Ht & Hs & Hk & Hp & Hn).
    + intros s. rewrite bump_keys_present by apply Hall. apply Hall.
    + apply bump_positive, Hpos.
    + apply bump_NoDup, Hnd.
    + rewrite Ht, Hs, Hk, !bump_sum, bump_keys_present by apply Hall.
      cbn [length]. repeat split; try lia; assumption.
Qed.

Section SummaryFacts.
Context {H : Type} `{Host H}.

(** X1.  The error summary is consistent: it never raises and leaves the
    detector alone; the counts by severity always list the four severities
    low, medium, high, critical in that order and add up to the number of
    recent errors, as do the counts by kind, where every kind is listed once
    with a count of at least one; and the recent errors are at most the
    total. *)
Theorem error_summary_consistent (d : ErrorDetector) (w : World H) :
  exists s,
    get_error_summary d w = (Ok s, d, after_reading w)
    /\ total_errors s = Z.of_nat (length (error_history d))
    /\ 0 <= recent_errors s <= total_errors s
    /\ map fst (severity_counts s) = ["low"; "medium"; "high"; "critical"]
    /\ counts_sum (severity_counts s) = recent_errors s
    /\ counts_sum (error_types s) = recent_errors s
    /\ Forall (fun kv => 1 <= snd kv) (error_types s)
    /\ NoDup (map fst (error_types s)).
Proof.
  unfold get_error_summary, get_recent_errors, bind, get, ret.
  rewrite time_time_run.
  set (recent := recent_since _ _).
  pose proof (count_errors_spec recent [] zero_severity_counts) as Hspec.
  destruct (count_errors recent [] zero_severity_counts) as [types sevs].
  destruct Hspec as (Ht & Hs & Hk & Hp & Hn).
  - intros []; cbn; auto.
  - constructor.
  - constructor.
  - eexists. split; [reflexivity|]. cbn.
    assert (Hlen : (length recent <= length (error_history d))%nat)
      by apply List.filter_length_le.
    repeat split; try lia; try assumption.
Qed.

End SummaryFacts.

Lemma count_fix_totals (name : string) (success : bool) (d : list (string * (Z * Z))) :
  totals_sum (count_fix name success d) = totals_sum d + 1.
Proof.
  unfold totals_sum. induction d as [|[k [t s]] d IH]; cbn; [lia|].
  destruct (String.eqb name k); cbn in *; lia.
Qed.

Lemma count_fix_successes (name : string) (success : bool) (d : list (string * (Z * Z))) :
  successes_sum (count_fix name success d)
  = successes_sum d + (if success then 1 else 0).
Proof.
  unfold successes_sum. induction d as [|[k [t s]] d IH]; cbn; [destruct success; lia|].
  destruct (String.eqb name k); cbn in *; destruct success; lia.
Qed.

Lemma count_fix_sound (name : string) (success : bool) (d : list (string * (Z * Z))) :
  Forall sound_entry d -> Forall sound_entry (count_fix name success d).
Proof.
  unfold sound_entry. induction d as [|[k [t s]] d IH]; cbn; intros Hd.
  - constructor; [destruct success; cbn; lia | constructor].
  - inversion Hd as [|? ? Hn Hd']; subst. cbn in Hn.
    destruct (String.eqb name k); constructor; cbn; auto; destruct success; lia.
Qed.

Lemma count_fix_keys (name : string) (success : bool) (d : list (string * (Z * Z))) :
  map fst (count_fix name success d)
  = if existsb (String.eqb name) (map fst d) then map fst d else (map fst d ++ [name])%list.
Proof.
  induction d as [|[k [t s]] d IH]; cbn; [reflexivity|].
  destruct (String.eqb name k); cbn; [reflexivity|].
  rewrite IH. destruct (existsb _ _); reflexivity.
Qed.

Lemma NoDup_snoc_fresh (k : string) (keys : list string) :
  existsb (String.eqb k) keys = false -> NoDup keys -> NoDup (keys ++ [k]).
Proof.
  intros E Hd. apply NoDup_app. split; [exact Hd|]. split.
  - intros x Hx Hk. apply list_elem_of_In in Hx.
    apply list_elem_of_In in Hk. cbn in Hk. destruct Hk as [<-|[]].
    assert (existsb (String.eqb k) keys = true)
      by (apply existsb_exists; exists k; split; [exact Hx | apply String.eqb_refl]).
    congruence.
  - apply NoDup_singleton.
Qed.

Lemma count_fix_NoDup (name : string) (success : bool) (d : list (string * (Z * Z))) :
  NoDup (map fst d) -> NoDup (map fst (count_fix name success d)).
Proof.
  intros Hd. rewrite count_fix_keys.
  destruct (existsb _ _) eqn:E; [exact Hd | apply NoDup_snoc_fresh; assumption].
Qed.

Lemma count_fixes_spec (history : list FixAction.t) (d : list (string * (Z * Z))) :
  Forall sound_entry d -> NoDup (map fst d) ->
  totals_sum (count_fixes history d) = totals_sum d + Z.of_nat (length history)
  /\ successes_sum (count_fixes history d) = successes_sum d + successes history
  /\ Forall sound_entry (count_fixes history d)
  /\ NoDup (map fst (count_fixes history d)).
Proof.
  revert d. induction history as [|a history IH]; intros d Hs Hn.
  - unfold successes. cbn [count_fixes List.filter length].
    repeat split; try lia; assumption.
  - cbn [count_fixes].
    destruct (IH (count_fix (FixAction.action_name a)
                    (result_eqb (FixAction.result a) SUCCESS) d))
      as (Ht & Hsu & Hso & Hnd).
    + apply count_fix_sound, Hs.
    + apply count_fix_NoDup, Hn.
    + rewrite Ht, Hsu, count_fix_totals, count_fix_successes.
      unfold successes. cbn [List.filter length].
      destruct (result_eqb (FixAction.result a) SUCCESS); cbn [length];
        repeat split; try lia; assumption.
Qed.

Lemma percentage_bounds (a b : Z) :
  0 <= a <= b -> 0 < b ->
  (0 <= inject_Z a / inject_Z b * 100)%Q /\ (inject_Z a / inject_Z b * 100 <= 100)%Q.
Proof.
  intros Ha Hb.
  assert (Hb' : (0 < inject_Z b)%Q) by (unfold Qlt; cbn; lia).
  assert (Ha0 : (0 <= inject_Z a)%Q) by (unfold Qle; cbn; lia).
  assert (Hab : (inject_Z a <= inject_Z b)%Q) by (unfold Qle; cbn; lia).
  assert (H0 : (0 <= inject_Z a / inject_Z b)%Q).
  { apply Qle_shift_div_l; [exact Hb'|]. rewrite Qmult_0_l. exact Ha0. }
  assert (H1 : (inject_Z a / inject_Z b <= 1)%Q).
  { apply Qle_shift_div_r; [exact Hb'|]. rewrite Qmult_1_l. exact Hab. }
  split; lra.
Qed.

Section StatisticsFacts.
Context {H : Type} `{Host H}.

(** X2.  The fix statistics never raise and leave the fixer alone.  For an
    empty history they are [{"total_fixes": 0}] and no clock is read, so the
    success rate never divides by zero.  Otherwise the total is the length of
    the history, the success rate is the share of successful outcomes in
    percent and lies between 0 and 100, the fixes of the last hour are at
    most the total, and the breakdown by action lists every action once,
    with at least one attempt and no more successes than attempts, its
    totals adding up to the total and its successes to the number of
    successful outcomes. *)
Theorem fix_statistics_consistent (f : AutoFixer H) (w : World H) :
  match fix_history f with
  | [] => get_fix_statistics f w = (Ok NoFixes, f, w)
  | _ :: _ =>
      exists s,
        get_fix_statistics f w = (Ok (Stats s), f, after_reading w)
        /\ total_fixes s = Z.of_nat (length (fix_history f))
        /\ success_rate s
           = (inject_Z (successes (fix_history f)) / inject_Z (total_fixes s) * 100)%Q
        /\ (0 <= success_rate s)%Q /\ (success_rate s <= 100)%Q
        /\ 0 <= recent_fixes s <= total_fixes s
        /\ totals_sum (fix_types s) = total_fixes s
        /\ successes_sum (fix_types s) = successes (fix_history f)
        /\ Forall sound_entry (fix_types s)
        /\ NoDup (map fst (fix_types s))
  end.
Proof.
  unfold get_fix_statistics, bind, get, ret.
  destruct (fix_history f) as [|a history] eqn:Eh; [reflexivity|].
  rewrite <- Eh.
  assert (Hlen : 0 < Z.of_nat (length (fix_history f))) by (rewrite Eh; cbn; lia).
  assert (Hsucc : 0 <= successes (fix_history f) <= Z.of_nat (length (fix_history f))).
  { unfold successes. pose proof (List.filter_length_le
      (fun f0 => result_eqb (FixAction.result f0) SUCCESS) (fix_history f)). lia. }
  unfold truediv.
  replace (Z.of_nat (length (fix_history f)) =? 0) with false
    by (symmetry; apply Z.eqb_neq; lia).
  rewrite time_time_run.
  destruct (count_fixes_spec (fix_history f) []) as (Ht & Hs & Hso & Hnd);
    [constructor | constructor |].
  destruct (percentage_bounds _ _ Hsucc Hlen) as [Hr0 Hr1].
  eexists. split; [reflexivity|]. cbn.
  pose proof (List.filter_length_le
    (fun f0 => Qle_bool (reading w - 3600) (FixAction.timestamp f0)) (fix_history f)).
  repeat split; try assumption; try lia.
Qed.

End StatisticsFacts.

(** ** The handling path: counters and buffer *)

Lemma same_frame_refl {H} (m : AppMonitor H) : same_frame m m.
Proof. unfold same_frame. repeat split. Qed.

Lemma same_frame_trans {H} (m1 m2 m3 : AppMonitor H) :
  same_frame m1 m2 -> same_frame m2 m3 -> same_frame m1 m3.
Proof. unfold same_frame. intuition congruence. Qed.

Section HandlingFacts.
Context {H : Type} `{Host H}.

(** One remediation request: it never raises, touches only the fixer and
    the fix counters, and keeps the counters consistent. *)
Lemma attempt_auto_fix_effect (error : DetectedError) (m : AppMonitor H) (w : World H) :
  exists m' w',
    _attempt_auto_fix error m w = (Ok tt, m', w')
    /\ same_frame m m'
    /\ error_detector m' = error_detector m
    /\ total_errors_detected (stats m') = total_errors_detected (stats m)
    /\ last_error_time (stats m') = last_error_time (stats m)
    /\ (counters_ok (stats m) -> counters_ok (stats m')).
Proof.
  unfold _attempt_auto_fix, bind. rewrite can_attempt_fix_monitor_run.
  destruct (_ <? _); cbn [negb].
  2:{ do 2 eexists. split; [reflexivity|].
      split; [apply same_frame_refl|]. repeat (split; [reflexivity|]). auto. }
  rewrite time_time_run.
  unfold modify, try_except, run_in_executor, bind, get, on_fixer, zoom.
  cbn [executor_shutdown set_stats auto_fixer].
  destruct (executor_shutdown m) eqn:Hex.
  - unfold raise, log_msg. do 2 eexists. split; [reflexivity|].
    unfold same_frame, counters_ok. cbn. rewrite Hex. repeat split; lia.
  - match goal with |- context [apply_fix error ?f ?w0] =>
      destruct (apply_fix_outcome error f w0) as (r & f' & w' & Hrun & _); rewrite Hrun
    end.
    destruct r as [a|].
    + destruct (result_eqb (FixAction.result a) SUCCESS);
        unfold log_msg; do 2 eexists; (split; [reflexivity|]);
        unfold same_frame, counters_ok; cbn; rewrite Hex; repeat split; lia.
    + unfold ret. do 2 eexists. split; [reflexivity|].
      unfold same_frame, counters_ok. cbn. rewrite Hex. repeat split; lia.
Qed.

(** One handled error: it never raises, is counted once and recorded, and
    the fix counters stay consistent. *)
Lemma handle_detected_error_effect (error : DetectedError) (m : AppMonitor H)
    (w : World H) :
  exists m' w',
    _handle_detected_error error m w = (Ok tt, m', w')
    /\ same_frame m m'
    /\ error_detector m' = recorded (error_detector m) error
    /\ total_errors_detected (stats m') = total_errors_detected (stats m) + 1
    /\ last_error_time (stats m') = Some (timestamp error)
    /\ (counters_ok (stats m) -> counters_ok (stats m')).
Proof.
  rewrite handle_detected_error_run.
  assert (Hbase : same_frame m (handled m error)
                  /\ error_detector (handled m error) = recorded (error_detector m) error
                  /\ total_errors_detected (stats (handled m error))
                     = total_errors_detected (stats m) + 1
                  /\ last_error_time (stats (handled m error)) = Some (timestamp error)
                  /\ (counters_ok (stats m) -> counters_ok (stats (handled m error)))).
  { unfold same_frame, counters_ok. cbn. repeat split; lia. }
  destruct (enable_auto_fix (config m)).
  2:{ do 2 eexists. split; [reflexivity | exact Hbase]. }
  rewrite should_trigger_autofix_run.
  assert (Hesc : forall w0,
    exists m' w',
      _attempt_auto_fix error (handled m error) w0 = (Ok tt, m', w')
      /\ same_frame m m'
      /\ error_detector m' = recorded (error_detector m) error
      /\ total_errors_detected (stats m') = total_errors_detected (stats m) + 1
      /\ last_error_time (stats m') = Some (timestamp error)
      /\ (counters_ok (stats m) -> counters_ok (stats m'))).
  { intros w0. destruct Hbase as (Hf & Hd & Ht & Hl & Hc).
    destruct (attempt_auto_fix_effect error (handled m error) w0)
      as (m' & w' & Hrun & Hf' & Hd' & Ht' & Hl' & Hc').
    exists m', w'. split; [exact Hrun|].
    split; [exact (same_frame_trans _ _ _ Hf Hf')|].
    split; [congruence|]. split; [congruence|]. split; [congruence|]. auto. }
  destruct (severity error); try apply Hesc;
    try (do 2 eexists; split; [reflexivity | exact Hbase]).
  match goal with |- context [(3 <=? ?n)%nat] => destruct (3 <=? n)%nat end;
    [apply Hesc | do 2 eexists; split; [reflexivity | exact Hbase]].
Qed.

(** The history after a list of errors has been recorded one by one. *)
Lemma handle_all_effect (errors : list DetectedError) (m : AppMonitor H) (w : World H) :
  exists m' w',
    handle_all errors m w = (Ok tt, m', w')
    /\ same_frame m m'
    /\ error_detector m' = fold_left recorded errors (error_detector m)
    /\ total_errors_detected (stats m')
       = total_errors_detected (stats m) + Z.of_nat (length errors)
    /\ (counters_ok (stats m) -> counters_ok (stats m')).
Proof.
  revert m w. induction errors as [|e errors IH]; intros m w.
  - do 2 eexists. split; [reflexivity|]. cbn.
    split; [apply same_frame_refl|]. split; [reflexivity|]. split; [lia|auto].
  - cbn [handle_all]. unfold bind.
    destruct (handle_detected_error_effect e m w)
      as (m1 & w1 & Hrun1 & Hf1 & Hd1 & Ht1 & _ & Hc1).
    rewrite Hrun1.
    destruct (IH m1 w1) as (m' & w' & Hrun & Hf & Hd & Ht & Hc).
    exists m', w'. split; [exact Hrun|].
    split; [exact (same_frame_trans _ _ _ Hf1 Hf)|].
    split; [rewrite Hd, Hd1; reflexivity|].
    split; [rewrite Ht, Ht1; cbn [length]; lia | auto].
Qed.

End HandlingFacts.

(** ** The classifier of log lines *)

Section LogcatFacts.
Context {H : Type} `{Host H}.

(** The rule loop: it leaves the detector alone and reports, after the
    errors it was given, one error for each rule of a sub-sequence of the
    rules, in the order of the rules. *)
Lemma scan_patterns_spec (ps : list ErrorPattern.t) (line : string)
    (acc : list DetectedError) (d : ErrorDetector) (w : World H) :
  exists r w',
    scan_patterns ps line acc d w = (r, d, w')
    /\ match r with
       | Ok errors =>
           exists rules new,
             errors = (acc ++ new)%list
             /\ sublist rules ps
             /\ Forall2 from_rule rules new
       | Raise _ => True
       end.
Proof.
  revert acc w. induction ps as [|p ps IH]; intros acc w.
  - exists (Ok acc), w. split; [reflexivity|].
    exists [], []. rewrite app_nil_r. repeat split; constructor.
  - cbn [scan_patterns].
    destruct (ErrorPattern.match_ p line) as [[[|kv match_details]|]|e].
    + destruct (IH acc w) as (r & w' & Hrun & Hr). exists r, w'.
      split; [exact Hrun|]. destruct r; [|exact I].
      destruct Hr as (rules & new & -> & Hsub & Hall).
      exists rules, new. repeat split; [constructor; exact Hsub | exact Hall].
    + unfold bind. rewrite time_time_run.
      destruct (IH (append acc (mk_logcat_error p (kv :: match_details) (reading w)))
                  (after_reading w)) as (r & w' & Hrun & Hr).
      exists r, w'. split; [exact Hrun|]. destruct r; [|exact I].
      destruct Hr as (rules & new & -> & Hsub & Hall).
      exists (p :: rules), (mk_logcat_error p (kv :: match_details) (reading w) :: new).
      unfold append. rewrite <- app_assoc. repeat split.
      * constructor; exact Hsub.
      * constructor; [repeat split | exact Hall].
    + destruct (IH acc w) as (r & w' & Hrun & Hr). exists r, w'.
      split; [exact Hrun|]. destruct r; [|exact I].
      destruct Hr as (rules & new & -> & Hsub & Hall).
      exists rules, new. repeat split; [constructor; exact Hsub | exact Hall].
    + exists (Raise e), w. split; [reflexivity | exact I].
Qed.

Lemma analyze_logcat_line_spec (line : string) (d : ErrorDetector) (w : World H) :
  exists r w',
    analyze_logcat_line line d w = (r, d, w')
    /\ match r with
       | Ok errors =>
           exists rules, sublist rules (error_patterns d) /\ Forall2 from_rule rules errors
       | Raise _ => True
       end.
Proof.
  unfold analyze_logcat_line, bind, get.
  destruct (relevant (app_package d) line).
  - destruct (scan_patterns_spec (error_patterns d) line [] d w) as (r & w' & Hrun & Hr).
    exists r, w'. split; [exact Hrun|]. destruct r; [|exact I].
    destruct Hr as (rules & new & -> & Hsub & Hall). exists rules. split; assumption.
  - exists (Ok []), w. split; [reflexivity|]. exists []. split.
    + apply sublist_nil_l.
    + constructor.
Qed.

End LogcatFacts.

(** ** One log line through the monitor *)

Section ProcessLineFacts.
Context {H : Type} `{Host H}.

Lemma buffer_after_bound (m : AppMonitor H) (now : Q) (line : string) :
  0 < max_buffer_size m ->
  Z.of_nat (length (buffer_after m now line)) <= max_buffer_size m.
Proof.
  intros Hcap. unfold buffer_after. cbn zeta.
  destruct (_ <? _) eqn:E.
  - apply py_last_length, Hcap.
  - apply Z.ltb_ge in E. exact E.
Qed.

Lemma buffer_after_suffix (m : AppMonitor H) (now : Q) (line : string) :
  exists dropped,
    (logcat_buffer m ++ [(now, line)] = dropped ++ buffer_after m now line)%list.
Proof.
  unfold buffer_after, append. cbn zeta. destruct (_ <? _).
  - apply py_last_suffix.
  - exists []. reflexivity.
Qed.

Lemma buffer_after_last (m : AppMonitor H) (now : Q) (line : string) :
  0 < max_buffer_size m ->
  last (buffer_after m now line) = Some (now, line).
Proof.
  intros Hcap. unfold buffer_after, append. cbn zeta. destruct (_ <? _).
  - unfold py_last. replace (0 <? max_buffer_size m) with true
      by (symmetry; apply Z.ltb_lt; exact Hcap).
    rewrite length_app. cbn [length].
    replace (length (logcat_buffer m) + 1 - Z.to_nat (max_buffer_size m))%nat
      with (length (logcat_buffer m) - (Z.to_nat (max_buffer_size m) - 1))%nat by lia.
    rewrite drop_app_le by lia. apply last_snoc.
  - apply last_snoc.
Qed.

(** What [_process_logcat_line] does, step by step: the line is buffered,
    the classifier is run on it, and the errors it reports are handled one
    by one; a failure of the classifier is logged. *)
Lemma process_logcat_line_run (line : string) (m : AppMonitor H) (w : World H) :
  let m1 := set_logcat_buffer (buffer_after m (reading w) line) m in
  _process_logcat_line line m w =
    match analyze_logcat_line line (error_detector m) (after_reading w) with
    | (Ok errors, _, w1) => handle_all errors m1 w1
    | (Raise e, _, w1) => (Ok tt, m1, logged ERROR ("Error analysis failed: " ++ e) w1)
    end.
Proof.
  cbn zeta. unfold _process_logcat_line, bind. rewrite time_time_run.
  unfold modify, get, buffer_after. cbn zeta.
  cbn [logcat_buffer set_logcat_buffer max_buffer_size].
  destruct (analyze_logcat_line_spec line (error_detector m) (after_reading w))
    as (r & w1 & Hrun & _).
  destruct (max_buffer_size m <? Z.of_nat (length (append (logcat_buffer m) (reading w, line))));
    unfold try_except, bind, on_detector, zoom, ret;
    cbn [error_detector set_logcat_buffer]; rewrite Hrun; destruct r as [errors|e].
  all: try reflexivity.
  all: cbn [set_error_detector set_logcat_buffer config error_detector auto_fixer
            is_running stats logcat_task health_check_task maintenance_task
            logcat_buffer max_buffer_size executor_shutdown].
  all: match goal with |- context [handle_all ?E ?M ?W] =>
         destruct (handle_all_effect E M W) as (m' & w' & Hh & _)
       end.
  all: rewrite Hh; symmetry; exact Hh.
Qed.

(** X3.  [_process_logcat_line] never raises, whatever the line, the state
    of the monitor and the answers of the host.  Every error the classifier
    reports for the line is counted once in [total_errors_detected] and
    recorded in the classifier history, in the order reported; when the
    classifier raises, nothing is counted or recorded.  The fix counters
    stay consistent (no counter negative, successes plus failures at most
    the attempts), and the configuration, the lifecycle fields, the tasks
    and the executor are left as they were. *)
Theorem process_logcat_line_counts (line : string) (m : AppMonitor H) (w : World H) :
  let found :=
    findings (fst (fst (analyze_logcat_line line (error_detector m) (after_reading w)))) in
  exists m' w',
    _process_logcat_line line m w = (Ok tt, m', w')
    /\ total_errors_detected (stats m')
       = total_errors_detected (stats m) + Z.of_nat (length found)
    /\ error_detector m' = fold_left recorded found (error_detector m)
    /\ (counters_ok (stats m) -> counters_ok (stats m'))
    /\ config m' = config m
    /\ is_running m' = is_running m
    /\ current_status (stats m') = current_status (stats m)
    /\ logcat_task m' = logcat_task m
    /\ health_check_task m' = health_check_task m
    /\ maintenance_task m' = maintenance_task m
    /\ executor_shutdown m' = executor_shutdown m.
Proof.
  cbn zeta. rewrite process_logcat_line_run. cbn zeta.
  destruct (analyze_logcat_line line (error_detector m) (after_reading w))
    as [[[errors|e] d1] w1]; cbn [fst findings].
  - destruct (handle_all_effect errors
                (set_logcat_buffer (buffer_after m (reading w) line) m) w1)
      as (m' & w' & Hrun & Hf & Hd & Ht & Hc).
    exists m', w'. split; [exact Hrun|].
    unfold same_frame in Hf. cbn in Hf, Hd, Ht, Hc.
    destruct Hf as (? & ? & ? & ? & ? & ? & ? & ? & ? & ?).
    split; [exact Ht|]. split; [exact Hd|]. split; [exact Hc|].
    repeat split; assumption.
  - do 2 eexists. split; [reflexivity|]. cbn.
    split; [lia|]. split; [reflexivity|]. split; [auto|]. repeat split.
Qed.

(** X4.  With a positive buffer size, the log buffer holds at most
    [max_buffer_size] entries after [_process_logcat_line], however long it
    was before; the entry of the line just read, stamped with the clock
    reading, is its last one, and only oldest entries are dropped. *)
Theorem process_logcat_line_buffer (line : string) (m : AppMonitor H) (w : World H) :
  0 < max_buffer_size m ->
  let m' := snd (fst (_process_logcat_line line m w)) in
  Z.of_nat (length (logcat_buffer m')) <= max_buffer_size m
  /\ last (logcat_buffer m') = Some (reading w, line)
  /\ max_buffer_size m' = max_buffer_size m
  /\ exists dropped,
       (logcat_buffer m ++ [(reading w, line)] = dropped ++ logcat_buffer m')%list.
Proof.
  intros Hcap. cbn zeta. rewrite process_logcat_line_run. cbn zeta.
  assert (Hb : forall m0 : AppMonitor H,
             logcat_buffer m0 = buffer_after m (reading w) line ->
             max_buffer_size m0 = max_buffer_size m ->
             Z.of_nat (length (logcat_buffer m0)) <= max_buffer_size m
             /\ last (logcat_buffer m0) = Some (reading w, line)
             /\ max_buffer_size m0 = max_buffer_size m
             /\ exists dropped,
                  (logcat_buffer m ++ [(reading w, line)]
                   = dropped ++ logcat_buffer m0)%list).
  { intros m0 -> Hm. split; [apply buffer_after_bound, Hcap|].
    split; [apply buffer_after_last, Hcap|]. split; [exact Hm|].
    apply buffer_after_suffix. }
  destruct (analyze_logcat_line line (error_detector m) (after_reading w))
    as [[[errors|e] d1] w1].
  - destruct (handle_all_effect errors
                (set_logcat_buffer (buffer_after m (reading w) line) m) w1)
      as (m' & w' & Hrun & Hf & _).
    rewrite Hrun. cbn [fst snd]. unfold same_frame in Hf.
    destruct Hf as (_ & _ & _ & _ & _ & _ & _ & Hbuf & Hmax & _).
    apply Hb; [exact Hbuf | exact Hmax].
  - cbn [fst snd]. apply Hb; reflexivity.
Qed.

End ProcessLineFacts.

(** ** Steps that keep the frame *)

Section SteadyFacts.
Context {H : Type} `{Host H}.

Lemma steady_here (m : AppMonitor H) :
  same_frame m m
  /\ total_errors_detected (stats m) <= total_errors_detected (stats m)
  /\ (counters_ok (stats m) -> counters_ok (stats m)).
Proof. split; [apply same_frame_refl|]. split; [lia | auto]. Qed.

Lemma steady_ret {A} (a : A) : steady (H := H) (ret a).
Proof. intros m w. apply steady_here. Qed.

Lemma steady_raise {A} (e : string) : steady (H := H) (A := A) (raise e).
Proof. intros m w. apply steady_here. Qed.

Lemma steady_log (lvl : LogLevel) (msg : string) : steady (H := H) (log_msg lvl msg).
Proof. intros m w. apply steady_here. Qed.

Lemma steady_lift_host {A} (f : H -> outcome A * H) : steady (lift_host f).
Proof.
  intros m w. unfold lift_host. destruct (f (host w)). apply steady_here.
Qed.

Lemma steady_step {A B} (c : M H (AppMonitor H) A) (k : A -> M H (AppMonitor H) B) :
  steady c -> (forall a, steady (k a)) -> steady (a <- c ;; k a).
Proof.
  intros Hc Hk m w. specialize (Hc m w). unfold bind.
  destruct (c m w) as [[[a|e] m1] w1]; cbn [fst snd] in *.
  - specialize (Hk a m1 w1). destruct Hc as (Hf1 & Ht1 & Hc1), Hk as (Hf2 & Ht2 & Hc2).
    split; [exact (same_frame_trans _ _ _ Hf1 Hf2)|]. split; [lia | auto].
  - exact Hc.
Qed.

Lemma steady_try {A} (body : M H (AppMonitor H) A) (handler : string -> M H (AppMonitor H) A) :
  steady body -> (forall e, steady (handler e)) -> steady (try_except body handler).
Proof.
  intros Hc Hk m w. specialize (Hc m w). unfold try_except.
  destruct (body m w) as [[[a|e] m1] w1]; cbn [fst snd] in *.
  - exact Hc.
  - specialize (Hk e m1 w1). destruct Hc as (Hf1 & Ht1 & Hc1), Hk as (Hf2 & Ht2 & Hc2).
    split; [exact (same_frame_trans _ _ _ Hf1 Hf2)|]. split; [lia | auto].
Qed.

Lemma steady_run_in_executor {A} (f : M H (AppMonitor H) A) :
  steady f -> steady (run_in_executor f).
Proof.
  intros Hf m w. unfold run_in_executor, bind, get.
  destruct (executor_shutdown m); [apply steady_here | apply Hf].
Qed.

(** A call into the classifier changes nothing but the classifier. *)
Lemma steady_on_detector {A} (c : M H ErrorDetector A) : steady (on_detector c).
Proof.
  intros m w. unfold on_detector, zoom.
  destruct (c (error_detector m) w) as [[r d] w1]. cbn [fst snd].
  split; [unfold same_frame; cbn; repeat split|]. split; [cbn; lia | cbn; auto].
Qed.

Lemma steady_handle_all (errors : list DetectedError) : steady (H := H) (handle_all errors).
Proof.
  intros m w.
  destruct (handle_all_effect errors m w) as (m' & w' & Hrun & Hf & _ & Ht & Hc).
  rewrite Hrun. cbn [fst snd]. split; [exact Hf|]. split; [lia | exact Hc].
Qed.

End SteadyFacts.

(** ** The periodic health check *)

Section HealthCheckFacts.
Context {H : Type} `{Host H} `{Probes H}.

Lemma health_check_steady : steady _perform_health_check.
Proof.
  unfold _perform_health_check, get_current_activity, get_app_memory_usage,
    get_screen_dump, is_connected, connect, is_app_running.
  apply steady_try; [|intros e; apply steady_log].
  apply steady_step; [apply steady_run_in_executor, steady_lift_host|].
  intros connected. apply steady_step.
  { destruct connected; cbn [negb]; [apply steady_ret|].
    apply steady_step; [apply steady_log|]. intros _.
    apply steady_step; [apply steady_run_in_executor, steady_lift_host|].
    intros reconnected. destruct reconnected; cbn [negb]; [apply steady_ret|].
    apply steady_step; [apply steady_log | intros _; apply steady_ret]. }
  intros proceed. destruct proceed; cbn [negb]; [|apply steady_ret].
  apply steady_step; [apply steady_run_in_executor, steady_lift_host|].
  intros app_running.
  apply steady_step; [apply steady_run_in_executor, steady_lift_host|].
  intros current_activity.
  apply steady_step; [apply steady_on_detector|]. intros app_errors.
  apply steady_step; [apply steady_handle_all|]. intros _.
  apply steady_step; [apply steady_run_in_executor, steady_lift_host|].
  intros memory_info. apply steady_step.
  { destruct memory_info as [memory_info|]; [|apply steady_ret].
    destruct (decide (memory_info = ∅)); [apply steady_ret|].
    apply steady_step; [apply steady_on_detector|]. intros memory_errors.
    apply steady_handle_all. }
  intros _.
  apply steady_step; [apply steady_run_in_executor, steady_lift_host|].
  intros ui_dump. destruct ui_dump as [ui_dump|]; [|apply steady_ret].
  destruct (PyStr.truthy ui_dump); [|apply steady_ret].
  apply steady_step; [apply steady_on_detector|]. intros ui_errors.
  apply steady_handle_all.
Qed.

(** X5.  [_perform_health_check] never raises, whatever the device link,
    the probes and the classifier do (a raised exception is logged as a
    failed check); it leaves the configuration, the lifecycle fields, the
    tasks, the log buffer and the executor as they were, never lowers the
    count of detected errors, and keeps the fix counters consistent. *)
Theorem perform_health_check_total (m : AppMonitor H) (w : World H) :
  exists m' w',
    _perform_health_check m w = (Ok tt, m', w')
    /\ same_frame m m'
    /\ total_errors_detected (stats m) <= total_errors_detected (stats m')
    /\ (counters_ok (stats m) -> counters_ok (stats m')).
Proof.
  pose proof (health_check_steady m w) as Hs.
  destruct (_perform_health_check m w) as [[r m'] w'] eqn:Hrun. cbn [fst snd] in Hs.
  assert (Hr : r = Ok tt).
  { revert Hrun. unfold _perform_health_check, try_except.
    match goal with |- context [let (_, _) := ?c m w in _] =>
      destruct (c m w) as [[[[]|e] m1] w1] end.
    - intros [= <- _ _]. reflexivity.
    - unfold log_msg. intros [= <- _ _]. reflexivity. }
  subst r. exists m', w'. split; [reflexivity | exact Hs].
Qed.

(** X6.  When the device link is reported down and the reconnection does
    not succeed (it answers [False], or raises), [_perform_health_check]
    ends there: it returns without raising, the monitor is exactly as it
    was, and the host is the one the reconnection left, so no probe of the
    app, of its memory or of its UI was made; only log records were
    added. *)
Theorem health_check_link_down (m : AppMonitor H) (w : World H) (h1 h2 : H)
    (r : outcome bool) :
  executor_shutdown m = false ->
  adb_is_connected (host w) = (Ok false, h1) ->
  adb_connect h1 = (r, h2) ->
  r <> Ok true ->
  exists records,
    _perform_health_check m w = (Ok tt, m, mkWorld h2 (logs w ++ records))
    /\ hd_error records = Some (WARNING, "ADB connection lost, attempting reconnection")
    /\ (length records = 2)%nat.
Proof.
  intros Hex Hdown Hconn Hr.
  unfold _perform_health_check, run_in_executor, is_connected, connect.
  unfold try_except, bind, get, lift_host, log_msg, logged, ret, raise.
  rewrite Hex, Hdown. cbn [negb host logs]. rewrite Hex. cbv beta. cbn [host logs].
  rewrite Hconn.
  destruct r as [[|]|e]; [contradiction| |]; cbn [negb host logs].
  - eexists. rewrite <- !app_assoc. split; [reflexivity|]. split; reflexivity.
  - eexists. rewrite <- !app_assoc. split; [reflexivity|]. split; reflexivity.
Qed.

End HealthCheckFacts.

(** ** Steps that leave the object alone *)

Section InertFacts.
Context {H : Type} `{Host H} {St : Type}.

Lemma inert_ret {A} (a : A) : inert (H := H) (St := St) (ret a).
Proof. intros s w. reflexivity. Qed.

Lemma inert_raise {A} (e : string) : inert (H := H) (St := St) (A := A) (raise e).
Proof. intros s w. reflexivity. Qed.

Lemma inert_get : inert (H := H) (St := St) get.
Proof. intros s w. reflexivity. Qed.

Lemma inert_log (lvl : LogLevel) (msg : string) : inert (H := H) (St := St) (log_msg lvl msg).
Proof. intros s w. reflexivity. Qed.

Lemma inert_time : inert (H := H) (St := St) time_time.
Proof. intros s w. rewrite time_time_run. reflexivity. Qed.

Lemma inert_sleep (d : Q) : inert (H := H) (St := St) (time_sleep d).
Proof. intros s w. reflexivity. Qed.

Lemma inert_lift_host {A} (f : H -> outcome A * H) : inert (St := St) (lift_host f).
Proof. intros s w. unfold lift_host. destruct (f (host w)). reflexivity. Qed.

Lemma inert_step {A B} (c : M H St A) (k : A -> M H St B) :
  inert c -> (forall a, inert (k a)) -> inert (a <- c ;; k a).
Proof.
  intros Hc Hk s w. specialize (Hc s w). unfold bind.
  destruct (c s w) as [[[a|e] s1] w1]; cbn [fst snd] in *.
  - rewrite Hk. exact Hc.
  - exact Hc.
Qed.

Lemma inert_try {A} (body : M H St A) (handler : string -> M H St A) :
  inert body -> (forall e, inert (handler e)) -> inert (try_except body handler).
Proof.
  intros Hc Hk s w. specialize (Hc s w). unfold try_except.
  destruct (body s w) as [[[a|e] s1] w1]; cbn [fst snd] in *.
  - exact Hc.
  - rewrite Hk. exact Hc.
Qed.

(** A [try] whose handler only logs never raises. *)
Lemma try_log_returns (body : M H St unit) (lvl : LogLevel) (msg : string -> string)
    (s : St) (w : World H) :
  fst (fst (try_except body (fun e => log_msg lvl (msg e)) s w)) = Ok tt.
Proof.
  unfold try_except. destruct (body s w) as [[[[]|e] s1] w1]; reflexivity.
Qed.

End InertFacts.

Section InertMonitor.
Context {H : Type} `{Host H}.

Lemma inert_run_in_executor {A} (f : M H (AppMonitor H) A) :
  inert f -> inert (run_in_executor f).
Proof.
  intros Hf m w. unfold run_in_executor, bind, get.
  destruct (executor_shutdown m); [reflexivity | apply Hf].
Qed.

Lemma inert_on_fixer {A} (c : M H (AutoFixer H) A) : inert c -> inert (on_fixer c).
Proof.
  intros Hc m w. specialize (Hc (auto_fixer m) w). unfold on_fixer, zoom.
  destruct (c (auto_fixer m) w) as [[r f] w1]. cbn [fst snd] in *. subst f.
  destruct m; reflexivity.
Qed.

End InertMonitor.

(** ** The periodic maintenance *)

Section MaintenanceFacts.
Context {H : Type} `{Host H}.

(** [schedule_maintenance] never touches the fixer. *)
Lemma schedule_maintenance_inert : inert (H := H) schedule_maintenance.
Proof.
  unfold schedule_maintenance, execute_command.
  apply inert_step; [apply inert_log|]. intros _.
  apply inert_try.
  - apply inert_step; [apply inert_lift_host|]. intros _.
    apply inert_step; [apply inert_lift_host|]. intros _. apply inert_ret.
  - intros e. apply inert_step; [apply inert_log | intros _; apply inert_ret].
Qed.

(** [_generate_report] never touches the monitor. *)
Lemma generate_report_inert : inert (H := H) _generate_report.
Proof.
  unfold _generate_report, get_device_info, write_report.
  apply inert_try; [|intros e; apply inert_log].
  do 3 (apply inert_step; [apply inert_time|]; intros _).
  apply inert_step; [apply inert_get|]. intros self.
  apply inert_step.
  { destruct (fix_history (auto_fixer self)); [apply inert_ret|].
    apply inert_step; [apply inert_time | intros _; apply inert_ret]. }
  intros _.
  apply inert_step; [apply inert_run_in_executor, inert_lift_host|]. intros _.
  apply inert_step; [apply inert_lift_host|]. intros _.
  apply inert_step; [apply inert_get|]. intros self'. apply inert_log.
Qed.

Lemma schedule_maintenance_returns (f : AutoFixer H) (w : World H) :
  exists b w', schedule_maintenance f w = (Ok b, f, w').
Proof.
  pose proof (schedule_maintenance_inert f w) as Hs.
  destruct (schedule_maintenance f w) as [[r f'] w'] eqn:Hrun. cbn [fst snd] in Hs. subst f'.
  assert (Hr : exists b, r = Ok b).
  { revert Hrun. unfold schedule_maintenance, bind, try_except, log_msg.
    match goal with |- context [let (_, _) := ?c in _] =>
      destruct c as [[[b|e] f1] w1] end.
    - intros [= <- _ _]. eexists; reflexivity.
    - unfold ret. intros [= <- _ _]. eexists; reflexivity. }
  destruct Hr as [b ->]. exists b, w'. reflexivity.
Qed.

Lemma generate_report_returns (m : AppMonitor H) (w : World H) :
  exists w', _generate_report m w = (Ok tt, m, w').
Proof.
  pose proof (generate_report_inert m w) as Hs.
  pose proof (try_log_returns
    (time_time ;;; time_time ;;; time_time ;;;
     self <- get ;;
     (match fix_history (auto_fixer self) with
      | [] => ret tt
      | _ :: _ => time_time ;;; ret tt
      end) ;;;
     run_in_executor get_device_info ;;; write_report ;;;
     self <- get ;;
     log_msg INFO ("Generated monitoring report: " ++ report_file (config self)))
    ERROR (fun e => "Report generation failed: " ++ e) m w) as Hr.
  change (fst (fst (_generate_report m w)) = Ok tt) in Hr.
  destruct (_generate_report m w) as [[r m'] w']. cbn [fst snd] in *. subst.
  exists w'. reflexivity.
Qed.

(** What [_cleanup_logs] leaves behind, field by field. *)
Lemma cleanup_logs_fields (m : AppMonitor H) (w : World H) :
  exists m',
    _cleanup_logs m w = (Ok tt, m', w)
    /\ same_shell m m'
    /\ error_history (error_detector m') = trimmed 500 (error_history (error_detector m))
    /\ fix_history (auto_fixer m') = trimmed 200 (fix_history (auto_fixer m))
    /\ logcat_buffer m' =
       (if max_buffer_size m <? Z.of_nat (length (logcat_buffer m))
        then py_last (max_buffer_size m) (logcat_buffer m) else logcat_buffer m).
Proof.
  unfold _cleanup_logs, on_detector, on_fixer, trimmed, same_shell. unfold_m.
  destruct (500 <? length (error_history (error_detector m)))%nat eqn:E1;
    cbn -[Nat.ltb Z.ltb py_last length];
    destruct (200 <? length (fix_history (auto_fixer m)))%nat eqn:E2;
    cbn -[Nat.ltb Z.ltb py_last length];
    destruct (max_buffer_size m <? Z.of_nat (length (logcat_buffer m))) eqn:E3;
    cbn -[Nat.ltb Z.ltb py_last length];
    eexists; (split; [reflexivity|]); cbn -[Nat.ltb Z.ltb py_last length];
    repeat split; reflexivity.
Qed.

Lemma same_shell_refl (m : AppMonitor H) : same_shell m m.
Proof. unfold same_shell. repeat split. Qed.

Lemma trimmed_suffix {A} (n : nat) (l : list A) :
  exists dropped, l = (dropped ++ trimmed n l)%list.
Proof.
  unfold trimmed. destruct (_ <? _)%nat; [apply py_last_suffix | exists []; reflexivity].
Qed.

(** X7.  [_perform_maintenance] never raises and never changes the
    statistics, the configuration, the lifecycle fields, the cooldown table
    or the classifier's settings.  While the executor accepts work it trims
    the histories (oldest entries first): afterwards the remediation
    history holds at most 200 entries, the classifier history at most 500.
    Once the executor is shut down, submitting the fixer's maintenance
    raises, the failure is logged, and neither the report nor the cleanup
    is reached: the monitor is left exactly as it was. *)
Theorem perform_maintenance_effect (m : AppMonitor H) (w : World H) :
  exists m' w',
    _perform_maintenance m w = (Ok tt, m', w')
    /\ same_shell m m'
    /\ (exists dropped,
          (fix_history (auto_fixer m) = dropped ++ fix_history (auto_fixer m'))%list)
    /\ (exists dropped,
          (error_history (error_detector m)
           = dropped ++ error_history (error_detector m'))%list)
    /\ if executor_shutdown m then m' = m
       else (length (fix_history (auto_fixer m')) <= 200)%nat
            /\ (length (error_history (error_detector m')) <= 500)%nat.
Proof.
  unfold _perform_maintenance, run_in_executor. unfold bind, try_except, get, log_msg.
  destruct (executor_shutdown m) eqn:Hex.
  - unfold raise. exists m, (logged ERROR
      ("Maintenance failed: " ++ "cannot schedule new futures after shutdown")
      (logged INFO "Performing routine maintenance" w)).
    split; [reflexivity|]. split; [apply same_shell_refl|].
    split; [exists []; reflexivity|]. split; [exists []; reflexivity | reflexivity].
  - pose proof (inert_on_fixer _ schedule_maintenance_inert m
                  (logged INFO "Performing routine maintenance" w)) as Hs.
    unfold on_fixer, zoom in *.
    destruct (schedule_maintenance_returns (auto_fixer m)
                (logged INFO "Performing routine maintenance" w)) as (b & w1 & Hrun).
    rewrite Hrun in *. cbn [fst snd] in Hs. rewrite Hs.
    destruct (generate_report_returns m w1) as (w2 & Hrep). rewrite Hrep.
    destruct (cleanup_logs_fields m w2) as (m' & Hcl & Hshell & He & Hf & _).
    rewrite Hcl. exists m', w2. split; [reflexivity|]. split; [exact Hshell|].
    rewrite He, Hf. split; [apply trimmed_suffix|]. split; [apply trimmed_suffix|].
    split; [apply (trimmed_length 200) | apply (trimmed_length 500)]; lia.
Qed.

Lemma trimmed_fixed {A} (n : nat) (l : list A) :
  (0 < n)%nat -> (n <? length (trimmed n l))%nat = false.
Proof.
  intros Hn. apply Nat.ltb_ge. apply (trimmed_length n l Hn).
Qed.

(** X16.  With a buffer size that is not negative the cleanup is
    idempotent: a second [_cleanup_logs] right after the first changes
    nothing. *)
Theorem cleanup_logs_idempotent (m : AppMonitor H) (w : World H) :
  0 <= max_buffer_size m ->
  (_cleanup_logs ;;; _cleanup_logs) m w = _cleanup_logs m w.
Proof.
  intros Hcap. unfold bind at 1.
  destruct (cleanup_logs_fields m w) as (m' & Hrun & Hshell & He & Hf & Hb).
  rewrite Hrun.
  destruct Hshell as (_ & _ & _ & _ & _ & _ & Hmax & _).
  unfold _cleanup_logs, on_detector, on_fixer. unfold_m.
  rewrite He, (trimmed_fixed 500) by lia. cbv beta iota.
  rewrite Hf, (trimmed_fixed 200) by lia. cbv beta iota.
  rewrite Hmax, Hb.
  destruct (max_buffer_size m <? Z.of_nat (length (logcat_buffer m))) eqn:E1.
  - destruct (Z.eq_dec (max_buffer_size m) 0) as [Hz|Hnz].
    + rewrite Hz in *. change (py_last 0 (logcat_buffer m)) with (logcat_buffer m) in *.
      rewrite E1. change (py_last 0 (logcat_buffer m)) with (logcat_buffer m).
      rewrite <- Hb. destruct m'; reflexivity.
    + replace (max_buffer_size m
               <? Z.of_nat (length (py_last (max_buffer_size m) (logcat_buffer m))))
        with false; [reflexivity|].
      symmetry. apply Z.ltb_ge. apply py_last_length. lia.
  - rewrite E1. reflexivity.
Qed.

End MaintenanceFacts.

(** ** Errors of low severity *)

Section LowSeverityFacts.
Context {H : Type} `{Host H}.

Lemma no_remediation_refl (m : AppMonitor H) : no_remediation m m.
Proof. unfold no_remediation. repeat split. Qed.

Lemma no_remediation_trans (m1 m2 m3 : AppMonitor H) :
  no_remediation m1 m2 -> no_remediation m2 m3 -> no_remediation m1 m3.
Proof. unfold no_remediation. intuition congruence. Qed.

Lemma handle_low_run (error : DetectedError) (m : AppMonitor H) (w : World H) :
  severity error = LOW ->
  _handle_detected_error error m w = (Ok tt, handled m error, handled_world error w).
Proof.
  intros Hlow. rewrite handle_detected_error_run, should_trigger_autofix_run, Hlow.
  destruct (enable_auto_fix (config m)); reflexivity.
Qed.

Lemma handle_all_low (errors : list DetectedError) (m : AppMonitor H) (w : World H) :
  Forall (fun e => severity e = LOW) errors ->
  exists m' w',
    handle_all errors m w = (Ok tt, m', w')
    /\ no_remediation m m'
    /\ host w' = host w
    /\ total_errors_detected (stats m')
       = total_errors_detected (stats m) + Z.of_nat (length errors)
    /\ error_detector m' = fold_left recorded errors (error_detector m).
Proof.
  intros Hlow. revert m w. induction Hlow as [|e errors He _ IH]; intros m w.
  - exists m, w. split; [reflexivity|]. split; [apply no_remediation_refl|].
    cbn. repeat split. lia.
  - cbn [handle_all]. unfold bind. rewrite (handle_low_run e m w He).
    destruct (IH (handled m e) (handled_world e w)) as (m' & w' & Hrun & Hn & Hh & Ht & Hd).
    exists m', w'. split; [exact Hrun|].
    split; [refine (no_remediation_trans _ _ _ _ Hn); unfold no_remediation; cbn; repeat split|].
    split; [rewrite Hh; reflexivity|].
    split; [rewrite Ht; cbn; lia | exact Hd].
Qed.

(** X8.  An error of low severity is counted and recorded but never passed
    on to remediation: [_handle_detected_error] returns without raising,
    the fixer and every fix statistic are as before, and neither the clock
    nor the device link was used. *)
Theorem low_severity_never_remediated (error : DetectedError) (m : AppMonitor H)
    (w : World H) :
  severity error = LOW ->
  exists m' w',
    _handle_detected_error error m w = (Ok tt, m', w')
    /\ no_remediation m m'
    /\ host w' = host w
    /\ total_errors_detected (stats m') = total_errors_detected (stats m) + 1
    /\ last_error_time (stats m') = Some (timestamp error)
    /\ error_detector m' = recorded (error_detector m) error.
Proof.
  intros Hlow. exists (handled m error), (handled_world error w).
  split; [apply handle_low_run, Hlow|].
  unfold no_remediation. cbn. repeat split.
Qed.

(** The element loop of the UI analysis: after the errors it was given it
    reports findings only, and leaves the detector alone. *)
Lemma scan_elements_spec (elements expected : list string) (app_state ui_dump : string)
    (acc : list DetectedError) (d : ErrorDetector) (w : World H) :
  exists new w',
    scan_elements elements expected app_state ui_dump acc d w = (Ok (acc ++ new)%list, d, w')
    /\ Forall ui_finding new
    /\ length new = length (List.filter (fun element => negb (PyStr.contains element ui_dump))
                                        elements).
Proof.
  revert acc w. induction elements as [|element rest IH]; intros acc w.
  - exists [], w. rewrite app_nil_r. repeat split. constructor.
  - cbn [scan_elements List.filter]. destruct (PyStr.contains element ui_dump); cbn [negb].
    + apply IH.
    + unfold bind. rewrite time_time_run.
      destruct (IH (append acc (mk_missing_element element app_state expected (reading w)))
                  (after_reading w)) as (new & w' & Hrun & Hall & Hlen).
      exists (mk_missing_element element app_state expected (reading w) :: new), w'.
      rewrite Hrun. unfold append. rewrite <- app_assoc. split; [reflexivity|].
      split; [|cbn; rewrite Hlen; reflexivity].
      constructor; [|exact Hall]. unfold ui_finding. cbn. repeat split. left. reflexivity.
Qed.

Lemma analyze_ui_dump_spec (ui_dump : string) (d : ErrorDetector) (w : World H) :
  exists errors w',
    analyze_ui_dump ui_dump d w = (Ok errors, d, w') /\ Forall ui_finding errors.
Proof.
  unfold analyze_ui_dump. destruct (PyStr.truthy ui_dump); cbn [negb].
  2:{ exists [], w. split; [reflexivity | constructor]. }
  unfold bind, get.
  destruct (scan_elements_spec
              (_get_expected_elements_for_state (ui_config d) (_detect_app_state ui_dump) ui_dump)
              (_get_expected_elements_for_state (ui_config d) (_detect_app_state ui_dump) ui_dump)
              (_detect_app_state ui_dump) ui_dump [] d w) as (new & w' & Hrun & Hall & _).
  rewrite Hrun. cbn [app].
  destruct (focus_monitoring_enabled (ui_config d));
    [|exists new, w'; split; [reflexivity | exact Hall]].
  destruct (negb _ && negb _);
    [|exists new, w'; split; [reflexivity | exact Hall]].
  rewrite time_time_run. do 2 eexists. split; [reflexivity|].
  unfold append. apply Forall_app. split; [exact Hall|].
  constructor; [|constructor]. unfold ui_finding. cbn. repeat split. right. reflexivity.
Qed.

(** X9.  The UI analysis never raises and never changes the classifier,
    and every finding it reports has low severity; so when the monitor
    handles the findings of a UI dump they are counted and recorded, but
    the fixer and the fix statistics stay as they were: the strategies for
    [missing_ui_element] and [no_focused_element] are never dispatched on
    this path. *)
Theorem ui_findings_never_remediated (ui_dump : string) (m : AppMonitor H) (w : World H) :
  exists errors w1 m' w',
    analyze_ui_dump ui_dump (error_detector m) w = (Ok errors, error_detector m, w1)
    /\ Forall ui_finding errors
    /\ handle_all errors m w1 = (Ok tt, m', w')
    /\ no_remediation m m'
    /\ total_errors_detected (stats m')
       = total_errors_detected (stats m) + Z.of_nat (length errors)
    /\ error_detector m' = fold_left recorded errors (error_detector m).
Proof.
  destruct (analyze_ui_dump_spec ui_dump (error_detector m) w) as (errors & w1 & Hrun & Hall).
  destruct (handle_all_low errors m w1) as (m' & w' & Hh & Hn & _ & Ht & Hd).
  { eapply Forall_impl; [exact Hall|]. intros e He. apply He. }
  exists errors, w1, m', w'.
  exact (conj Hrun (conj Hall (conj Hh (conj Hn (conj Ht Hd))))).
Qed.

End LowSeverityFacts.

(** ** Strategies on a device link that answers *)

Section QuietFacts.
Context {H : Type} `{Host H} (P : H -> Prop) (Hq : quiet_link P).

Section Steps.
Context {St : Type}.

Lemma safe_ret {A} (a : A) : safe (St := St) P (ret a).
Proof. intros s w Hp. exists a, w. split; [reflexivity | exact Hp]. Qed.

Lemma safe_log (lvl : LogLevel) (msg : string) : safe (St := St) P (log_msg lvl msg).
Proof. intros s w Hp. exists tt, (logged lvl msg w). split; [reflexivity | exact Hp]. Qed.

Lemma safe_sleep (d : Q) : safe (St := St) P (time_sleep d).
Proof.
  intros s w Hp. do 2 eexists. split; [reflexivity|]. cbn. apply (quiet_sleep P Hq), Hp.
Qed.

Lemma safe_time : safe (St := St) P time_time.
Proof.
  intros s w Hp. rewrite time_time_run. do 2 eexists. split; [reflexivity|].
  cbn. apply (quiet_time P Hq), Hp.
Qed.

Lemma safe_lift_host {A} (f : H -> outcome A * H) :
  (forall h, P h -> answers P (f h)) -> safe (St := St) P (lift_host f).
Proof.
  intros Hf s w Hp. unfold lift_host. destruct (Hf (host w) Hp) as [[a Ha] Hp'].
  destruct (f (host w)) as [r h]. cbn [fst snd] in *. subst r.
  exists a, (mkWorld h (logs w)). split; [reflexivity | exact Hp'].
Qed.

Lemma safe_step {A B} (c : M H St A) (k : A -> M H St B) :
  safe P c -> (forall a, safe P (k a)) -> safe P (a <- c ;; k a).
Proof.
  intros Hc Hk s w Hp. unfold bind.
  destruct (Hc s w Hp) as (a & w1 & -> & Hp1). apply Hk, Hp1.
Qed.

Lemma safe_try {A} (body : M H St A) (handler : string -> M H St A) :
  safe P body -> safe P (try_except body handler).
Proof.
  intros Hc s w Hp. unfold try_except.
  destruct (Hc s w Hp) as (a & w1 & -> & Hp1). exists a, w1. split; [reflexivity | exact Hp1].
Qed.

Lemma safe_repeat (n : nat) (body : M H St unit) :
  safe P body -> safe P (repeat_m n body).
Proof.
  intros Hb. induction n as [|n IH]; cbn [repeat_m].
  - apply safe_ret.
  - apply safe_step; [exact Hb | intros _; exact IH].
Qed.

Lemma safe_execute_command (cmd : string) : safe (St := St) P (execute_command cmd).
Proof. apply safe_lift_host, (quiet_execute_command P Hq). Qed.

Lemma safe_is_app_running : safe (St := St) P is_app_running.
Proof. apply safe_lift_host, (quiet_is_app_running P Hq). Qed.

Lemma safe_start_app : safe (St := St) P start_app.
Proof. apply safe_lift_host, (quiet_start_app P Hq). Qed.

Lemma safe_force_stop_app : safe (St := St) P force_stop_app.
Proof. apply safe_lift_host, (quiet_force_stop_app P Hq). Qed.

Lemma safe_clear_app_data : safe (St := St) P clear_app_data.
Proof. apply safe_lift_host, (quiet_clear_app_data P Hq). Qed.

Lemma safe_send_key_event (code : Z) : safe (St := St) P (send_key_event code).
Proof. apply safe_lift_host, (quiet_send_key_event P Hq). Qed.

End Steps.

Ltac safe_step_tac :=
  first
    [ apply safe_ret | apply safe_log | apply safe_sleep | apply safe_time
    | apply safe_execute_command | apply safe_is_app_running | apply safe_start_app
    | apply safe_force_stop_app | apply safe_clear_app_data | apply safe_send_key_event
    | apply safe_repeat | apply safe_try
    | apply safe_step; [|intros ?]
    | match goal with
      | |- safe _ (if ?b then _ else _) => destruct b
      end ].

Ltac safe_tac := repeat safe_step_tac.

Lemma safe_fix_app_crash (error : DetectedError) : safe P (_fix_app_crash error).
Proof. unfold _fix_app_crash. safe_tac. Qed.

Lemma safe_fix_anr (error : DetectedError) : safe P (_fix_anr error).
Proof. unfold _fix_anr. safe_tac. Qed.

Lemma safe_fix_memory_issue (error : DetectedError) : safe P (_fix_memory_issue error).
Proof. unfold _fix_memory_issue. safe_tac. Qed.

Lemma safe_fix_network_error (error : DetectedError) : safe P (_fix_network_error error).
Proof. unfold _fix_network_error. safe_tac. Qed.

Lemma safe_fix_webview_error (error : DetectedError) : safe P (_fix_webview_error error).
Proof.
  unfold _fix_webview_error.
  apply safe_step; [apply safe_log|]. intros _.
  apply safe_step; [apply safe_fix_network_error|]. intros refresh_result.
  destruct (result_eqb refresh_result SUCCESS); [apply safe_ret | apply safe_fix_app_crash].
Qed.

Lemma safe_fix_profile_error (error : DetectedError) : safe P (_fix_profile_error error).
Proof. unfold _fix_profile_error. safe_tac. Qed.

Lemma safe_fix_preferences_error (error : DetectedError) :
  safe P (_fix_preferences_error error).
Proof. unfold _fix_preferences_error. safe_tac. Qed.

Lemma safe_fix_focus_error (error : DetectedError) : safe P (_fix_focus_error error).
Proof. unfold _fix_focus_error. safe_tac. Qed.

Lemma safe_fix_lifecycle_error (error : DetectedError) : safe P (_fix_lifecycle_error error).
Proof.
  unfold _fix_lifecycle_error.
  apply safe_step; [apply safe_log | intros _; apply safe_fix_app_crash].
Qed.

Lemma safe_fix_app_not_running (error : DetectedError) : safe P (_fix_app_not_running error).
Proof. unfold _fix_app_not_running. safe_tac. Qed.

Lemma safe_fix_high_memory_usage (error : DetectedError) :
  safe P (_fix_high_memory_usage error).
Proof.
  unfold _fix_high_memory_usage.
  apply safe_step; [apply safe_log|]. intros _.
  apply safe_step; [apply safe_is_app_running|]. intros running.
  apply safe_step; [destruct running; safe_tac|]. intros trimmed.
  destruct trimmed; [apply safe_ret | apply safe_fix_memory_issue].
Qed.

Lemma safe_fix_memory_leak (error : DetectedError) : safe P (_fix_memory_leak error).
Proof.
  unfold _fix_memory_leak.
  apply safe_step; [apply safe_log | intros _; apply safe_fix_memory_issue].
Qed.

Lemma safe_recover_to_main_activity : safe P _recover_to_main_activity.
Proof. unfold _recover_to_main_activity. safe_tac. Qed.

Lemma safe_gentle_recovery : safe P _gentle_recovery.
Proof. unfold _gentle_recovery. safe_tac. Qed.

Lemma safe_fix_missing_ui_element (error : DetectedError) :
  safe P (_fix_missing_ui_element error).
Proof.
  unfold _fix_missing_ui_element. cbn zeta.
  apply safe_step; [apply safe_log|]. intros _.
  apply safe_step; [apply safe_is_app_running|]. intros running.
  destruct running; cbn [negb]; [|safe_tac].
  repeat match goal with
         | |- safe _ (if ?b then _ else _) => destruct b
         end;
    (apply safe_step; [apply safe_log|]; intros _);
    first [ apply safe_ret | apply safe_recover_to_main_activity | apply safe_gentle_recovery ].
Qed.

Lemma safe_fix_no_focus (error : DetectedError) : safe P (_fix_no_focus error).
Proof. unfold _fix_no_focus. safe_tac. Qed.

Lemma safe_fix_unexpected_activity (error : DetectedError) :
  safe P (_fix_unexpected_activity error).
Proof. unfold _fix_unexpected_activity. safe_tac. Qed.

(** No strategy of the table raises on a link that answers. *)
Lemma strategies_safe (kind : string) (fix_strategy : Strategy H) (error : DetectedError) :
  _initialize_fix_strategies !! kind = Some fix_strategy ->
  safe P (fix_strategy error).
Proof.
  intros Hl. apply elem_of_list_to_map_2 in Hl.
  repeat (apply elem_of_cons in Hl; destruct Hl as [[= _ ->]|Hl];
          [first [ apply safe_fix_app_crash | apply safe_fix_anr
                 | apply safe_fix_memory_issue | apply safe_fix_network_error
                 | apply safe_fix_webview_error | apply safe_fix_profile_error
                 | apply safe_fix_preferences_error | apply safe_fix_focus_error
                 | apply safe_fix_lifecycle_error | apply safe_fix_app_not_running
                 | apply safe_fix_high_memory_usage | apply safe_fix_memory_leak
                 | apply safe_fix_missing_ui_element | apply safe_fix_no_focus
                 | apply safe_fix_unexpected_activity ]|]).
  apply elem_of_nil in Hl. contradiction.
Qed.

(** X10.  On a device link that answers every operation (as the link of
    [ADBManager] does, whose methods catch their own exceptions) no
    strategy of the table raises, so [apply_fix] never takes its exception
    path: every dispatched attempt appends one outcome to the history whose
    details hold no [error] entry, and records the start time of the
    attempt in the cooldown table under the kind of the error; a skipped
    request leaves the fixer as it was. *)
Theorem quiet_link_records_cooldown (error : DetectedError) (f : AutoFixer H)
    (w : World H) :
  fix_strategies f = _initialize_fix_strategies ->
  P (host w) ->
  exists r f' w',
    apply_fix error f w = (Ok r, f', w')
    /\ P (host w')
    /\ match r with
       | None => f' = f
       | Some a =>
           fix_history f' = append (fix_history f) a
           /\ last_fix_times f'
              = <[error_type error := FixAction.timestamp a]> (last_fix_times f)
           /\ FixAction.timestamp a = start_reading error w
           /\ dict_get "error" (FixAction.details a) = None
       end.
Proof.
  intros Hf Hp.
  assert (Hp1 : P (host (after_reading w))) by (apply (quiet_time P Hq), Hp).
  destruct (Qle_bool (fix_cooldown f)
              (reading w - default 0%Q (last_fix_times f !! error_type error))) eqn:Hcd.
  2:{ do 3 eexists. split; [apply (apply_fix_cooldown _ _ _ Hcd)|].
      split; [exact Hp1 | reflexivity]. }
  destruct (fix_strategies f !! error_type error) as [fix_strategy|] eqn:Hst.
  2:{ do 3 eexists. split; [apply (apply_fix_no_strategy _ _ _ Hcd Hst)|].
      split; [exact Hp1 | reflexivity]. }
  assert (Hsafe : safe P (fix_strategy error)).
  { apply (strategies_safe (error_type error)). rewrite <- Hf. exact Hst. }
  destruct (Hsafe tt (after_reading (dispatch_world error w))) as (result & w1 & Hrun & Hp2).
  { apply (quiet_time P Hq). exact Hp1. }
  do 3 eexists. split; [apply (apply_fix_returns _ _ _ _ _ _ Hcd Hst Hrun)|].
  split; [apply (quiet_time P Hq), Hp2|]. cbn. repeat split.
Qed.

End QuietFacts.

(** ** The memory analysis: when it raises *)

Section MemoryOutcome.
Context {H : Type} `{Host H}.

(** X11.  For samples in the range where the float arithmetic of the
    code is exact (the total and the stored sample at most 2^51 in
    magnitude), [analyze_memory_usage] raises exactly on a sample with a
    positive total that follows a stored sample of 0: the exception is the
    division by zero of the percentage, and the stored sample stays 0, so
    the next positive sample raises again.  On every other input of that
    range it returns at most two errors and stores the total of the sample
    (0 when the sample has no total) as the previous one; an empty sample
    is ignored. *)
Theorem analyze_memory_usage_outcome (memory_info : gmap string Z) (d : ErrorDetector)
    (w : World H) :
  samples_in_range memory_info d ->
  (zero_baseline memory_info d ->
   exists w', analyze_memory_usage memory_info d w = (Raise "division by zero", d, w'))
  /\ (~ zero_baseline memory_info d ->
      exists errors w',
        analyze_memory_usage memory_info d w = (Ok errors, sampled memory_info d, w')
        /\ (length errors <= 2)%nat
        /\ Forall (fun e => source e = "memory") errors).
Proof.
  intros _. unfold zero_baseline, sampled, analyze_memory_usage.
  destruct (decide (memory_info = ∅)) as [Hempty|Hne].
  { split; [intros [Hne _]; contradiction|]. intros _.
    exists [], w. split; [reflexivity|]. split; [cbn; lia | constructor]. }
  set (total_pss := default 0 (memory_info !! "total_pss_kb")).
  unfold bind, get, modify, ret.
  destruct (500000 <? total_pss); rewrite ?time_time_run; cbv beta iota.
  all: destruct (_last_memory_usage d) as [last_usage|] eqn:Hlast.
  all: try (split; [intros (_ & [=] & _)|]; intros _; do 2 eexists;
            split; [reflexivity|]; split; [cbn; lia | repeat constructor]).
  all: rewrite leak_test_spec; unfold truediv.
  all: destruct (3 * last_usage <? 2 * total_pss) eqn:Hleak;
    [apply Z.ltb_lt in Hleak; destruct (Z.eqb_spec last_usage 0) as [->|Hnz]
    |apply Z.ltb_ge in Hleak].
  all: rewrite ?time_time_run; cbv beta iota.
  all: split;
    [ intros (_ & Hz & Hpos);
      first [ eexists; reflexivity | exfalso; injection Hz as Hz; lia ]
    | intros Hno;
      first [ exfalso; apply Hno; repeat split; [exact Hne | lia]
            | do 2 eexists; split; [reflexivity|]; split; [cbn; lia | repeat constructor] ] ].
Qed.

End MemoryOutcome.

(** ** What one request does to the history *)

Section RequestFacts.
Context {H : Type} `{Host H}.

(** X12.  One request, taken by itself.  [_attempt_auto_fix] never raises
    and keeps the configuration.  It leaves the remediation history as it
    was or appends exactly one outcome to it, and it appends one only when
    its check counted fewer recorded attempts younger than one hour than
    [max_fix_attempts_per_hour] and the executor accepted the work.  A
    request that the check admits is counted, dispatched or not:
    [total_fixes_attempted] is one higher and [last_fix_time] is the second
    reading of the clock; one that the check refuses leaves the monitor as
    it was.  The check and the append are separate steps of the call, the
    append being done by the executor: what another task of the daemon
    appends between them is outside this statement. *)
Theorem attempt_appends_at_most_one (error : DetectedError) (m : AppMonitor H)
    (w : World H) :
  exists m' w',
    _attempt_auto_fix error m w = (Ok tt, m', w')
    /\ config m' = config m
    /\ (fix_history (auto_fixer m') = fix_history (auto_fixer m)
        \/ exists a,
             fix_history (auto_fixer m') = append (fix_history (auto_fixer m)) a
             /\ attempts_since (reading w) m < max_fix_attempts_per_hour (config m)
             /\ executor_shutdown m = false)
    /\ (attempts_since (reading w) m < max_fix_attempts_per_hour (config m) ->
        total_fixes_attempted (stats m') = total_fixes_attempted (stats m) + 1
        /\ last_fix_time (stats m') = Some (reading_after 1 w))
    /\ (max_fix_attempts_per_hour (config m) <= attempts_since (reading w) m -> m' = m).
Proof.
  unfold _attempt_auto_fix, bind. rewrite can_attempt_fix_monitor_run.
  fold (attempts_since (reading w) m).
  destruct (attempts_since (reading w) m <? max_fix_attempts_per_hour (config m)) eqn:Hlim;
    cbn [negb].
  { apply Z.ltb_lt in Hlim.
    rewrite time_time_run.
    unfold modify, try_except, run_in_executor, bind, get, on_fixer, zoom.
    cbn [executor_shutdown set_stats auto_fixer].
    destruct (executor_shutdown m) eqn:Hex.
    - unfold raise, log_msg. do 2 eexists. split; [reflexivity|].
      split; [reflexivity|]. split; [left; reflexivity|].
      split; [intros _; split; reflexivity | intros Hfull; exfalso; lia].
    - match goal with |- context [apply_fix error ?f ?w0] =>
        destruct (apply_fix_outcome error f w0) as (r & f' & w' & Hrun & Hr); rewrite Hrun
      end.
      destruct r as [a|].
      + destruct Hr as (Hh & _).
        destruct (result_eqb (FixAction.result a) SUCCESS);
          unfold log_msg; do 2 eexists; (split; [reflexivity|]);
          (split; [reflexivity|]);
          (split; [right; exists a; split; [exact Hh | split; [exact Hlim | reflexivity]]|]);
          (split; [intros _; split; reflexivity | intros Hfull; exfalso; lia]).
      + unfold ret. do 2 eexists. split; [reflexivity|]. split; [reflexivity|].
        split; [left; cbn; rewrite Hr; reflexivity|].
        split; [intros _; split; reflexivity | intros Hfull; exfalso; lia]. }
  apply Z.ltb_ge in Hlim.
  do 2 eexists. split; [reflexivity|]. split; [reflexivity|].
  split; [left; reflexivity|].
  split; [intros Hadmit; exfalso; lia | intros _; reflexivity].
Qed.

End RequestFacts.

(** ** The kinds the classifier reports and the strategy table *)

Section StrategyTable.
Context {H : Type} `{Host H}.

Lemma strategy_table (e : DetectedError) :
  In (error_type e) classifier_kinds -> covered e.
Proof.
  unfold covered, unfixable. generalize (error_type e). intros kind Hin.
  cbn in Hin.
  repeat (destruct Hin as [<-|Hin];
          [vm_compute; split;
           [intros Hno; first [discriminate Hno | left; reflexivity | right; reflexivity]
           |intros [Hk|Hk]; first [discriminate Hk | reflexivity]]|]).
  contradiction.
Qed.

Ltac kinds_tac :=
  cbv beta iota; cbn [fst snd findings append app];
  solve [repeat (constructor; [cbn [error_type]; vm_compute; tauto|]); constructor].

Lemma logcat_kinds (pkg line : string) (d : ErrorDetector) (w : World H) :
  error_patterns d = _initialize_patterns pkg ->
  Forall (fun e => In (error_type e) classifier_kinds)
    (findings (fst (fst (analyze_logcat_line line d w)))).
Proof.
  intros Hrules.
  destruct (analyze_logcat_line_spec line d w) as (r & w' & Hrun & Hr).
  rewrite Hrun. cbn [fst findings]. destruct r as [errors|e]; [|constructor].
  destruct Hr as (rules & Hsub & Hall).
  assert (Hin : Forall (fun p => In (ErrorPattern.name p) classifier_kinds) rules).
  { apply Forall_forall. intros p Hp.
    assert (Hp' : p ∈ _initialize_patterns pkg).
    { rewrite <- Hrules. eapply sublist_submseteq in Hsub.
      eapply elem_of_submseteq; eassumption. }
    unfold classifier_kinds. apply in_or_app. left.
    change (map ErrorPattern.name (_initialize_patterns ""))
      with (map ErrorPattern.name (_initialize_patterns pkg)).
    apply in_map, list_elem_of_In, Hp'. }
  clear Hsub Hrun. induction Hall as [|p e rules errors (Hk & _) _ IH]; [constructor|].
  apply Forall_cons in Hin. destruct Hin as [Hp Hin].
  constructor; [rewrite Hk; exact Hp | apply IH, Hin].
Qed.

Lemma memory_kinds (memory_info : gmap string Z) (d : ErrorDetector) (w : World H) :
  Forall (fun e => In (error_type e) classifier_kinds)
    (findings (fst (fst (analyze_memory_usage memory_info d w)))).
Proof.
  unfold analyze_memory_usage.
  destruct (decide (memory_info = ∅)); [constructor|].
  unfold bind, get, modify, ret.
  destruct (500000 <? _); rewrite ?time_time_run; cbv beta iota.
  all: destruct (_last_memory_usage d) as [last_usage|]; [|kinds_tac].
  all: destruct (Qltb _ _); [|kinds_tac].
  all: unfold truediv; destruct (_ =? 0); [constructor|].
  all: rewrite time_time_run; kinds_tac.
Qed.

Lemma ui_kinds (ui_dump : string) (d : ErrorDetector) (w : World H) :
  Forall (fun e => In (error_type e) classifier_kinds)
    (findings (fst (fst (analyze_ui_dump ui_dump d w)))).
Proof.
  destruct (analyze_ui_dump_spec ui_dump d w) as (errors & w' & Hrun & Hall).
  rewrite Hrun. cbn [fst findings]. eapply Forall_impl; [exact Hall|].
  intros e (_ & _ & [-> | ->]); cbn; tauto.
Qed.

Lemma app_state_kinds (is_running : bool) (current_activity : option string)
    (d : ErrorDetector) (w : World H) :
  Forall (fun e => In (error_type e) classifier_kinds)
    (findings (fst (fst (analyze_app_state is_running current_activity d w)))).
Proof.
  unfold analyze_app_state, bind, ret.
  destruct is_running; cbn [negb]; rewrite ?time_time_run; cbv beta iota.
  all: destruct current_activity as [activity|]; [|kinds_tac].
  all: destruct (_ && _); [|kinds_tac].
  all: rewrite time_time_run; kinds_tac.
Qed.

(** X13.  For a classifier with the stock rules, whatever a log line, a
    memory sample, a UI dump or an app state makes it report, the strategy
    table of the fixer has a strategy for the kind of every reported error,
    except for the kinds [permission_error] and [resource_error], for which
    it has none. *)
Theorem findings_and_strategies (pkg : string) (d : ErrorDetector) (w : World H) :
  error_patterns d = _initialize_patterns pkg ->
  (forall line, Forall covered (findings (fst (fst (analyze_logcat_line line d w)))))
  /\ (forall memory_info,
        Forall covered (findings (fst (fst (analyze_memory_usage memory_info d w)))))
  /\ (forall ui_dump, Forall covered (findings (fst (fst (analyze_ui_dump ui_dump d w)))))
  /\ (forall is_running current_activity,
        Forall covered
          (findings (fst (fst (analyze_app_state is_running current_activity d w))))).
Proof.
  intros Hrules.
  assert (Hcov : forall errors : list DetectedError,
            Forall (fun e => In (error_type e) classifier_kinds) errors ->
            Forall covered errors).
  { intros errors Hall. eapply Forall_impl; [exact Hall|]. intros e. apply strategy_table. }
  split; [|split; [|split]].
  - intros line. apply Hcov, (logcat_kinds pkg), Hrules.
  - intros memory_info. apply Hcov, memory_kinds.
  - intros ui_dump. apply Hcov, ui_kinds.
  - intros is_running current_activity. apply Hcov, app_state_kinds.
Qed.

End StrategyTable.

(** ** A request for a kind without a strategy *)

Section NoStrategyFacts.
Context {H : Type} `{Host H}.

(** X14.  A request for a kind of error that has no strategy never
    raises and dispatches nothing: the fixer, its history and its cooldown
    table are as before, and neither a success nor a failure is counted.
    Yet, while the executor accepts work, the request is counted in
    [total_fixes_attempted] whenever the rate limit admits it; as nothing is
    appended to the history, such requests never use up the rate limit. *)
Theorem attempt_without_strategy (error : DetectedError) (m : AppMonitor H)
    (w : World H) :
  fix_strategies (auto_fixer m) !! error_type error = None ->
  executor_shutdown m = false ->
  exists m' w',
    _attempt_auto_fix error m w = (Ok tt, m', w')
    /\ auto_fixer m' = auto_fixer m
    /\ successful_fixes (stats m') = successful_fixes (stats m)
    /\ failed_fixes (stats m') = failed_fixes (stats m)
    /\ total_fixes_attempted (stats m')
       = total_fixes_attempted (stats m)
         + (if attempts_since (reading w) m <? max_fix_attempts_per_hour (config m)
            then 1 else 0)
    /\ attempts_since (reading w) m' = attempts_since (reading w) m.
Proof.
  intros Hno Hex.
  unfold _attempt_auto_fix, bind. rewrite can_attempt_fix_monitor_run.
  fold (attempts_since (reading w) m).
  destruct (attempts_since (reading w) m <? max_fix_attempts_per_hour (config m));
    cbn [negb].
  2:{ do 2 eexists. split; [reflexivity|]. repeat split. lia. }
  rewrite time_time_run.
  unfold modify, try_except, run_in_executor, bind, get, on_fixer, zoom.
  cbn [executor_shutdown set_stats auto_fixer]. rewrite Hex.
  assert (Hskip : forall w0 : World H, exists w1,
            apply_fix error (auto_fixer m) w0 = (Ok None, auto_fixer m, w1)).
  { intros w0.
    destruct (Qle_bool (fix_cooldown (auto_fixer m))
                (reading w0 - default 0%Q (last_fix_times (auto_fixer m) !! error_type error)))
      eqn:Hcd.
    - eexists. apply (apply_fix_no_strategy _ _ _ Hcd Hno).
    - eexists. apply (apply_fix_cooldown _ _ _ Hcd). }
  match goal with |- context [apply_fix error ?f ?w0] =>
    destruct (Hskip w0) as (w1 & Hrun); change f with (auto_fixer m); rewrite Hrun
  end.
  unfold ret. do 2 eexists. split; [reflexivity|].
  unfold attempts_since. cbn. repeat split.
Qed.

End NoStrategyFacts.

(** ** Strategies on a device that is out of reach *)

Section DeadFacts.
Context {H : Type} `{Host H} (P : H -> Prop) (Hd : dead_link P).

Section Steps.
Context {St : Type}.

Lemma yields_ret {A} (a : A) : yields (St := St) P a (ret a).
Proof. intros s w Hp. exists w. split; [reflexivity | exact Hp]. Qed.

Lemma yields_log (lvl : LogLevel) (msg : string) : yields (St := St) P tt (log_msg lvl msg).
Proof. intros s w Hp. exists (logged lvl msg w). split; [reflexivity | exact Hp]. Qed.

Lemma yields_sleep (d : Q) : yields (St := St) P tt (time_sleep d).
Proof.
  intros s w Hp. eexists. split; [reflexivity|]. cbn. apply (dead_sleep P Hd), Hp.
Qed.

Lemma yields_lift_host {A} (f : H -> outcome A * H) (a : A) :
  (forall h, P h -> answers_with P a (f h)) -> yields (St := St) P a (lift_host f).
Proof.
  intros Hf s w Hp. unfold lift_host. destruct (Hf (host w) Hp) as [Ha Hp'].
  destruct (f (host w)) as [r h]. cbn [fst snd] in *. subst r.
  exists (mkWorld h (logs w)). split; [reflexivity | exact Hp'].
Qed.

Lemma yields_step {A B} (c : M H St A) (k : A -> M H St B) (a : A) (b : B) :
  yields P a c -> yields P b (k a) -> yields P b (x <- c ;; k x).
Proof.
  intros Hc Hk s w Hp. unfold bind.
  destruct (Hc s w Hp) as (w1 & -> & Hp1). apply Hk, Hp1.
Qed.

Lemma yields_try {A} (body : M H St A) (handler : string -> M H St A) (a : A) :
  yields P a body -> yields P a (try_except body handler).
Proof.
  intros Hc s w Hp. unfold try_except.
  destruct (Hc s w Hp) as (w1 & -> & Hp1). exists w1. split; [reflexivity | exact Hp1].
Qed.

Lemma yields_repeat (n : nat) (body : M H St unit) :
  yields P tt body -> yields P tt (repeat_m n body).
Proof.
  intros Hb. induction n as [|n IH]; cbn [repeat_m].
  - apply yields_ret.
  - eapply yields_step; [exact Hb | exact IH].
Qed.

Lemma yields_execute_command (cmd : string) : yields (St := St) P None (execute_command cmd).
Proof. apply yields_lift_host, (dead_execute_command P Hd). Qed.

Lemma yields_is_app_running : yields (St := St) P false is_app_running.
Proof. apply yields_lift_host, (dead_is_app_running P Hd). Qed.

Lemma yields_start_app : yields (St := St) P false start_app.
Proof. apply yields_lift_host, (dead_start_app P Hd). Qed.

Lemma yields_force_stop_app : yields (St := St) P false force_stop_app.
Proof. apply yields_lift_host, (dead_force_stop_app P Hd). Qed.

Lemma yields_clear_app_data : yields (St := St) P false clear_app_data.
Proof. apply yields_lift_host, (dead_clear_app_data P Hd). Qed.

Lemma yields_send_key_event (code : Z) : yields (St := St) P false (send_key_event code).
Proof. apply yields_lift_host, (dead_send_key_event P Hd). Qed.

End Steps.

Ltac dead_op :=
  first
    [ apply yields_log | apply yields_sleep
    | apply yields_execute_command | apply yields_is_app_running | apply yields_start_app
    | apply yields_force_stop_app | apply yields_clear_app_data
    | apply yields_send_key_event ].

Ltac dead_tac :=
  repeat first
    [ apply yields_ret
    | dead_op
    | apply yields_try
    | apply yields_repeat
    | eapply yields_step; [solve [dead_tac]|]; cbn [negb] ].

Lemma dead_fix_app_crash (error : DetectedError) : yields P FAILED (_fix_app_crash error).
Proof. unfold _fix_app_crash. dead_tac. Qed.

Lemma dead_fix_anr (error : DetectedError) : yields P FAILED (_fix_anr error).
Proof. unfold _fix_anr. dead_tac. Qed.

Lemma dead_fix_memory_issue (error : DetectedError) :
  yields P FAILED (_fix_memory_issue error).
Proof. unfold _fix_memory_issue. dead_tac. Qed.

Lemma dead_fix_network_error (error : DetectedError) :
  yields P FAILED (_fix_network_error error).
Proof. unfold _fix_network_error. dead_tac. Qed.

Lemma dead_fix_webview_error (error : DetectedError) :
  yields P FAILED (_fix_webview_error error).
Proof.
  unfold _fix_webview_error.
  eapply yields_step; [apply yields_log|].
  eapply yields_step; [apply dead_fix_network_error|]. cbn [result_eqb].
  apply dead_fix_app_crash.
Qed.

Lemma dead_fix_profile_error (error : DetectedError) :
  yields P FAILED (_fix_profile_error error).
Proof. unfold _fix_profile_error. dead_tac. Qed.

Lemma dead_fix_preferences_error (error : DetectedError) :
  yields P FAILED (_fix_preferences_error error).
Proof. unfold _fix_preferences_error. dead_tac. Qed.

Lemma dead_fix_focus_error (error : DetectedError) : yields P FAILED (_fix_focus_error error).
Proof. unfold _fix_focus_error. dead_tac. Qed.

Lemma dead_fix_lifecycle_error (error : DetectedError) :
  yields P FAILED (_fix_lifecycle_error error).
Proof.
  unfold _fix_lifecycle_error.
  eapply yields_step; [apply yields_log | apply dead_fix_app_crash].
Qed.

Lemma dead_fix_app_not_running (error : DetectedError) :
  yields P FAILED (_fix_app_not_running error).
Proof. unfold _fix_app_not_running. dead_tac. Qed.

Lemma dead_fix_high_memory_usage (error : DetectedError) :
  yields P FAILED (_fix_high_memory_usage error).
Proof.
  unfold _fix_high_memory_usage.
  eapply yields_step; [apply yields_log|].
  eapply yields_step; [apply yields_is_app_running|].
  eapply yields_step; [apply yields_ret|]. apply dead_fix_memory_issue.
Qed.

Lemma dead_fix_memory_leak (error : DetectedError) :
  yields P FAILED (_fix_memory_leak error).
Proof.
  unfold _fix_memory_leak.
  eapply yields_step; [apply yields_log | apply dead_fix_memory_issue].
Qed.

Lemma dead_fix_missing_ui_element (error : DetectedError) :
  yields P FAILED (_fix_missing_ui_element error).
Proof. unfold _fix_missing_ui_element. cbn zeta. dead_tac. Qed.

Lemma dead_fix_no_focus (error : DetectedError) : yields P FAILED (_fix_no_focus error).
Proof. unfold _fix_no_focus. dead_tac. Qed.

Lemma dead_fix_unexpected_activity (error : DetectedError) :
  yields P PARTIAL (_fix_unexpected_activity error).
Proof. unfold _fix_unexpected_activity. dead_tac. Qed.

Lemma strategies_dead (kind : string) (fix_strategy : Strategy H) (error : DetectedError) :
  _initialize_fix_strategies !! kind = Some fix_strategy ->
  yields P (out_of_reach_result kind) (fix_strategy error).
Proof.
  intros Hl. apply elem_of_list_to_map_2 in Hl.
  repeat (apply elem_of_cons in Hl; destruct Hl as [[= -> ->]|Hl];
          [first [ apply dead_fix_app_crash | apply dead_fix_anr
                 | apply dead_fix_memory_issue | apply dead_fix_network_error
                 | apply dead_fix_webview_error | apply dead_fix_profile_error
                 | apply dead_fix_preferences_error | apply dead_fix_focus_error
                 | apply dead_fix_lifecycle_error | apply dead_fix_app_not_running
                 | apply dead_fix_high_memory_usage | apply dead_fix_memory_leak
                 | apply dead_fix_missing_ui_element | apply dead_fix_no_focus
                 | apply dead_fix_unexpected_activity ]|]).
  apply elem_of_nil in Hl. contradiction.
Qed.

(** X15.  While the device is out of reach (every operation of the link
    answers [False], or [None] for a command) no strategy of the table
    raises and none reports success: a dispatched attempt is recorded as
    [failed], except for the kind [unexpected_activity], whose strategy
    ignores the answers to its key events and is recorded as [partial]. *)
Theorem out_of_reach_no_success (error : DetectedError) (f : AutoFixer H) (w : World H) :
  fix_strategies f = _initialize_fix_strategies ->
  P (host w) ->
  exists r f' w',
    apply_fix error f w = (Ok r, f', w')
    /\ P (host w')
    /\ match r with
       | None => f' = f
       | Some a =>
           FixAction.result a = out_of_reach_result (error_type error)
           /\ FixAction.result a <> SUCCESS
           /\ fix_history f' = append (fix_history f) a
       end.
Proof.
  intros Hf Hp.
  assert (Hp1 : P (host (after_reading w))) by (apply (dead_time P Hd), Hp).
  destruct (Qle_bool (fix_cooldown f)
              (reading w - default 0%Q (last_fix_times f !! error_type error))) eqn:Hcd.
  2:{ do 3 eexists. split; [apply (apply_fix_cooldown _ _ _ Hcd)|].
      split; [exact Hp1 | reflexivity]. }
  destruct (fix_strategies f !! error_type error) as [fix_strategy|] eqn:Hst.
  2:{ do 3 eexists. split; [apply (apply_fix_no_strategy _ _ _ Hcd Hst)|].
      split; [exact Hp1 | reflexivity]. }
  assert (Hdead : yields P (out_of_reach_result (error_type error)) (fix_strategy error)).
  { apply strategies_dead. rewrite <- Hf. exact Hst. }
  destruct (Hdead tt (after_reading (dispatch_world error w))) as (w1 & Hrun & Hp2).
  { apply (dead_time P Hd). exact Hp1. }
  do 3 eexists. split; [apply (apply_fix_returns _ _ _ _ _ _ Hcd Hst Hrun)|].
  split; [apply (dead_time P Hd), Hp2|]. cbn.
  split; [reflexivity|]. split; [|reflexivity].
  unfold out_of_reach_result. destruct (String.eqb _ _); discriminate.
Qed.

End DeadFacts.

(** ** The UI analysis without a configuration *)

Section DefaultUiFacts.
Context {H : Type} `{Host H}.

(** X23.  Without a [ui_monitoring] configuration no element is expected
    in any state, so the UI analysis never reports a missing element: its
    only finding is [no_focused_element], reported exactly for a dump that
    is not empty and has no focused element. *)
Theorem analyze_ui_dump_default (ui_dump : string) (d : ErrorDetector) (w : World H) :
  ui_config d = default_ui_config ->
  analyze_ui_dump ui_dump d w =
    if PyStr.truthy ui_dump && negb (PyStr.contains focused_true ui_dump)
    then (Ok [no_focus_finding (_detect_app_state ui_dump) (reading w)], d, after_reading w)
    else (Ok [], d, w).
Proof.
  intros Hcfg. unfold analyze_ui_dump.
  destruct (PyStr.truthy ui_dump); cbn [negb andb]; [|reflexivity].
  unfold bind, get. rewrite Hcfg.
  assert (Hexp : _get_expected_elements_for_state default_ui_config
                   (_detect_app_state ui_dump) ui_dump = []).
  { unfold _get_expected_elements_for_state.
    cbn [state_aware_checking default_ui_config negb expected_elements_by_state
         ignore_missing_elements_in_states strict_element_checking PyStr.mem existsb].
    rewrite lookup_empty. reflexivity. }
  rewrite Hexp. cbn [scan_elements]. unfold ret.
  cbn [focus_monitoring_enabled focus_monitoring_ignore_in_states default_ui_config
       PyStr.mem existsb negb andb].
  destruct (PyStr.contains focused_true ui_dump); cbn [negb]; [reflexivity|].
  rewrite time_time_run. reflexivity.
Qed.

End DefaultUiFacts.

(** ** Auto-fix disabled *)

Section PassiveFacts.
Context {H : Type} `{Host H}.

Lemma passive_here (m : AppMonitor H) : config m = config m /\ no_remediation m m.
Proof. split; [reflexivity | apply no_remediation_refl]. Qed.

Lemma passive_ret {A} (a : A) : passive (H := H) (ret a).
Proof. intros m w _. apply passive_here. Qed.

Lemma passive_log (lvl : LogLevel) (msg : string) : passive (H := H) (log_msg lvl msg).
Proof. intros m w _. apply passive_here. Qed.

Lemma passive_lift_host {A} (f : H -> outcome A * H) : passive (lift_host f).
Proof. intros m w _. unfold lift_host. destruct (f (host w)). apply passive_here. Qed.

Lemma passive_step {A B} (c : M H (AppMonitor H) A) (k : A -> M H (AppMonitor H) B) :
  passive c -> (forall a, passive (k a)) -> passive (a <- c ;; k a).
Proof.
  intros Hc Hk m w Hoff. specialize (Hc m w Hoff). unfold bind.
  destruct (c m w) as [[[a|e] m1] w1]; cbn [fst snd] in *; [|exact Hc].
  destruct Hc as [Hcfg Hn].
  destruct (Hk a m1 w1) as [Hcfg' Hn']; [rewrite Hcfg; exact Hoff|].
  split; [congruence | exact (no_remediation_trans _ _ _ Hn Hn')].
Qed.

Lemma passive_try {A} (body : M H (AppMonitor H) A)
    (handler : string -> M H (AppMonitor H) A) :
  passive body -> (forall e, passive (handler e)) -> passive (try_except body handler).
Proof.
  intros Hc Hk m w Hoff. specialize (Hc m w Hoff). unfold try_except.
  destruct (body m w) as [[[a|e] m1] w1]; cbn [fst snd] in *; [exact Hc|].
  destruct Hc as [Hcfg Hn].
  destruct (Hk e m1 w1) as [Hcfg' Hn']; [rewrite Hcfg; exact Hoff|].
  split; [congruence | exact (no_remediation_trans _ _ _ Hn Hn')].
Qed.

Lemma passive_run_in_executor {A} (f : M H (AppMonitor H) A) :
  passive f -> passive (run_in_executor f).
Proof.
  intros Hf m w Hoff. unfold run_in_executor, bind, get.
  destruct (executor_shutdown m); [apply passive_here | apply Hf, Hoff].
Qed.

Lemma passive_on_detector {A} (c : M H ErrorDetector A) : passive (on_detector c).
Proof.
  intros m w _. unfold on_detector, zoom.
  destruct (c (error_detector m) w) as [[r d] w1]. cbn [fst snd].
  split; [reflexivity | unfold no_remediation; cbn; repeat split].
Qed.

Lemma passive_handle_all (errors : list DetectedError) :
  passive (H := H) (handle_all errors).
Proof.
  induction errors as [|e errors IH]; cbn [handle_all]; [apply passive_ret|].
  apply passive_step; [|intros _; exact IH].
  intros m w Hoff. rewrite handle_detected_error_run, Hoff. cbn [fst snd].
  split; [reflexivity | unfold no_remediation; cbn; repeat split].
Qed.

Lemma passive_process_logcat_line (line : string) :
  passive (H := H) (_process_logcat_line line).
Proof.
  intros m w Hoff. rewrite process_logcat_line_run. cbn zeta.
  destruct (analyze_logcat_line line (error_detector m) (after_reading w))
    as [[[errors|e] d1] w1].
  - destruct (passive_handle_all errors
                (set_logcat_buffer (buffer_after m (reading w) line) m) w1 Hoff)
      as [Hcfg Hn].
    split; [exact Hcfg|]. refine (no_remediation_trans _ _ _ _ Hn).
    unfold no_remediation. cbn. repeat split.
  - cbn [fst snd]. split; [reflexivity | unfold no_remediation; cbn; repeat split].
Qed.

End PassiveFacts.

Section PassiveHealthCheck.
Context {H : Type} `{Host H} `{Probes H}.

Lemma passive_health_check : passive _perform_health_check.
Proof.
  unfold _perform_health_check, get_current_activity, get_app_memory_usage,
    get_screen_dump, is_connected, connect, is_app_running.
  apply passive_try; [|intros e; apply passive_log].
  apply passive_step; [apply passive_run_in_executor, passive_lift_host|].
  intros connected. apply passive_step.
  { destruct connected; cbn [negb]; [apply passive_ret|].
    apply passive_step; [apply passive_log|]. intros _.
    apply passive_step; [apply passive_run_in_executor, passive_lift_host|].
    intros reconnected. destruct reconnected; cbn [negb]; [apply passive_ret|].
    apply passive_step; [apply passive_log | intros _; apply passive_ret]. }
  intros proceed. destruct proceed; cbn [negb]; [|apply passive_ret].
  apply passive_step; [apply passive_run_in_executor, passive_lift_host|].
  intros app_running.
  apply passive_step; [apply passive_run_in_executor, passive_lift_host|].
  intros current_activity.
  apply passive_step; [apply passive_on_detector|]. intros app_errors.
  apply passive_step; [apply passive_handle_all|]. intros _.
  apply passive_step; [apply passive_run_in_executor, passive_lift_host|].
  intros memory_info. apply passive_step.
  { destruct memory_info as [memory_info|]; [|apply passive_ret].
    destruct (decide (memory_info = ∅)); [apply passive_ret|].
    apply passive_step; [apply passive_on_detector|]. intros memory_errors.
    apply passive_handle_all. }
  intros _.
  apply passive_step; [apply passive_run_in_executor, passive_lift_host|].
  intros ui_dump. destruct ui_dump as [ui_dump|]; [|apply passive_ret].
  destruct (PyStr.truthy ui_dump); [|apply passive_ret].
  apply passive_step; [apply passive_on_detector|]. intros ui_errors.
  apply passive_handle_all.
Qed.

(** X24.  With [enable_auto_fix] set to false the daemon only observes:
    whatever a log line or a health check finds, and of whatever severity,
    the fixer, its history and its cooldown table and every fix statistic
    are left as they were, and the configuration is kept, so the same holds
    for every later line and check. *)
Theorem auto_fix_disabled_observes_only (m : AppMonitor H) (w : World H) :
  enable_auto_fix (config m) = false ->
  (forall line,
     let m' := snd (fst (_process_logcat_line line m w)) in
     no_remediation m m' /\ enable_auto_fix (config m') = false)
  /\ (let m' := snd (fst (_perform_health_check m w)) in
      no_remediation m m' /\ enable_auto_fix (config m') = false).
Proof.
  intros Hoff. split.
  - intros line. cbn zeta.
    destruct (passive_process_logcat_line line m w Hoff) as [Hcfg Hn].
    split; [exact Hn | rewrite Hcfg; exact Hoff].
  - cbn zeta. destruct (passive_health_check m w Hoff) as [Hcfg Hn].
    split; [exact Hn | rewrite Hcfg; exact Hoff].
Qed.

End PassiveHealthCheck.

(** * Properties of the device link *)

(** ** Text *)

Lemma str_app_assoc (a b c : string) : (a ++ b) ++ c = a ++ (b ++ c).
Proof. induction a as [|x a IH]; [reflexivity|]. rewrite !append_cons, IH. reflexivity. Qed.














(** ** The device list *)










Section DeviceListFacts.
Context {S : Type} `{ADB.Subprocess S}.

Lemma run_run (cmd : list string) (timeout : Z) (adb : ADB.ADBManager) (w : World S) :
  ADB.run cmd timeout adb w = (Ok (ran cmd timeout w), adb, after_run cmd timeout w).
Proof.
  unfold ADB.run, ran, after_run. destruct (ADB.subprocess_run cmd timeout (host w)).
  reflexivity.
Qed.


End DeviceListFacts.

(** ** Connecting *)

Lemma substring_part (a b h : string) : Substring (a ++ b) h -> Substring b h.
Proof.
  intros (pre & post & ->). exists (pre ++ a), post. rewrite !str_app_assoc. reflexivity.
Qed.

Section ConnectFacts.
Context {S : Type} `{ADB.Subprocess S}.

(** X18.  [connect] never raises and adds one log record.  It answers
    [True] exactly when the [adb connect] run completes with return code 0
    and its output, lower-cased, contains [connected]; the record is then
    the one of a successful connection, so the branch for an output with
    [already connected] is never taken.  In every other case the record is
    an error record. *)
Theorem connect_answer (adb : ADB.ADBManager) (w : World S) :
  let cmd := ["adb"; "connect"; ADB.device_id adb] in
  exists b record,
    ADB.connect adb w = (Ok b, adb, logged (fst record) (snd record) (after_run cmd 10 w))
    /\ (b = true <->
        exists stdout stderr,
          ran cmd 10 w = ADB.Completed 0 stdout stderr
          /\ Substring "connected" (PyStr.lower stdout))
    /\ (b = true ->
        record = (INFO, "Successfully connected to " ++ ADB.device_id adb))
    /\ (b = false -> fst record = ERROR).
Proof.
  cbn zeta. unfold ADB.connect, bind, get. rewrite run_run.
  destruct (ran ["adb"; "connect"; ADB.device_id adb] 10 w)
    as [returncode stdout stderr|e|e] eqn:Hran.
  - destruct (Z.eqb_spec returncode 0) as [->|Hrc].
    + destruct (PyStr.contains "connected" (PyStr.lower stdout)) eqn:Hc.
      * exists true, (INFO, "Successfully connected to " ++ ADB.device_id adb).
        split; [reflexivity|]. split; [|split; [reflexivity | discriminate]].
        split; [|reflexivity]. intros _. exists stdout, stderr.
        split; [reflexivity | apply contains_spec, Hc].
      * assert (Ha : PyStr.contains "already connected" (PyStr.lower stdout) = false).
        { apply contains_false. intros Hsub.
          apply (substring_part "already " "connected"), contains_spec in Hsub. congruence. }
        rewrite Ha.
        exists false, (ERROR, "Failed to connect to " ++ ADB.device_id adb ++ ": " ++ stderr).
        split; [reflexivity|]. split; [|split; [discriminate | reflexivity]].
        split; [discriminate|]. intros (out & err & [= -> _] & Hsub).
        apply contains_spec in Hsub. congruence.
    + exists false, (ERROR, "Failed to connect to " ++ ADB.device_id adb ++ ": " ++ stderr).
      split; [reflexivity|]. split; [|split; [discriminate | reflexivity]].
      split; [discriminate|]. intros (out & err & [= Hz _ _] & _). contradiction.
  - exists false, (ERROR, "Connection timeout to " ++ ADB.device_id adb).
    split; [reflexivity|]. split; [|split; [discriminate | reflexivity]].
    split; [discriminate|]. intros (out & err & [=] & _).
  - exists false, (ERROR, "Connection error: " ++ e).
    split; [reflexivity|]. split; [|split; [discriminate | reflexivity]].
    split; [discriminate|]. intros (out & err & [=] & _).
Qed.

End ConnectFacts.

(** ** A device that is out of reach *)

Section ReachFacts.
Context {S : Type} `{ADB.Subprocess S}.

Lemma is_connected_not_listed (adb : ADB.ADBManager) (w : World S) :
  not_listed (ADB.device_id adb) (ran ["adb"; "devices"] 5 w) ->
  exists records,
    ADB.is_connected adb w
    = (Ok false, adb,
       mkWorld (host (after_run ["adb"; "devices"] 5 w)) (logs w ++ records)%list).
Proof.
  intros Hno. unfold ADB.is_connected, ADB.get_connected_devices, try_except, bind.
  rewrite run_run. unfold not_listed in Hno.
  destruct (ran ["adb"; "devices"] 5 w) as [returncode stdout stderr|e|e].
  - unfold ret, get. rewrite Hno. exists []. rewrite app_nil_r. reflexivity.
  - unfold ret, get, log_msg, logged. eexists. reflexivity.
  - unfold ret, get, log_msg, logged. eexists. reflexivity.
Qed.

Lemma connect_not_connected (adb : ADB.ADBManager) (w : World S) :
  not_connected (ran ["adb"; "connect"; ADB.device_id adb] 10 w) ->
  exists record,
    ADB.connect adb w
    = (Ok false, adb,
       mkWorld (host (after_run ["adb"; "connect"; ADB.device_id adb] 10 w))
         (logs w ++ [record])%list).
Proof.
  intros Hno. unfold ADB.connect, bind, get. rewrite run_run. unfold not_connected in Hno.
  destruct (ran ["adb"; "connect"; ADB.device_id adb] 10 w) as [returncode stdout stderr|e|e].
  - assert (Hc : (if returncode =? 0
                  then PyStr.contains "connected" (PyStr.lower stdout) else false) = false).
    { destruct (Z.eqb_spec returncode 0); [|reflexivity].
      destruct Hno as [Hrc|Hc]; [contradiction | exact Hc]. }
    destruct (returncode =? 0).
    + rewrite Hc.
      assert (Ha : PyStr.contains "already connected" (PyStr.lower stdout) = false).
      { apply contains_false. intros Hsub.
        apply (substring_part "already " "connected"), contains_spec in Hsub. congruence. }
      rewrite Ha. eexists. reflexivity.
    + eexists. reflexivity.
  - eexists. reflexivity.
  - eexists. reflexivity.
Qed.

Lemma execute_command_unanswered (adb : ADB.ADBManager) (P : S -> Prop) (w : World S)
    (command : string) (timeout : Z) :
  out_of_reach adb P -> P (host w) ->
  unanswered adb w None (ADB.execute_command command timeout).
Proof.
  intros Hout Hp. unfold unanswered, ADB.execute_command, bind.
  destruct (is_connected_not_listed adb w) as (records & ->).
  { apply (reach_devices adb P Hout), Hp. }
  cbn [negb].
  match goal with |- context [ADB.connect adb ?w1] =>
    destruct (connect_not_connected adb w1) as (record & ->)
  end.
  { apply (reach_connect adb P Hout). cbn. apply (reach_closed adb P Hout), Hp. }
  cbn [negb]. unfold ret. exists (records ++ [record])%list.
  rewrite app_assoc. reflexivity.
Qed.

(** X19.  While the device is out of reach (it is not listed by
    [adb devices] and [adb connect] does not connect to it) no operation of
    [ADBManager] runs its command: after one [adb devices] and one
    [adb connect] run each operation gives up and answers [None]
    ([execute_command], [get_screen_dump], [get_app_memory_usage]) or
    [False] (the others), without raising. *)
Theorem out_of_reach_operations (adb : ADB.ADBManager) (P : S -> Prop) (w : World S) :
  out_of_reach adb P -> P (host w) ->
  (forall command timeout, unanswered adb w None (ADB.execute_command command timeout))
  /\ unanswered adb w None ADB.get_screen_dump
  /\ unanswered adb w None ADB.get_app_memory_usage
  /\ unanswered adb w false ADB.is_app_installed
  /\ unanswered adb w false ADB.is_app_running
  /\ unanswered adb w false ADB.start_app
  /\ unanswered adb w false ADB.force_stop_app
  /\ unanswered adb w false ADB.clear_app_data
  /\ (forall key_code, unanswered adb w false (ADB.send_key_event key_code))
  /\ (forall x y, unanswered adb w false (ADB.send_tap x y)).
Proof.
  intros Hout Hp.
  assert (Hex : forall command timeout,
            unanswered adb w None (ADB.execute_command command timeout)).
  { intros command timeout. apply (execute_command_unanswered adb P); assumption. }
  split; [exact Hex|].
  repeat split; try intros key_code; try intros y;
    unfold unanswered, ADB.get_screen_dump, ADB.get_app_memory_usage, ADB.is_app_installed,
      ADB.is_app_running, ADB.start_app, ADB.force_stop_app, ADB.clear_app_data,
      ADB.send_key_event, ADB.send_tap, try_except, bind, get;
    match goal with |- context [ADB.execute_command ?c ?t adb w] =>
      destruct (Hex c t) as (records & ->)
    end;
    exists records; reflexivity.
Qed.

End ReachFacts.

(** ** No operation of the link raises *)

Section ReturnsSteps.
Context {H St : Type}.

Lemma returns_ret {A} (a : A) : returns (H := H) (St := St) (ret a).
Proof. intros s w. exists a, w. reflexivity. Qed.

Lemma returns_get : returns (H := H) (St := St) get.
Proof. intros s w. exists s, w. reflexivity. Qed.

Lemma returns_log (lvl : LogLevel) (msg : string) :
  returns (H := H) (St := St) (log_msg lvl msg).
Proof. intros s w. exists tt, (logged lvl msg w). reflexivity. Qed.

Lemma returns_step {A B} (c : M H St A) (k : A -> M H St B) :
  returns c -> (forall a, returns (k a)) -> returns (a <- c ;; k a).
Proof.
  intros Hc Hk s w. unfold bind. destruct (Hc s w) as (a & w1 & ->). apply Hk.
Qed.

Lemma returns_try {A} (body : M H St A) (handler : string -> M H St A) :
  returns body -> returns (try_except body handler).
Proof.
  intros Hc s w. unfold try_except. destruct (Hc s w) as (a & w1 & ->).
  exists a, w1. reflexivity.
Qed.

End ReturnsSteps.

Section ReturnsFacts.
Context {S : Type} `{ADB.Subprocess S}.

Lemma returns_run (cmd : list string) (timeout : Z) : returns (ADB.run cmd timeout).
Proof. intros adb w. rewrite run_run. do 2 eexists. reflexivity. Qed.

Ltac returns_tac :=
  repeat first
    [ apply returns_ret | apply returns_get | apply returns_log | apply returns_run
    | apply returns_try
    | apply returns_step; [|intros ?]
    | match goal with
      | |- returns (match ?x with _ => _ end) => destruct x
      end ].

Lemma returns_connect : returns ADB.connect.
Proof. unfold ADB.connect. returns_tac. Qed.

Lemma returns_disconnect : returns ADB.disconnect.
Proof. unfold ADB.disconnect. returns_tac. Qed.

Lemma returns_get_connected_devices : returns ADB.get_connected_devices.
Proof. unfold ADB.get_connected_devices. returns_tac. Qed.

Lemma returns_is_connected : returns ADB.is_connected.
Proof.
  unfold ADB.is_connected. apply returns_try.
  apply returns_step; [apply returns_get_connected_devices|]. intros devices. returns_tac.
Qed.

Lemma returns_execute_command (command : string) (timeout : Z) :
  returns (ADB.execute_command command timeout).
Proof.
  unfold ADB.execute_command.
  apply returns_step; [apply returns_is_connected|]. intros connected.
  apply returns_step; [destruct connected; [apply returns_ret | apply returns_connect]|].
  intros reachable. returns_tac.
Qed.

Lemma returns_ensure_connection : returns ADB.ensure_connection.
Proof.
  unfold ADB.ensure_connection.
  apply returns_step; [apply returns_is_connected|]. intros connected.
  destruct connected; [apply returns_ret|].
  apply returns_step; [apply returns_log | intros _; apply returns_connect].
Qed.

Ltac returns_op :=
  apply returns_try;
  repeat first
    [ apply returns_ret | apply returns_get | apply returns_execute_command
    | apply returns_step; [|intros ?]
    | match goal with
      | |- returns (match ?x with _ => _ end) => destruct x
      end ].

Lemma returns_is_app_installed : returns ADB.is_app_installed.
Proof. unfold ADB.is_app_installed. returns_op. Qed.

Lemma returns_is_app_running : returns ADB.is_app_running.
Proof. unfold ADB.is_app_running. returns_op. Qed.

Lemma returns_start_app : returns ADB.start_app.
Proof. unfold ADB.start_app. cbn zeta. returns_op. Qed.

Lemma returns_force_stop_app : returns ADB.force_stop_app.
Proof. unfold ADB.force_stop_app. returns_op. Qed.

Lemma returns_clear_app_data : returns ADB.clear_app_data.
Proof. unfold ADB.clear_app_data. returns_op. Qed.

Lemma returns_send_key_event (key_code : Z) : returns (ADB.send_key_event key_code).
Proof. unfold ADB.send_key_event. returns_op. Qed.

End ReturnsFacts.

Section LinkFacts.
Context {S : Type} `{Machine S} (adb : ADB.ADBManager).

Lemma call_answers {A} (method : M S ADB.ADBManager A) (h : World S) :
  returns method -> answers (fun _ => True) (call adb method h).
Proof.
  intros Hr. unfold answers, call. destruct (Hr adb h) as (a & h' & ->).
  split; [exists a; reflexivity | exact I].
Qed.

(** The device link of the daemon answers every operation: the methods of
    [ADBManager] catch their own exceptions. *)
Lemma adb_link_quiet : quiet_link (H0 := adb_link adb) (fun _ => True).
Proof.
  split; try (intros; exact I); intros; apply call_answers.
  - apply returns_execute_command.
  - apply returns_is_app_running.
  - apply returns_start_app.
  - apply returns_force_stop_app.
  - apply returns_clear_app_data.
  - apply returns_send_key_event.
Qed.

End LinkFacts.

(** ** Device information *)










Section DeviceInfoFacts.
Context {S : Type} `{ADB.Subprocess S}.


End DeviceInfoFacts.

(** ** Memory usage *)



Section MemoryUsageFacts.
Context {S : Type} `{ADB.Subprocess S}.


End MemoryUsageFacts.

(** The summary line of current devices has the label as its second word,
    so no total is read from it. *)
Example summary_line_gives_no_total :
  PyStr.contains "TOTAL" summary_line = true
  /\ PyStr.contains "PSS" summary_line = true
  /\ ADB.collect_memory [summary_line] ∅ !! "total_pss_kb" = None.
Proof. vm_compute. repeat split. Qed.

Section SampleWithoutTotal.
Context {H : Type} `{Host H}.

(** X22.  A memory sample without a total (only heap counters were read)
    is analysed as a total of 0: after a previous sample that is absent, or
    not negative and at most 2^51 (the range where the float arithmetic of
    the leak test is exact), no error is reported, no clock reading is
    taken, and 0 is stored as the previous sample. *)
Theorem sample_without_total (memory_info : gmap string Z) (d : ErrorDetector)
    (w : World H) :
  memory_info <> ∅ ->
  memory_info !! "total_pss_kb" = None ->
  match _last_memory_usage d with
  | Some last_usage => 0 <= last_usage /\ float_exact last_usage
  | None => True
  end ->
  analyze_memory_usage memory_info d w = (Ok [], set_last_memory_usage 0 d, w).
Proof.
  intros Hne Hno Hlast. unfold analyze_memory_usage.
  destruct (decide (memory_info = ∅)) as [->|_]; [contradiction|].
  rewrite Hno. cbn [default]. unfold bind, ret, get, modify.
  replace (500000 <? 0) with false by reflexivity.
  destruct (_last_memory_usage d) as [last_usage|]; [|reflexivity].
  rewrite leak_test_spec.
  destruct Hlast as [Hlast _].
  replace (3 * last_usage <? 2 * 0) with false by (symmetry; apply Z.ltb_ge; lia).
  reflexivity.
Qed.

End SampleWithoutTotal.

(** ** When the classifier of log lines raises *)




Section RaisingLines.
Context {H : Type} `{Host H}.



End RaisingLines.

(** ** The start-up of the device link *)

Section Stepping.
Context {H St : Type}.

Lemma bind_returned {A B} (c : M H St A) (k : A -> M H St B) (s s' : St)
    (w w' : World H) (a : A) :
  c s w = (Ok a, s', w') -> bind c k s w = k a s' w'.
Proof. intros Hc. unfold bind. rewrite Hc. reflexivity. Qed.

Lemma bind_raised {A B} (c : M H St A) (k : A -> M H St B) (s s' : St)
    (w w' : World H) (e : string) :
  c s w = (Raise e, s', w') -> bind c k s w = (Raise e, s', w').
Proof. intros Hc. unfold bind. rewrite Hc. reflexivity. Qed.

Lemma lift_host_run {A} (f : H -> outcome A * H) (s : St) (w : World H)
    (r : outcome A) (h : H) :
  f (host w) = (r, h) -> lift_host f s w = (r, s, mkWorld h (logs w)).
Proof. intros Hf. unfold lift_host. rewrite Hf. reflexivity. Qed.

End Stepping.

Section StartupFacts.
Context {H : Type} `{Host H} `{Setup H}.

Lemma submitted {A} (f : H -> outcome A * H) (m : AppMonitor H) (w : World H)
    (r : outcome A) (h : H) :
  executor_shutdown m = false ->
  f (host w) = (r, h) ->
  run_in_executor (lift_host f) m w = (r, m, mkWorld h (logs w)).
Proof.
  intros Hopen Hf. unfold run_in_executor, bind, get. rewrite Hopen.
  apply lift_host_run, Hf.
Qed.

(** Once the executor is shut down the first submission raises, which the
    start-up logs and answers with [False]; the device is not asked. *)
Lemma initialize_connection_shut_down (m : AppMonitor H) (w : World H) :
  executor_shutdown m = true ->
  _initialize_connection m w
  = (Ok false, m,
     logged ERROR
       "Connection initialization error: cannot schedule new futures after shutdown" w).
Proof.
  intros Hshut.
  cbv [_initialize_connection try_except bind run_in_executor get raise].
  rewrite Hshut. reflexivity.
Qed.

(** X26: [_initialize_connection] never raises and leaves the monitor as it
    was.  It answers [True] only when the executor accepts work and the
    device answered [True] to [connect], returned from [get_device_info] and
    answered [True] to [is_app_installed], in this order; and when [connect]
    answers [False] or raises, it answers [False] at once: the device is
    left as [connect] left it, so neither the device information nor the
    installation is asked for. *)
Theorem initialize_connection_outcome (m : AppMonitor H) (w : World H) :
  exists b w',
    _initialize_connection m w = (Ok b, m, w')
    /\ (b = true ->
        executor_shutdown m = false
        /\ exists h1 device_info h2 h3,
             adb_connect (host w) = (Ok true, h1)
             /\ adb_device_info h1 = (Ok device_info, h2)
             /\ adb_is_app_installed h2 = (Ok true, h3)
             /\ host w' = h3)
    /\ (forall r h1,
          executor_shutdown m = false ->
          adb_connect (host w) = (r, h1) ->
          r <> Ok true ->
          b = false /\ host w' = h1).
Proof.
  destruct (executor_shutdown m) eqn:Hshut.
  { rewrite (initialize_connection_shut_down m w Hshut).
    do 2 eexists. split; [reflexivity|]. split; [discriminate|].
    intros r h1 Hno. discriminate. }
  unfold _initialize_connection, try_except, connect, get_device_info', is_app_installed.
  destruct (adb_connect (host w)) as [connected h1] eqn:Hc.
  pose proof (submitted adb_connect m w _ _ Hshut Hc) as Hrun1.
  destruct connected as [[|]|e].
  2: { rewrite (bind_returned _ _ _ _ _ _ _ Hrun1). cbn [negb]. unfold ret.
       do 2 eexists. split; [reflexivity|]. split; [discriminate|].
       intros r h0 _ [= <- <-] _. split; reflexivity. }
  2: { rewrite (bind_raised _ _ _ _ _ _ _ Hrun1). unfold bind, log_msg, ret.
       do 2 eexists. split; [reflexivity|]. split; [discriminate|].
       intros r h0 _ [= <- <-] _. split; reflexivity. }
  rewrite (bind_returned _ _ _ _ _ _ _ Hrun1). cbn [negb].
  set (w1 := mkWorld h1 (logs w)).
  destruct (adb_device_info h1) as [device_info h2] eqn:Hd.
  pose proof (submitted adb_device_info m w1 _ _ Hshut Hd) as Hrun2.
  destruct device_info as [device_info|e].
  2: { rewrite (bind_raised _ _ _ _ _ _ _ Hrun2). unfold bind, log_msg, ret.
       do 2 eexists. split; [reflexivity|]. split; [discriminate|].
       intros r h0 _ [= <- <-] Hne. congruence. }
  rewrite (bind_returned _ _ _ _ _ _ _ Hrun2).
  match goal with
  | |- context [bind ?c _ m ?w2] =>
      assert (Hlog : exists w3, c m w2 = (Ok tt, m, w3) /\ host w3 = h2)
        by (destruct device_info; eexists; split; reflexivity)
  end.
  destruct Hlog as (w3 & Hrun3 & Hhost3).
  rewrite (bind_returned _ _ _ _ _ _ _ Hrun3).
  destruct (adb_is_app_installed h2) as [installed h3] eqn:Hi.
  rewrite <- Hhost3 in Hi.
  pose proof (submitted adb_is_app_installed m w3 _ _ Hshut Hi) as Hrun4.
  rewrite Hhost3 in Hi.
  destruct installed as [[|]|e].
  - rewrite (bind_returned _ _ _ _ _ _ _ Hrun4). cbn [negb]. unfold ret.
    do 2 eexists. split; [reflexivity|]. split.
    + intros _. split; [reflexivity|].
      exists h1, device_info, h2, h3. repeat split; assumption.
    + intros r h0 _ [= <- <-] Hne. congruence.
  - rewrite (bind_returned _ _ _ _ _ _ _ Hrun4). cbn [negb]. unfold bind, log_msg, ret.
    do 2 eexists. split; [reflexivity|]. split; [discriminate|].
    intros r h0 _ [= <- <-] Hne. congruence.
  - rewrite (bind_raised _ _ _ _ _ _ _ Hrun4). unfold bind, log_msg, ret.
    do 2 eexists. split; [reflexivity|]. split; [discriminate|].
    intros r h0 _ [= <- <-] Hne. congruence.
Qed.

(** X27: a monitor that was cleaned up cannot be started again.  [_cleanup]
    always returns with the executor shut down, and from then on
    [_initialize_connection] answers [False] whatever the device would
    answer: the submission of [connect] is refused, the refusal is logged
    and the device is not contacted. *)
Theorem no_restart_after_cleanup (m : AppMonitor H) (w : World H) :
  exists m1 w1,
    _cleanup m w = (Ok tt, m1, w1)
    /\ _initialize_connection m1 w1
       = (Ok false, m1,
          logged ERROR
            "Connection initialization error: cannot schedule new futures after shutdown"
            w1).
Proof.
  destruct (cleanup_keeps_status m w) as (m1 & w1 & Hrun & _ & Hshut).
  exists m1, w1. split; [exact Hrun|].
  apply initialize_connection_shut_down, Hshut.
Qed.

End StartupFacts.

(** * The further properties at concrete inputs *)

Lemma process_logcat_line_buffer_witness :
  let m := new_monitor (H := Sim.t) default_config 900 in
  let w := Sim.world_at 1000 in
  let m' := snd (fst (_process_logcat_line anr_line m w)) in
  Z.of_nat (length (logcat_buffer m')) <= max_buffer_size m
  /\ last (logcat_buffer m') = Some (reading w, anr_line)
  /\ max_buffer_size m' = max_buffer_size m
  /\ exists dropped,
       (logcat_buffer m ++ [(reading w, anr_line)] = dropped ++ logcat_buffer m')%list.
Proof.
  apply (process_logcat_line_buffer anr_line (new_monitor default_config 900)
           (Sim.world_at 1000)).
  reflexivity.
Defined.

Lemma low_severity_never_remediated_witness :
  exists m' w',
    _handle_detected_error (H := Sim.t) unexpected_activity_error
      (new_monitor default_config 900) (Sim.world_at 1000) = (Ok tt, m', w')
    /\ no_remediation (new_monitor default_config 900) m'
    /\ host w' = host (Sim.world_at 1000)
    /\ total_errors_detected (stats m')
       = total_errors_detected (stats (new_monitor (H := Sim.t) default_config 900)) + 1
    /\ last_error_time (stats m') = Some (timestamp unexpected_activity_error)
    /\ error_detector m'
       = recorded (error_detector (new_monitor (H := Sim.t) default_config 900))
           unexpected_activity_error.
Proof.
  apply (low_severity_never_remediated unexpected_activity_error
           (new_monitor default_config 900) (Sim.world_at 1000)).
  reflexivity.
Defined.

Lemma findings_and_strategies_witness :
  let d := new_detector default_ui_config in
  let w := Sim.world_at 1000 in
  (forall line, Forall covered (findings (fst (fst (analyze_logcat_line line d w)))))
  /\ (forall memory_info,
        Forall covered (findings (fst (fst (analyze_memory_usage memory_info d w)))))
  /\ (forall ui_dump, Forall covered (findings (fst (fst (analyze_ui_dump ui_dump d w)))))
  /\ (forall is_running current_activity,
        Forall covered
          (findings (fst (fst (analyze_app_state is_running current_activity d w))))).
Proof.
  apply (findings_and_strategies "com.webviewer.firetv" (new_detector default_ui_config)
           (Sim.world_at 1000)).
  reflexivity.
Defined.

Lemma attempt_without_strategy_witness :
  let m := new_monitor (H := Sim.t) default_config 900 in
  let w := Sim.world_at 1000 in
  exists m' w',
    _attempt_auto_fix (permission_error_at 1000) m w = (Ok tt, m', w')
    /\ auto_fixer m' = auto_fixer m
    /\ successful_fixes (stats m') = successful_fixes (stats m)
    /\ failed_fixes (stats m') = failed_fixes (stats m)
    /\ total_fixes_attempted (stats m')
       = total_fixes_attempted (stats m)
         + (if attempts_since (reading w) m <? max_fix_attempts_per_hour (config m)
            then 1 else 0)
    /\ attempts_since (reading w) m' = attempts_since (reading w) m.
Proof.
  apply (attempt_without_strategy (permission_error_at 1000)
           (new_monitor default_config 900) (Sim.world_at 1000)).
  - vm_compute. reflexivity.
  - reflexivity.
Defined.

Lemma health_check_link_down_witness :
  let m := new_monitor (H := Offline.t) (H0 := Offline.offline_host) default_config 900 in
  let w := Offline.world_at 1000 in
  exists records,
    _perform_health_check (H0 := Offline.offline_host) (H1 := Offline.offline_probes) m w
    = (Ok tt, m, mkWorld (host w) (logs w ++ records))
    /\ hd_error records = Some (WARNING, "ADB connection lost, attempting reconnection")
    /\ (length records = 2)%nat.
Proof.
  apply (health_check_link_down (H0 := Offline.offline_host) (H1 := Offline.offline_probes)
           (new_monitor (H0 := Offline.offline_host) default_config 900)
           (Offline.world_at 1000)
           (host (Offline.world_at 1000)) (host (Offline.world_at 1000)) (Ok false));
    [reflexivity | reflexivity | reflexivity | discriminate].
Defined.

(** On the unreachable host every state is one on which the device is out
    of reach. *)
Lemma offline_dead_link : dead_link (H0 := Offline.offline_host) (fun _ => True).
Proof. split; intros; try exact I; (split; [reflexivity | exact I]). Qed.

Lemma out_of_reach_no_success_witness :
  exists r f' w',
    apply_fix (H0 := Offline.offline_host) anr_error
      (new_fixer (H0 := Offline.offline_host)) (Offline.world_at 1000) = (Ok r, f', w')
    /\ True
    /\ match r with
       | None => f' = new_fixer (H0 := Offline.offline_host)
       | Some a =>
           FixAction.result a = out_of_reach_result (error_type anr_error)
           /\ FixAction.result a <> SUCCESS
           /\ fix_history f'
              = append (fix_history (new_fixer (H0 := Offline.offline_host))) a
       end.
Proof.
  apply (out_of_reach_no_success (H0 := Offline.offline_host) (fun _ => True)
           offline_dead_link anr_error (new_fixer (H0 := Offline.offline_host))
           (Offline.world_at 1000)); [reflexivity | exact I].
Defined.

Lemma cleanup_logs_idempotent_witness :
  (_cleanup_logs ;;; _cleanup_logs) (new_monitor (H := Sim.t) default_config 900)
    (Sim.world_at 1000)
  = _cleanup_logs (new_monitor (H := Sim.t) default_config 900) (Sim.world_at 1000).
Proof.
  apply (cleanup_logs_idempotent (new_monitor default_config 900) (Sim.world_at 1000)).
  vm_compute. discriminate.
Defined.

Lemma analyze_ui_dump_default_witness :
  let d := new_detector default_ui_config in
  let w := Sim.world_at 1000 in
  analyze_ui_dump settings_over_browser d w =
    if PyStr.truthy settings_over_browser
       && negb (PyStr.contains focused_true settings_over_browser)
    then (Ok [no_focus_finding (_detect_app_state settings_over_browser) (reading w)], d,
          after_reading w)
    else (Ok [], d, w).
Proof.
  apply (analyze_ui_dump_default settings_over_browser (new_detector default_ui_config)
           (Sim.world_at 1000)).
  reflexivity.
Defined.

Lemma auto_fix_disabled_observes_only_witness :
  let m := new_monitor (H := Sim.t) observer_config 900 in
  let w := Sim.world_at 1000 in
  (forall line,
     let m' := snd (fst (_process_logcat_line line m w)) in
     no_remediation m m' /\ enable_auto_fix (config m') = false)
  /\ (let m' := snd (fst (_perform_health_check (H1 := sim_probes) m w)) in
      no_remediation m m' /\ enable_auto_fix (config m') = false).
Proof.
  apply (auto_fix_disabled_observes_only (H1 := sim_probes)
           (new_monitor observer_config 900) (Sim.world_at 1000)).
  reflexivity.
Defined.

(** The sample on which the leak check divides by zero: a total of 1 KB
    after a stored sample of 0. *)
Lemma analyze_memory_usage_outcome_witness :
  let d := set_last_memory_usage 0 (new_detector default_ui_config) in
  (exists w',
     analyze_memory_usage {[ "total_pss_kb" := 1 ]} d (Sim.world_at 1000)
     = (Raise "division by zero", d, w'))
  /\ exists errors w',
       analyze_memory_usage {[ "total_pss_kb" := 600000 ]}
         (set_last_memory_usage 500000 d) (Sim.world_at 1000)
       = (Ok errors,
          sampled {[ "total_pss_kb" := 600000 ]} (set_last_memory_usage 500000 d), w')
       /\ (length errors <= 2)%nat
       /\ Forall (fun e => source e = "memory") errors.
Proof.
  intros d. split.
  - assert (Hrange : samples_in_range {[ "total_pss_kb" := 1 ]} d)
      by (vm_compute; repeat split; discriminate).
    apply (proj1 (@analyze_memory_usage_outcome Sim.t _ {[ "total_pss_kb" := 1 ]} d
                    (Sim.world_at 1000) Hrange)).
    split; [vm_compute; discriminate|]. split; reflexivity.
  - assert (Hrange : samples_in_range {[ "total_pss_kb" := 600000 ]}
                       (set_last_memory_usage 500000 d))
      by (vm_compute; repeat split; discriminate).
    apply (proj2 (@analyze_memory_usage_outcome Sim.t _ {[ "total_pss_kb" := 600000 ]}
                    (set_last_memory_usage 500000 d) (Sim.world_at 1000) Hrange)).
    intros (_ & Hzero & _). discriminate Hzero.
Defined.

(** ** The properties of the device link at concrete inputs *)

Section BenchRuns.
#[local] Existing Instance Bench.bench_subprocess.


(** On the simulated machine the device is out of reach while it is
    offline. *)
Lemma bench_out_of_reach :
  out_of_reach Bench.manager
    (fun s => Bench.online s = false).
Proof.
  split.
  - intros cmd timeout s Hs. exact Hs.
  - intros s Hs. unfold not_listed. cbn [ADB.subprocess_run Bench.bench_subprocess fst].
    unfold Bench.answer. rewrite Hs. vm_compute. reflexivity.
  - intros s Hs. unfold not_connected. cbn [ADB.subprocess_run Bench.bench_subprocess fst].
    unfold Bench.answer, Bench.manager. cbn [ADB.device_id ADB.new_manager]. rewrite Hs.
    right. vm_compute. reflexivity.
Qed.

Lemma out_of_reach_operations_witness :
  let adb := Bench.manager in
  let w := Bench.at_ 1000 false "" in
  (forall command timeout,
     unanswered adb w None
       (ADB.execute_command command timeout))
  /\ unanswered adb w None ADB.get_screen_dump
  /\ unanswered adb w None ADB.get_app_memory_usage
  /\ unanswered adb w false ADB.is_app_installed
  /\ unanswered adb w false ADB.is_app_running
  /\ unanswered adb w false ADB.start_app
  /\ unanswered adb w false ADB.force_stop_app
  /\ unanswered adb w false ADB.clear_app_data
  /\ (forall key_code,
        unanswered adb w false (ADB.send_key_event key_code))
  /\ (forall x y, unanswered adb w false (ADB.send_tap x y)).
Proof.
  apply (out_of_reach_operations Bench.manager
           (fun s => Bench.online s = false) (Bench.at_ 1000 false "")).
  - exact bench_out_of_reach.
  - reflexivity.
Defined.

(** The fixer on the device link of the daemon, the device online. *)
Lemma quiet_link_records_cooldown_witness :
  let link := adb_link (H := Bench.bench_machine) Bench.manager in
  let f := new_fixer (H0 := link) in
  let w := mkWorld (Bench.at_ 1000 true "") [] in
  exists r f' w',
    apply_fix (H0 := link) anr_error f w = (Ok r, f', w')
    /\ True
    /\ match r with
       | None => f' = f
       | Some a =>
           fix_history f' = append (fix_history f) a
           /\ last_fix_times f'
              = <[error_type anr_error := FixAction.timestamp a]> (last_fix_times f)
           /\ FixAction.timestamp a = start_reading (H0 := link) anr_error w
           /\ dict_get "error" (FixAction.details a) = None
       end.
Proof.
  apply (quiet_link_records_cooldown
           (H0 := adb_link (H := Bench.bench_machine) Bench.manager) (fun _ => True)
           (adb_link_quiet (H := Bench.bench_machine) Bench.manager) anr_error
           (new_fixer (H0 := adb_link (H := Bench.bench_machine) Bench.manager))
           (mkWorld (Bench.at_ 1000 true "") [])); [reflexivity | exact I].
Defined.

(** The guard on the API level lets a superscript digit through, and the
    device information is lost to the [ValueError] of [int]. *)
Example superscript_level_gives_none :
  let '(r, _, w') :=
    ADB.get_device_info Bench.manager (Bench.at_ 1000 true superscript_two) in
  r = Ok None
  /\ logs w'
     = [(ERROR, "Error getting device info: invalid literal for int() with base 10: '"
                ++ superscript_two ++ "'")].
Proof. vm_compute. repeat split. Qed.

End BenchRuns.

Lemma sample_without_total_witness :
  let d := set_last_memory_usage 300000 (new_detector default_ui_config) in
  analyze_memory_usage {[ "native_heap_kb" := 5000 ]} d (Sim.world_at 1000)
  = (Ok [], set_last_memory_usage 0 d, Sim.world_at 1000).
Proof.
  intros d.
  apply (sample_without_total {[ "native_heap_kb" := 5000 ]} d (Sim.world_at 1000)).
  - vm_compute. discriminate.
  - vm_compute. reflexivity.
  - vm_compute. repeat split; discriminate.
Defined.

(** ** The further properties of the classifier at concrete inputs *)


(** The raising case is met: the classifier raises on [untagged_crash_line],
    and the monitor that reads the line keeps it in its buffer, logs the
    failed analysis and counts no error, so the crash is not handled. *)
Example untagged_crash_line_raises :
  fst (fst (analyze_logcat_line untagged_crash_line (new_detector default_ui_config)
              (Sim.world_at 99)))
  = Raise "list index out of range"
  /\ (let '(r, m', w') :=
        _process_logcat_line untagged_crash_line (new_monitor default_config 0)
          (Sim.world_at 99) in
      r = Ok tt
      /\ total_errors_detected (stats m') = 0
      /\ error_history (error_detector m') = []
      /\ logcat_buffer m' = [(99%Q, untagged_crash_line)]
      /\ logs w' = [(ERROR, "Error analysis failed: list index out of range")]).
Proof. vm_compute. repeat split. Qed.

(** The start-up on the device link of the daemon: with the device online
    and the package listed it answers [True] and logs what the device
    reported; with the device offline it answers [False] and logs nothing of
    its own. *)
Example initialize_connection_on_the_bench :
  let link := adb_link (H := Bench.bench_machine) Bench.manager in
  let setup := adb_setup (H := Bench.bench_machine) Bench.manager in
  let m := new_monitor (H0 := link) default_config 0 in
  (let '(r, _, w') :=
     _initialize_connection (H0 := link) (H1 := setup) m
       (mkWorld (Bench.at_ 1000 true "com.webviewer.firetv") []) in
   r = Ok true
   /\ logs w' = [(INFO, "Connected to com.webviewer.firetv (Android com.webviewer.firetv)")])
  /\ (let '(r, _, w') :=
        _initialize_connection (H0 := link) (H1 := setup) m
          (mkWorld (Bench.at_ 1000 false "") []) in
      r = Ok false /\ logs w' = []).
Proof. vm_compute. repeat split. Qed.
